(** * MOA chain: a shallow embedding of the mixture-of-agents orchestrator

    The development follows the TypeScript source of the orchestrator
    (endpoint selector, prompt resolver, agent invoker, layer processor,
    aggregator and chain controller).

    - JavaScript strings are sequences of code units below 256 ([string]).
    - Numbers are IEEE-754 binary64 values ([spec_float] at precision 53),
      with the coercions between numbers and strings of the language.
    - A call returns a value or throws one ([Result]); for an async
      function this is the promise fulfilled or rejected.
    - The module state (the round-robin cursor), the strategy objects a
      configuration shares by reference, and the effects on the outside
      (shell commands, file reads) are threaded through a [World].
    - What the module only reads (endpoints, working directory, files,
      the XML parser, the answers of the backends) is an [Env]; every
      general statement holds for all of them.
    - [path.resolve], the DOM queries and [Promise.all] are library code;
      they are written down from their documented behaviour.
    - The counter of the controller's outer loop is a Number, and for a
      bound above 2^53 the loop has no end of its own; it is then followed
      for a given number of passes, and the result says whether control
      is still in the loop.
    - Writes to the console are left out. *)

From Stdlib Require Import String Ascii List ZArith Lia Bool PeanoNat.
From Stdlib Require Import DecimalString SpecFloat.
Import ListNotations.

Open Scope string_scope.

(** ** JavaScript string primitives *)

Module JsString.

(** [s.startsWith(p)] *)
Definition startsWith (s p : string) : bool := String.prefix p s.

(** [s.endsWith(p)] *)
Definition endsWith (s p : string) : bool :=
  (String.length p <=? String.length s)%nat &&
  String.eqb (substring (String.length s - String.length p) (String.length p) s) p.

(** [s.includes(sub)]: [sub] occurs somewhere in [s]. *)
Fixpoint includes (s sub : string) : bool :=
  String.prefix sub s ||
  match s with
  | EmptyString => false
  | String _ s' => includes s' sub
  end.

(** Drop the first [n] code units. *)
Fixpoint drop (n : nat) (s : string) : string :=
  match n, s with
  | O, _ => s
  | S _, EmptyString => EmptyString
  | S n', String _ s' => drop n' s'
  end.

(** Split [s] around the first occurrence of [pat]: the text before the
    match and the text after it. *)
Fixpoint splitFirst (pat s : string) : option (string * string) :=
  if String.prefix pat s then Some (EmptyString, drop (String.length pat) s)
  else match s with
       | EmptyString => None
       | String c s' =>
           match splitFirst pat s' with
           | Some (before, after) => Some (String c before, after)
           | None => None
           end
       end.

(** White space and line terminators among the code units below 256:
    TAB, LF, VT, FF, CR, SPACE and NBSP. *)
Definition isWhiteSpace (c : ascii) : bool :=
  let n := nat_of_ascii c in
  ((9 <=? n) && (n <=? 13) || (n =? 32) || (n =? 160))%nat.

Fixpoint trimStart (s : string) : string :=
  match s with
  | EmptyString => EmptyString
  | String c s' => if isWhiteSpace c then trimStart s' else s
  end.

Fixpoint trimEnd (s : string) : string :=
  match s with
  | EmptyString => EmptyString
  | String c s' =>
      match trimEnd s' with
      | EmptyString => if isWhiteSpace c then EmptyString else String c EmptyString
      | t => String c t
      end
  end.

(** [s.trim()] *)
Definition trim (s : string) : string := trimEnd (trimStart s).

(** [xs.join(sep)] *)
Fixpoint join (sep : string) (xs : list string) : string :=
  match xs with
  | [] => EmptyString
  | [x] => x
  | x :: rest => x ++ sep ++ join sep rest
  end.

(** Expansion of the replacement text of [String.prototype.replace] when
    the pattern is a string (no capture groups): [$$] is a dollar sign,
    [$&] the matched text, [$`] the text before the match, [$'] the text
    after it; any other use of [$] is literal. *)
Fixpoint getSubstitution (matched before after replacement : string) : string :=
  match replacement with
  | EmptyString => EmptyString
  | String c r =>
      if Ascii.eqb c "$" then
        match r with
        | EmptyString => String c EmptyString
        | String d r' =>
            if Ascii.eqb d "$" then
              String "$" (getSubstitution matched before after r')
            else if Ascii.eqb d "&" then
              matched ++ getSubstitution matched before after r'
            else if Ascii.eqb d "`" then
              before ++ getSubstitution matched before after r'
            else if Ascii.eqb d "'" then
              after ++ getSubstitution matched before after r'
            else String c (getSubstitution matched before after r)
        end
      else String c (getSubstitution matched before after r)
  end.

(** [s.replace(pat, replacement)] with a string pattern: only the first
    occurrence is replaced. *)
Definition replace (s pat replacement : string) : string :=
  match splitFirst pat s with
  | None => s
  | Some (before, after) =>
      before ++ getSubstitution pat before after replacement ++ after
  end.

(** Decimal rendering of an array index or length. *)
Definition ofNat (n : nat) : string := NilZero.string_of_uint (Nat.to_uint n).

(** Decimal rendering of an integer-valued number. *)
Definition ofZ (z : Z) : string := NilZero.string_of_int (Z.to_int z).

(** The line feed character. *)
Definition LF : string := String (ascii_of_nat 10) EmptyString.

End JsString.

(** ** JavaScript numbers: IEEE-754 binary64 *)

Module JsNumber.

Definition prec : Z := 53.
Definition emax : Z := 1024.

(** The Number type: a binary64 value. *)
Definition Number : Type := spec_float.

Definition NaN : Number := S754_nan.

(** [x * y], [x / y] and [x + y] on Numbers, rounded to nearest even, and
    [x < y]. *)
Definition mul (x y : Number) : Number := SFmul prec emax x y.
Definition div (x y : Number) : Number := SFdiv prec emax x y.
Definition add (x y : Number) : Number := SFadd prec emax x y.
Definition lt (x y : Number) : bool := SFltb x y.

(** The least integer that is not below the positive number [m * 2^e]. *)
Definition ceiling (m : positive) (e : Z) : Z :=
  if (0 <=? e)%Z then (Z.pos m * 2 ^ e)%Z
  else ((Z.pos m + 2 ^ (- e) - 1) / 2 ^ (- e))%Z.

(** The Number denoting an integer (exact below 2^53). *)
Definition ofZ (z : Z) : Number := binary_normalize prec emax z 0 false.
Definition ofNat (n : nat) : Number := ofZ (Z.of_nat n).

(** Structural equality of Numbers in canonical form. *)
Definition sameValue (x y : Number) : bool :=
  match x, y with
  | S754_zero a, S754_zero b => Bool.eqb a b
  | S754_infinity a, S754_infinity b => Bool.eqb a b
  | S754_nan, S754_nan => true
  | S754_finite a m e, S754_finite b m' e' =>
      Bool.eqb a b && Pos.eqb m m' && Z.eqb e e'
  | _, _ => false
  end.

(** Number of decimal digits of a positive integer. *)
Definition decimalDigits (s : Z) : Z :=
  Z.of_nat (String.length (NilZero.string_of_uint (N.to_uint (Z.to_N s)))).

(** The Number nearest to [s * 10^e10] for a natural [s] (ties to even);
    its sign is [neg]. *)
Definition ofDecimal (neg : bool) (s e10 : Z) : Number :=
  match s with
  | Z0 => S754_zero neg
  | Zpos p =>
      if (310 <? decimalDigits s + e10)%Z then S754_infinity neg
      else if (decimalDigits s + e10 <? -330)%Z then S754_zero neg
      else if (0 <=? e10)%Z then
        binary_normalize prec emax (if neg then - (s * 10 ^ e10) else s * 10 ^ e10) 0 neg
      else
        let '(mz, ez, lz) := SFdiv_core_binary prec emax s 0 (10 ^ (- e10)) 0 in
        binary_round_aux prec emax neg mz ez lz
  | Zneg _ => NaN
  end.

(** *** ToNumber applied to a string (StringToNumber) *)

Definition digitValue (c : ascii) : option Z :=
  let n := Z.of_nat (nat_of_ascii c) in
  if (48 <=? n)%Z && (n <=? 57)%Z then Some (n - 48)%Z
  else if (97 <=? n)%Z && (n <=? 122)%Z then Some (n - 87)%Z
  else if (65 <=? n)%Z && (n <=? 90)%Z then Some (n - 55)%Z
  else None.

Definition isDecimalDigit (c : ascii) : bool :=
  match digitValue c with
  | Some d => (d <? 10)%Z
  | None => false
  end.

(** The leading decimal digits of [s] and what follows them. *)
Fixpoint spanDigits (s : string) : string * string :=
  match s with
  | EmptyString => (EmptyString, EmptyString)
  | String c s' =>
      if isDecimalDigit c
      then let '(ds, rest) := spanDigits s' in (String c ds, rest)
      else (EmptyString, s)
  end.

(** The value of a digit string in the given radix, most significant digit
    first; [None] when a code unit is not a digit of that radix. *)
Fixpoint digitsValue (radix : Z) (acc : Z) (s : string) : option Z :=
  match s with
  | EmptyString => Some acc
  | String c s' =>
      match digitValue c with
      | Some d => if (d <? radix)%Z then digitsValue radix (acc * radix + d) s' else None
      | None => None
      end
  end.

Definition nonEmptyDigits (radix : Z) (s : string) : option Z :=
  match s with
  | EmptyString => None
  | _ => digitsValue radix 0 s
  end.

(** An optional sign: whether it is a minus, and the text after it. *)
Definition splitSign (s : string) : bool * string :=
  match s with
  | String "-" r => (true, r)
  | String "+" r => (false, r)
  | _ => (false, s)
  end.

(** ExponentPart (or nothing) up to the end of the text. *)
Definition exponentPart (s : string) : option Z :=
  match s with
  | EmptyString => Some 0%Z
  | String c r =>
      if Ascii.eqb c "e" || Ascii.eqb c "E" then
        let '(neg, ds) := splitSign r in
        match nonEmptyDigits 10 ds with
        | Some e => Some (if neg then (- e)%Z else e)
        | None => None
        end
      else None
  end.

(** StrUnsignedDecimalLiteral other than Infinity: the decimal mantissa and
    the power of ten. *)
Definition unsignedDecimal (s : string) : option (Z * Z) :=
  let '(intPart, rest) := spanDigits s in
  let '(fracPart, rest') :=
    match rest with
    | String "." r => spanDigits r
    | _ => (EmptyString, rest)
    end in
  match intPart ++ fracPart with
  | EmptyString => None
  | ds =>
      match digitsValue 10 0 ds, exponentPart rest' with
      | Some m, Some e => Some (m, (e - Z.of_nat (String.length fracPart))%Z)
      | _, _ => None
      end
  end.

(** NonDecimalIntegerLiteral: [0x], [0o] and [0b] literals. *)
Definition nonDecimalInteger (s : string) : option Z :=
  match s with
  | String "0" (String c r) =>
      if Ascii.eqb c "x" || Ascii.eqb c "X" then nonEmptyDigits 16 r
      else if Ascii.eqb c "o" || Ascii.eqb c "O" then nonEmptyDigits 8 r
      else if Ascii.eqb c "b" || Ascii.eqb c "B" then nonEmptyDigits 2 r
      else None
  | _ => None
  end.

(** [Number(s)], the coercion the operator [*] applies to a string
    operand. *)
Definition ofString (s : string) : Number :=
  let t := JsString.trim s in
  match t with
  | EmptyString => S754_zero false
  | _ =>
      match nonDecimalInteger t with
      | Some z => ofZ z
      | None =>
          let '(neg, u) := splitSign t in
          if String.eqb u "Infinity" then S754_infinity neg
          else match unsignedDecimal u with
               | Some (m, e) => ofDecimal neg m e
               | None => NaN
               end
      end
  end.

(** *** Number::toString in radix 10 *)

(** A positive finite value as a fraction [num / den]. *)
Definition toFraction (m : positive) (e : Z) : Z * Z :=
  if (0 <=? e)%Z then (Zpos m * 2 ^ e, 1)%Z else (Zpos m, 2 ^ (- e))%Z.

(** [num / den < 10^n] *)
Definition belowPow10 (num den n : Z) : bool :=
  if (0 <=? n)%Z then (num <? den * 10 ^ n)%Z else (num * 10 ^ (- n) <? den)%Z.

(** The least [n >= from] with [num / den < 10^n]. *)
Fixpoint magnitude10 (fuel : nat) (num den from : Z) : Z :=
  match fuel with
  | O => from
  | S fuel' =>
      if belowPow10 num den from then from
      else magnitude10 fuel' num den (from + 1)%Z
  end.

(** For [k] digits: the integers below and above [x / 10^(n0-k)] that
    read back as [x], the nearer one first ([s], the power of ten). *)
Definition digitCandidate (x : Number) (num den n0 k : Z) : option (Z * Z) :=
  let t := (n0 - k)%Z in
  let '(a, b) := if (0 <=? t)%Z then (num, den * 10 ^ t)%Z
                 else (num * 10 ^ (- t), den)%Z in
  let lo := (a / b)%Z in
  let r := (a mod b)%Z in
  let hi := if (r =? 0)%Z then lo else (lo + 1)%Z in
  let okLo := sameValue (ofDecimal false lo t) x in
  let okHi := sameValue (ofDecimal false hi t) x in
  let preferHi :=
    match (2 * r ?= b)%Z with
    | Lt => false
    | Gt => true
    | Eq => Z.odd lo
    end in
  match okLo, okHi with
  | true, true => Some (if preferHi then hi else lo, t)
  | true, false => Some (lo, t)
  | false, true => Some (hi, t)
  | false, false => None
  end.

(** The shortest digit string: [k] from [from] upwards. *)
Fixpoint shortestDigits (fuel : nat) (x : Number) (num den n0 k : Z) : Z * Z :=
  match fuel with
  | O => (0, 0)%Z
  | S fuel' =>
      match digitCandidate x num den n0 k with
      | Some st => st
      | None => shortestDigits fuel' x num den n0 (k + 1)%Z
      end
  end.

Definition digitsOf (s : Z) : string := NilZero.string_of_uint (N.to_uint (Z.to_N s)).

Fixpoint zeros (n : nat) : string :=
  match n with
  | O => EmptyString
  | S n' => String "0" (zeros n')
  end.

(** Remove the zeros that end a digit string (at least one digit stays). *)
Fixpoint stripTrailingZeros (s : string) : string :=
  match s with
  | EmptyString => EmptyString
  | String c r =>
      match stripTrailingZeros r with
      | EmptyString => if Ascii.eqb c "0" then EmptyString else String c EmptyString
      | t => String c t
      end
  end.

(** The text of a positive finite value whose digits are [ds] ([k] of
    them, no trailing zero) and whose decimal point sits after [n] digits. *)
Definition formatDigits (ds : string) (n : Z) : string :=
  let k := Z.of_nat (String.length ds) in
  if (k <=? n)%Z && (n <=? 21)%Z then ds ++ zeros (Z.to_nat (n - k))
  else if (0 <? n)%Z && (n <=? 21)%Z then
    substring 0 (Z.to_nat n) ds ++ "." ++ JsString.drop (Z.to_nat n) ds
  else if (-6 <? n)%Z && (n <=? 0)%Z then
    "0." ++ zeros (Z.to_nat (- n)) ++ ds
  else
    let e := (n - 1)%Z in
    let exponent := (if (e <? 0)%Z then "-" else "+") ++ digitsOf (Z.abs e) in
    match ds with
    | String d EmptyString => String d EmptyString ++ "e" ++ exponent
    | _ => substring 0 1 ds ++ "." ++ JsString.drop 1 ds ++ "e" ++ exponent
    end.

Definition positiveToString (m : positive) (e : Z) : string :=
  let '(num, den) := toFraction m e in
  let n0 := magnitude10 700 num den (-330) in
  let '(s, t) := shortestDigits 17 (S754_finite false m e) num den n0 1 in
  let ds := stripTrailingZeros (digitsOf s) in
  formatDigits ds (Z.of_nat (String.length (digitsOf s)) + t).

(** [String(x)] for a Number, the coercion string concatenation applies. *)
Definition toString (x : Number) : string :=
  match x with
  | S754_nan => "NaN"
  | S754_zero _ => "0"
  | S754_infinity neg => if neg then "-Infinity" else "Infinity"
  | S754_finite neg m e =>
      (if neg then "-" else EmptyString) ++ positiveToString m e
  end.

End JsNumber.

(** ** Data model (the interfaces of the source) *)

Module OllamaInstance.
Record t := { uri : string; name : option string; priority : option Z }.
End OllamaInstance.

(** [Agent], with the [instanceUri] that [AgentConfig] adds: the agent
    objects of a configuration are passed to [runModel] as they are. *)
Module Agent.
Record t := {
  name : string;
  model : string;
  temperature : option JsNumber.Number;
  promptTemplate : string;
  systemPrompt : option string;
  instanceUri : option string
}.
End Agent.

(** The [method] of a strategy; a configuration read from JSON can carry a
    string that is none of the four declared ones. *)
Inductive Method :=
| voting
| synthesis
| concatenate
| weighted
| unrecognized (method : string).

Module AggregationStrategy.
Record t := {
  method : Method;
  promptTemplate : option string;
  weights : option (list JsNumber.Number)
}.
End AggregationStrategy.

(** Strategy objects live in the store of the [World]; a layer holds a
    reference to its strategy, as the JavaScript object does. *)
Definition StrategyRef : Type := nat.

Module Layer.
Record t := {
  name : string;
  agents : list Agent.t;
  aggregationStrategy : StrategyRef
}.
End Layer.

(** The metadata object built by the chain controller. *)
Record Metadata := {
  iterations : JsNumber.Number;
  totalResponses : nat;
  finalResponseLength : nat
}.

Record ModelResponse := {
  content : string;
  metadata : option Metadata;
  error : option string
}.

(** A thrown value: an [Error] object with its message, any other value
    with the text [String(value)] gives, or a value that has no conversion
    to a string, such as [Object.create(null)]. *)
Inductive Thrown :=
| ErrorObject (message : string)
| ThrownValue (text : string)
| Unprintable.

(** Outcome of a call: a returned value or a thrown one (for an async
    function: the promise fulfilled or rejected). *)
Inductive Result (A : Type) :=
| Ok (value : A)
| Throw (reason : Thrown).

Arguments Ok {A} value.
Arguments Throw {A} reason.

Module MOAConfig.
Record t := {
  layers : list Layer.t;
  maxIterations : JsNumber.Number;
  stopCriteria : option (list ModelResponse -> Result bool)
}.
End MOAConfig.

(** [JS truthiness] of an optional string: present and not empty. *)
Definition truthy (s : option string) : bool :=
  match s with
  | Some (String _ _) => true
  | _ => false
  end.

(** [a || b] on optional strings. *)
Definition orElse (a b : option string) : option string :=
  if truthy a then a else b.

(** The [TypeError] of [String(value)] on a value that has no conversion
    to a string (the wording is the engine's). *)
Definition noDefaultValue : Thrown := ErrorObject "No default value".

(** [error instanceof Error ? error.message : String(error)]: the
    expression itself throws on a value without a conversion. *)
Definition errorText (e : Thrown) : Result string :=
  match e with
  | ErrorObject message => Ok message
  | ThrownValue text => Ok text
  | Unprintable => Throw noDefaultValue
  end.

(** ** The document object model of parsed prompt files *)

#[local] Unset Elimination Schemes.
Inductive Node :=
| Element (tagName : string) (childNodes : list Node)
| Text (data : string)
| Comment (data : string).
#[local] Set Elimination Schemes.

(** A parsed document: the children of the document node. *)
Definition Document : Type := list Node.

(** The elements named [tag] among a node and its descendants, in document
    order. *)
Fixpoint elementsByTagNameIn (tag : string) (n : Node) : list Node :=
  match n with
  | Element t cs =>
      (if String.eqb t tag then [n] else []) ++ flat_map (elementsByTagNameIn tag) cs
  | Text _ => []
  | Comment _ => []
  end.

(** [doc.getElementsByTagName(tag)] *)
Definition getElementsByTagName (doc : Document) (tag : string) : list Node :=
  flat_map (elementsByTagNameIn tag) doc.

(** [node.textContent]: the text of the descendants, comments left out. *)
Fixpoint textContent (n : Node) : string :=
  match n with
  | Element _ cs =>
      (fix children (l : list Node) : string :=
         match l with
         | [] => EmptyString
         | Comment _ :: rest => children rest
         | c :: rest => textContent c ++ children rest
         end) cs
  | Text d => d
  | Comment d => d
  end.

(** ** POSIX paths ([path.resolve] with one argument)

    The steps of the POSIX implementation: the argument is put after the
    working directory unless it is absolute, then the segments are
    normalized. *)

Module Path.

(** [s.split("/")] *)
Fixpoint split (s : string) : list string :=
  match s with
  | EmptyString => [EmptyString]
  | String c s' =>
      if Ascii.eqb c "/" then EmptyString :: split s'
      else match split s' with
           | seg :: rest => String c seg :: rest
           | [] => [String c EmptyString]
           end
  end.

(** [normalizeString]: empty and [.] segments disappear, [..] removes the
    segment before it; [acc] holds the kept segments, last one first. *)
Fixpoint normalizeSegments (allowAboveRoot : bool) (acc segs : list string)
  : list string :=
  match segs with
  | [] => rev acc
  | seg :: rest =>
      if String.eqb seg EmptyString || String.eqb seg "." then
        normalizeSegments allowAboveRoot acc rest
      else if String.eqb seg ".." then
        match acc with
        | last :: acc' =>
            if String.eqb last ".."
            then normalizeSegments allowAboveRoot
                   (if allowAboveRoot then seg :: acc else acc) rest
            else normalizeSegments allowAboveRoot acc' rest
        | [] =>
            normalizeSegments allowAboveRoot
              (if allowAboveRoot then [seg] else []) rest
        end
      else normalizeSegments allowAboveRoot (seg :: acc) rest
  end.

Definition isAbsolute (p : string) : bool := JsString.startsWith p "/".

(** [path.resolve(p)] in the working directory [cwd]. *)
Definition resolve (cwd p : string) : string :=
  let joined :=
    match p with
    | EmptyString => cwd ++ "/"
    | _ => if isAbsolute p then p ++ "/" else cwd ++ "/" ++ p ++ "/"
    end in
  let resolvedAbsolute :=
    match p with
    | EmptyString => isAbsolute cwd
    | _ => isAbsolute p || isAbsolute cwd
    end in
  let normalized :=
    JsString.join "/" (normalizeSegments (negb resolvedAbsolute) [] (split joined)) in
  if resolvedAbsolute then "/" ++ normalized
  else match normalized with
       | EmptyString => "."
       | _ => normalized
       end.

(** The directories and the name an absolute path walks through. *)
Definition segments (p : string) : list string :=
  normalizeSegments false [] (split p).

Fixpoint isPrefixOf (xs ys : list string) : bool :=
  match xs, ys with
  | [], _ => true
  | x :: xs', y :: ys' => String.eqb x y && isPrefixOf xs' ys'
  | _ :: _, [] => false
  end.

(** The absolute path [p] is [dir] itself or lies below it. *)
Definition inside (dir p : string) : bool :=
  isPrefixOf (segments dir) (segments p).

End Path.

(** ** The world outside the orchestrator *)

(** The two backend invocations [runModel] issues through the shell. *)
Inductive ShellCommand :=
| OllamaRun (host modelName prompt : string)
| LlmRun (modelName prompt : string).

(** What [await $`...`] gives: the text of the standard output, or the
    rejection of the shell on a failed command, a [ShellError], which is
    an [Error] with a message. *)
Inductive ShellOutcome :=
| Stdout (text : string)
| ShellError (message : string).

(** What the run does to its surroundings, in order of occurrence. *)
Inductive Event :=
| EvShell (command : ShellCommand)
| EvReadFile (path : string).

(** A file system entry: [statSync(path).size] and what [readFileSync]
    gives. *)
Record File := {
  size : Z;
  read : Result string
}.

(** The result of [readXMLPrompt]. *)
Module XmlPrompt.
Record t := { systemPrompt : option string; template : string }.
End XmlPrompt.

(** Everything the module reads but does not own: the endpoints loaded
    from the environment, the synthesis model, the working directory, the
    file system, the XML parser, the outcome of a shell command (which may
    depend on all that happened before) and, for [Promise.all], which of
    several rejected promises was rejected first. *)
Record Env := {
  ollamaInstances : list OllamaInstance.t;
  SYNTHESIS_MODEL : string;
  cwd : string;
  files : string -> option File;
  parseFromString : string -> Result Document;
  shell : list Event -> ShellCommand -> ShellOutcome;
  firstRejected : list Thrown -> nat
}.

(** The mutable state: the round-robin cursor, the strategy objects of the
    configuration, and the events so far (oldest first). *)
Record World := {
  currentInstanceIndex : nat;
  strategies : StrategyRef -> AggregationStrategy.t;
  trace : list Event
}.

Definition setInstanceIndex (i : nat) (w : World) : World :=
  {| currentInstanceIndex := i; strategies := strategies w; trace := trace w |}.

Definition logEvent (ev : Event) (w : World) : World :=
  {| currentInstanceIndex := currentInstanceIndex w;
     strategies := strategies w;
     trace := trace w ++ [ev] |}.

(** [strategy.promptTemplate = value] on the object [ref] refers to. *)
Definition assignPromptTemplate (ref : StrategyRef) (value : string) (w : World)
  : World :=
  {| currentInstanceIndex := currentInstanceIndex w;
     strategies := fun r =>
       if Nat.eqb r ref then
         {| AggregationStrategy.method := AggregationStrategy.method (strategies w ref);
            AggregationStrategy.promptTemplate := Some value;
            AggregationStrategy.weights := AggregationStrategy.weights (strategies w ref) |}
       else strategies w r;
     trace := trace w |}.

(** ** Computations: state passing with exceptions *)

Definition M (A : Type) : Type := World -> Result A * World.

Definition ret {A} (a : A) : M A := fun w => (Ok a, w).

Definition throw {A} (e : Thrown) : M A := fun w => (Throw e, w).

Definition bind {A B} (m : M A) (k : A -> M B) : M B :=
  fun w =>
    match m w with
    | (Ok a, w') => k a w'
    | (Throw e, w') => (Throw e, w')
    end.

(** [try { m } catch (error) { handler(error) }] *)
Definition tryCatch {A} (m : M A) (handler : Thrown -> M A) : M A :=
  fun w =>
    match m w with
    | (Ok a, w') => (Ok a, w')
    | (Throw e, w') => handler e w'
    end.

Definition liftResult {A} (r : Result A) : M A := fun w => (r, w).

Declare Scope js_scope.
Delimit Scope js_scope with js.
Notation "x <- m ;; k" := (bind m (fun x => k))
  (at level 61, m at next level, right associativity) : js_scope.
Notation "' pat <- m ;; k" := (bind m (fun x => match x with pat => k end))
  (at level 61, pat pattern, m at next level, right associativity) : js_scope.

Open Scope js_scope.

(** A state-passing map that cannot throw, for the synchronous sweep over
    the agents of a layer. *)
Fixpoint mapWorld {A B} (f : A -> World -> B * World) (xs : list A) (w : World)
  : list B * World :=
  match xs with
  | [] => ([], w)
  | x :: rest =>
      let '(y, w1) := f x w in
      let '(ys, w2) := mapWorld f rest w1 in
      (y :: ys, w2)
  end.

(** ** Endpoint selector *)

Definition localhostFallback : OllamaInstance.t :=
  {| OllamaInstance.uri := "http://localhost:11434";
     OllamaInstance.name := None;
     OllamaInstance.priority := None |}.

(** [getNextInstance()]; [None] is the [undefined] that an index outside
    the array would read. *)
Definition getNextInstance (env : Env) (w : World)
  : option OllamaInstance.t * World :=
  match ollamaInstances env with
  | [] => (Some localhostFallback, w)
  | _ :: _ =>
      let instance := nth_error (ollamaInstances env) (currentInstanceIndex w) in
      (instance,
       setInstanceIndex
         ((currentInstanceIndex w + 1) mod List.length (ollamaInstances env)) w)
  end.

(** The results of [n] successive calls, oldest first. *)
Definition getNextInstances (env : Env) (n : nat) (w : World)
  : list (option OllamaInstance.t) * World :=
  mapWorld (fun _ : nat => getNextInstance env) (seq 1 n) w.

(** ** Prompt resolver *)

Definition MAX_FILE_SIZE : Z := 1024 * 1024.

(** [fs.readFileSync(path, 'utf-8')] on an existing entry. *)
Definition readFileSync (f : File) (path : string) : M string :=
  fun w => (read f, logEvent (EvReadFile path) w).

(** [readXMLPrompt(promptFile)]; the [catch] clause of the source logs and
    throws the same error again, which leaves the outcome as it is. *)
Definition readXMLPrompt (env : Env) (promptFile : string) : M XmlPrompt.t :=
  let resolvedPath := Path.resolve (cwd env) promptFile in
  if negb (JsString.includes resolvedPath (cwd env)) then
    throw (ErrorObject "File path must be within current working directory")
  else
    match files env resolvedPath with
    | None => throw (ErrorObject ("Prompt file not found: " ++ promptFile))
    | Some f =>
        if (MAX_FILE_SIZE <? size f)%Z then
          throw (ErrorObject ("Prompt file too large: " ++ JsString.ofZ (size f)
                              ++ " bytes (max " ++ JsString.ofZ MAX_FILE_SIZE ++ " bytes)"))
        else
          content <- readFileSync f resolvedPath ;;
          doc <- liftResult (parseFromString env content) ;;
          match getElementsByTagName doc "prompt" with
          | [] => throw (ErrorObject "Invalid XML: missing root <prompt> element")
          | _ :: _ =>
              let systemElement := hd_error (getElementsByTagName doc "system") in
              match hd_error (getElementsByTagName doc "template") with
              | None => throw (ErrorObject "Invalid XML: missing <template> element")
              | Some templateElement =>
                  ret {| XmlPrompt.systemPrompt :=
                           option_map (fun e => JsString.trim (textContent e)) systemElement;
                         XmlPrompt.template := JsString.trim (textContent templateElement) |}
              end
          end
    end.

(** ** Agent invoker *)

(** The [TypeError] of reading [.uri] from [undefined]: in the callback
    of [processLayer] and in [preloadModels], where the endpoint is bound
    to [instance], and in [runModel], where it is read off the call. *)
Definition undefinedInstance : Thrown :=
  ErrorObject "undefined is not an object (evaluating 'instance.uri')".

Definition undefinedNextInstance : Thrown :=
  ErrorObject "undefined is not an object (evaluating 'getNextInstance().uri')".

(** The outcome of a shell command as the awaiting code sees it. *)
Definition awaited (outcome : ShellOutcome) : Result string :=
  match outcome with
  | Stdout text => Ok text
  | ShellError message => Throw (ErrorObject message)
  end.

(** A shell command: its outcome is the environment's, and it is recorded. *)
Definition run (env : Env) (command : ShellCommand) : M string :=
  fun w => (awaited (shell env (trace w) command), logEvent (EvShell command) w).

(** [agent.instanceUri || getNextInstance().uri] *)
Definition chooseInstanceUri (env : Env) (agent : Agent.t) : M string :=
  if truthy (Agent.instanceUri agent) then
    ret (match Agent.instanceUri agent with Some u => u | None => EmptyString end)
  else
    fun w =>
      match getNextInstance env w with
      | (Some instance, w') => (Ok (OllamaInstance.uri instance), w')
      | (None, w') => (Throw undefinedNextInstance, w')
      end.

(** [runModel(agent, prompt)] *)
Definition runModel (env : Env) (agent : Agent.t) (prompt : string)
  : M ModelResponse :=
  tryCatch
    (instanceUri <- chooseInstanceUri env agent ;;
     output <-
       (if JsString.startsWith (Agent.model agent) "ollama:" then
          let modelName := JsString.replace (Agent.model agent) "ollama:" EmptyString in
          run env (OllamaRun instanceUri modelName prompt)
        else if JsString.startsWith (Agent.model agent) "llm:" then
          let modelName := JsString.replace (Agent.model agent) "llm:" EmptyString in
          run env (LlmRun modelName prompt)
        else
          throw (ErrorObject ("Unsupported model prefix in: " ++ Agent.model agent))) ;;
     if String.eqb output EmptyString || (String.length (JsString.trim output) =? 0)%nat then
       throw (ErrorObject "Model returned empty response")
     else
       ret {| content := JsString.trim output; metadata := None; error := None |})
    (fun error =>
       text <- liftResult (errorText error) ;;
       throw (ErrorObject ("Error running model " ++ Agent.model agent ++ ": " ++ text))).

(** ** Layer processor *)

(** The prompt an agent is invoked with: two successive [replace] calls on
    the resolved template. *)
Definition contextualPrompt (promptContent input : string)
  (previousResponses : list ModelResponse) : string :=
  JsString.replace
    (JsString.replace promptContent "{input}" input)
    "{previous_responses}"
    (JsString.join JsString.LF (map content previousResponses)).

(** [{ ...agent, promptTemplate: contextualPrompt, systemPrompt }] *)
Definition withPrompt (agent : Agent.t) (prompt : string)
  (systemPrompt : option string) : Agent.t :=
  {| Agent.name := Agent.name agent;
     Agent.model := Agent.model agent;
     Agent.temperature := Agent.temperature agent;
     Agent.promptTemplate := prompt;
     Agent.systemPrompt := systemPrompt;
     Agent.instanceUri := Agent.instanceUri agent |}.

(** Where the callback of one agent stands when [map] has called it: it
    ran up to its first [await].  Without a prompt file it has already
    called [runModel] (which took its endpoint and issued its command)
    and its promise has that outcome; with one it has read the file and
    goes on once [map] has called the callbacks of all agents. *)
Inductive AgentTask :=
| Settled (outcome : Result ModelResponse)
| Suspended (agent : Agent.t) (xmlPrompt : Result XmlPrompt.t).

(** The callback up to its first [await]. *)
Definition startAgent (env : Env) (input : string)
  (previousResponses : list ModelResponse) (agent : Agent.t) (w : World)
  : AgentTask * World :=
  match getNextInstance env w with
  | (None, w1) => (Settled (Throw undefinedInstance), w1)
  | (Some instance, w1) =>
      if JsString.endsWith (Agent.promptTemplate agent) ".xml" then
        let '(xmlPrompt, w2) := readXMLPrompt env (Agent.promptTemplate agent) w1 in
        (Suspended agent xmlPrompt, w2)
      else
        let prompt :=
          contextualPrompt (Agent.promptTemplate agent) input previousResponses in
        let '(outcome, w2) :=
          runModel env (withPrompt agent prompt (Agent.systemPrompt agent)) prompt w1 in
        (Settled outcome, w2)
  end.

(** The rest of the callback, after [await readXMLPrompt(...)]. *)
Definition resumeAgent (env : Env) (input : string)
  (previousResponses : list ModelResponse) (task : AgentTask) (w : World)
  : Result ModelResponse * World :=
  match task with
  | Settled outcome => (outcome, w)
  | Suspended agent (Throw e) => (Throw e, w)
  | Suspended agent (Ok xmlPrompt) =>
      let prompt :=
        contextualPrompt (XmlPrompt.template xmlPrompt) input previousResponses in
      let systemPrompt :=
        orElse (XmlPrompt.systemPrompt xmlPrompt) (Agent.systemPrompt agent) in
      runModel env (withPrompt agent prompt systemPrompt) prompt w
  end.

Fixpoint rejections {A} (outcomes : list (Result A)) : list Thrown :=
  match outcomes with
  | [] => []
  | Ok _ :: rest => rejections rest
  | Throw e :: rest => e :: rejections rest
  end.

Fixpoint fulfilled {A} (outcomes : list (Result A)) : list A :=
  match outcomes with
  | [] => []
  | Ok a :: rest => a :: fulfilled rest
  | Throw _ :: rest => fulfilled rest
  end.

(** [Promise.all]: all the values in order, or the reason of the promise
    that was rejected first. *)
Definition promiseAll {A} (env : Env) (outcomes : list (Result A))
  : Result (list A) :=
  match rejections outcomes with
  | [] => Ok (fulfilled outcomes)
  | e :: es => Throw (nth (firstRejected env (e :: es)) (e :: es) e)
  end.

(** [processLayer(layer, input, previousResponses)]: [map] starts every
    callback in the order of the agents, the suspended ones go on in the
    same order, and [Promise.all] collects the outcomes. *)
Definition processLayer (env : Env) (layer : Layer.t) (input : string)
  (previousResponses : list ModelResponse) : M (list ModelResponse) :=
  fun w =>
    let '(tasks, w1) :=
      mapWorld (startAgent env input previousResponses) (Layer.agents layer) w in
    let '(outcomes, w2) :=
      mapWorld (resumeAgent env input previousResponses) tasks w1 in
    (promiseAll env outcomes, w2).

(** ** Aggregator *)

Definition DEFAULT_AGGREGATION_TEMPLATE : string :=
  JsString.join JsString.LF
    [ EmptyString;
      "You are tasked with synthesizing multiple responses to create a comprehensive and accurate final answer.";
      EmptyString;
      "Previous responses:";
      "{{responses}}";
      EmptyString;
      "Please analyze these responses and:";
      "1. Identify common themes and key points";
      "2. Note any contradictions or inconsistencies";
      "3. Synthesize a final response that:";
      "- Incorporates the best elements from each response";
      "- Resolves any contradictions";
      "- Provides a coherent and complete answer";
      EmptyString;
      "Final synthesized response:" ].

(** [responses.map((r, i) => `Response ${i + 1}:\n${r.content}`)] from
    index [i] on. *)
Fixpoint responseBlocks (i : nat) (responses : list ModelResponse) : list string :=
  match responses with
  | [] => []
  | r :: rest =>
      ("Response " ++ JsString.ofNat (i + 1) ++ ":" ++ JsString.LF ++ content r)
        :: responseBlocks (S i) rest
  end.

(** [weights[i]], [undefined] read as the number it coerces to. *)
Definition weightAt (weights : list JsNumber.Number) (i : nat) : JsNumber.Number :=
  match nth_error weights i with
  | Some x => x
  | None => JsNumber.NaN
  end.

(** [contents.reduce((acc, content, i) => acc + content * weights[i], acc)]
    from index [i] on.  The accumulator is a string, so [+] appends the
    text of the product to it. *)
Fixpoint weightedReduce (weights : list JsNumber.Number) (i : nat) (acc : string)
  (contents : list string) : string :=
  match contents with
  | [] => acc
  | c :: rest =>
      weightedReduce weights (S i)
        (acc ++ JsNumber.toString (JsNumber.mul (JsNumber.ofString c) (weightAt weights i)))
        rest
  end.

(** [responses.map(() => 1 / responses.length)] *)
Definition uniformWeights (responses : list ModelResponse) : list JsNumber.Number :=
  map (fun _ => JsNumber.div (JsNumber.ofNat 1) (JsNumber.ofNat (List.length responses)))
      responses.

Definition getStrategy (ref : StrategyRef) : M AggregationStrategy.t :=
  fun w => (Ok (strategies w ref), w).

Definition plainResponse (text : string) : ModelResponse :=
  {| content := text; metadata := None; error := None |}.

(** The [switch (strategy.method)] of [aggregateResponses], on the
    strategy as the prompt file step left it and on the responses
    [first :: rest]. *)
Definition aggregateBy (env : Env) (current : AggregationStrategy.t)
  (first : ModelResponse) (rest : list ModelResponse) : M ModelResponse :=
  let responses := first :: rest in
  match AggregationStrategy.method current with
  | synthesis =>
      let template :=
        match orElse (AggregationStrategy.promptTemplate current)
                     (Some DEFAULT_AGGREGATION_TEMPLATE) with
        | Some t => t
        | None => DEFAULT_AGGREGATION_TEMPLATE
        end in
      let synthesisAgent :=
        {| Agent.name := "synthesizer";
           Agent.model := SYNTHESIS_MODEL env;
           Agent.temperature := None;
           Agent.promptTemplate := template;
           Agent.systemPrompt := None;
           Agent.instanceUri := None |} in
      let synthesisPrompt :=
        JsString.replace (Agent.promptTemplate synthesisAgent) "{responses}"
          (JsString.join (JsString.LF ++ JsString.LF) (responseBlocks 0 responses)) in
      runModel env synthesisAgent synthesisPrompt
  | weighted =>
      let weights :=
        match AggregationStrategy.weights current with
        | Some ws => ws
        | None => uniformWeights responses
        end in
      let weightedContent :=
        weightedReduce weights 0 EmptyString
          (map (fun r => JsString.trim (content r)) responses) in
      ret (plainResponse weightedContent)
  | voting => ret (plainResponse (content first))
  | concatenate
  | unrecognized _ =>
      ret (plainResponse
             (JsString.join (JsString.LF ++ JsString.LF)
                (map (fun r => JsString.trim (content r)) responses)))
  end.

(** [aggregateResponses(responses, strategy)] *)
Definition aggregateResponses (env : Env) (responses : list ModelResponse)
  (strategy : StrategyRef) : M ModelResponse :=
  match responses with
  | [] => ret {| content := EmptyString; metadata := None;
                 error := Some "No responses to aggregate" |}
  | first :: rest =>
      before <- getStrategy strategy ;;
      _ <- match AggregationStrategy.promptTemplate before with
           | Some file =>
               if JsString.endsWith file ".xml" then
                 xmlPrompt <- readXMLPrompt env file ;;
                 (fun w => (Ok tt,
                            assignPromptTemplate strategy (XmlPrompt.template xmlPrompt) w))
               else ret tt
           | None => ret tt
           end ;;
      current <- getStrategy strategy ;;
      aggregateBy env current first rest
  end.

(** ** Chain controller *)

(** The loop variables of [runMOAChain]. *)
Record ChainState := {
  currentInput : string;
  allResponses : list ModelResponse
}.

(** How a pass through the loop body ends: go on with the next layer, or
    leave the function through [return aggregated]. *)
Inductive Step :=
| Continue (st : ChainState)
| Return (aggregated : ModelResponse) (st : ChainState).

(** [r => r.error] as the filter predicate. *)
Definition hasError (r : ModelResponse) : bool := truthy (error r).

(** [config.stopCriteria && config.stopCriteria(allResponses)] *)
Definition stopRequested (config : MOAConfig.t) (responses : list ModelResponse)
  : M bool :=
  match MOAConfig.stopCriteria config with
  | Some criteria => liftResult (criteria responses)
  | None => ret false
  end.

(** The body of [for (const layer of config.layers)]. *)
Definition runLayer (env : Env) (config : MOAConfig.t) (layer : Layer.t)
  (st : ChainState) : M Step :=
  layerResponses <- processLayer env layer (currentInput st) (allResponses st) ;;
  match filter hasError layerResponses with
  | failed :: _ =>
      throw (ErrorObject ("Layer " ++ Layer.name layer ++ " execution failed: "
                          ++ match error failed with Some e => e | None => "undefined" end))
  | [] =>
      aggregated <- aggregateResponses env layerResponses (Layer.aggregationStrategy layer) ;;
      let st' := {| currentInput := content aggregated;
                    allResponses := allResponses st ++ [aggregated] |} in
      stop <- stopRequested config (allResponses st') ;;
      if stop then ret (Return aggregated st') else ret (Continue st')
  end.

Fixpoint forLayers (env : Env) (config : MOAConfig.t) (layers : list Layer.t)
  (st : ChainState) : M Step :=
  match layers with
  | [] => ret (Continue st)
  | layer :: rest =>
      step <- runLayer env config layer st ;;
      match step with
      | Continue st' => forLayers env config rest st'
      | Return _ _ => ret step
      end
  end.

Fixpoint forIterations (env : Env) (config : MOAConfig.t) (remaining : nat)
  (st : ChainState) : M Step :=
  match remaining with
  | O => ret (Continue st)
  | S remaining' =>
      step <- forLayers env config (MOAConfig.layers config) st ;;
      match step with
      | Continue st' => forIterations env config remaining' st'
      | Return _ _ => ret step
      end
  end.

(** The passes of the loop when its condition never fails.  [fuel] passes
    are followed; [None] says that control is still in the loop after
    them. *)
Fixpoint forIterationsUnbounded (env : Env) (config : MOAConfig.t) (fuel : nat)
  (st : ChainState) : M (option Step) :=
  match fuel with
  | O => ret None
  | S fuel' =>
      step <- forLayers env config (MOAConfig.layers config) st ;;
      match step with
      | Continue st' => forIterationsUnbounded env config fuel' st'
      | Return _ _ => ret (Some step)
      end
  end.

(** [config.maxIterations || 1]: zero and NaN give way to 1. *)
Definition orOne (maxIterations : JsNumber.Number) : JsNumber.Number :=
  match maxIterations with
  | S754_zero _ | S754_nan => JsNumber.ofNat 1
  | _ => maxIterations
  end.

(** The counter of [for (let iteration = 0; iteration < maxIterations;
    iteration++)] is a Number: the passes it makes from [iteration] on,
    followed for [fuel] passes. *)
Fixpoint countPasses (fuel : nat) (iteration maxIterations : JsNumber.Number)
  : option nat :=
  match fuel with
  | O => None
  | S fuel' =>
      if JsNumber.lt iteration maxIterations then
        option_map S (countPasses fuel' (JsNumber.add iteration (JsNumber.ofNat 1))
                        maxIterations)
      else Some 0
  end.

(** The largest value the counter reaches: [2^53 + 1] is not a Number,
    and [iteration++] leaves [2^53] where it is. *)
Definition COUNTER_LIMIT : Z := 2 ^ 53.

(** How often [iteration < maxIterations] holds as the counter goes up
    from 0: never for NaN, a zero or a negative bound, [ceil(bound)] times
    for a positive bound up to [2^53], and without end ([None]) for a
    larger one, [Infinity] included. *)
Definition loopPasses (maxIterations : JsNumber.Number) : option Z :=
  match maxIterations with
  | S754_nan | S754_zero _ => Some 0%Z
  | S754_infinity true | S754_finite true _ _ => Some 0%Z
  | S754_infinity false => None
  | S754_finite false m e =>
      if (JsNumber.ceiling m e <=? COUNTER_LIMIT)%Z then Some (JsNumber.ceiling m e)
      else None
  end.

(** The number of passes of the outer loop of [runMOAChain]; [None] when
    the loop has no end of its own. *)
Definition iterationCount (config : MOAConfig.t) : option nat :=
  option_map Z.to_nat (loopPasses (orOne (MOAConfig.maxIterations config))).

(** The [try] block of [runMOAChain] up to the end of the loops.  A loop
    without an end is followed for [fuel] passes. *)
Definition chainLoop (env : Env) (fuel : nat) (config : MOAConfig.t)
  (initialInput : string) : M (option Step) :=
  let st := {| currentInput := initialInput; allResponses := [] |} in
  match iterationCount config with
  | Some passes =>
      step <- forIterations env config passes st ;;
      ret (Some step)
  | None => forIterationsUnbounded env config fuel st
  end.

(** The [try] block of [runMOAChain]: the loops and the final [return]. *)
Definition chainBody (env : Env) (fuel : nat) (config : MOAConfig.t)
  (initialInput : string) : M (option ModelResponse) :=
  step <- chainLoop env fuel config initialInput ;;
  match step with
  | None => ret None
  | Some (Return aggregated _) => ret (Some aggregated)
  | Some (Continue st) =>
      ret (Some
             {| content := currentInput st;
                metadata := Some {| iterations := MOAConfig.maxIterations config;
                                    totalResponses := List.length (allResponses st);
                                    finalResponseLength := String.length (currentInput st) |};
                error := None |})
  end.

(** The response the [catch] clause of [runMOAChain] builds from the text
    of what was thrown. *)
Definition failureResponse (text : string) : ModelResponse :=
  {| content := EmptyString;
     metadata := None;
     error := Some ("Error in MOA chain: " ++ text) |}.

(** [runMOAChain(config, initialInput)].  The result is [Ok (Some r)] when
    the call returns [r], [Throw e] when it throws [e] (the promise is
    rejected), and [Ok None] when control is still in the loop after
    [fuel] passes of a loop without an end. *)
Definition runMOAChain (env : Env) (fuel : nat) (config : MOAConfig.t)
  (initialInput : string) : M (option ModelResponse) :=
  tryCatch (chainBody env fuel config initialInput)
           (fun error =>
              text <- liftResult (errorText error) ;;
              ret (Some (failureResponse text))).

(** ** Concrete surroundings used to run the model *)

Module Examples.

Definition endpoint (address label : string) : OllamaInstance.t :=
  {| OllamaInstance.uri := address;
     OllamaInstance.name := Some label;
     OllamaInstance.priority := Some 1%Z |}.

Definition endpoints : list OllamaInstance.t :=
  [ endpoint "http://10.0.0.1:11434" "A";
    endpoint "http://10.0.0.2:11434" "B";
    endpoint "http://10.0.0.3:11434" "C" ].

(** A prompt file in a sibling of the working directory, and one inside
    the working directory. *)
Definition siblingPromptText : string :=
  "<prompt><template>Private notes: {input}</template></prompt>".

Definition aggregatePromptText : string :=
  "<prompt><system> Be brief. </system><template> Combine: {responses} </template></prompt>".

Definition exampleFiles (path : string) : option File :=
  if String.eqb path "/home/user/moa_cli_private/prompt.xml" then
    Some {| size := 60; read := Ok siblingPromptText |}
  else if String.eqb path "/home/user/moa_cli/prompts/aggregate.xml" then
    Some {| size := 88; read := Ok aggregatePromptText |}
  else None.

Definition exampleParser (text : string) : Result Document :=
  if String.eqb text siblingPromptText then
    Ok [Element "prompt" [Element "template" [Text "Private notes: {input}"]]]
  else if String.eqb text aggregatePromptText then
    Ok [Element "prompt"
          [Element "system" [Text " Be brief. "];
           Element "template" [Text " Combine: {responses} "]]]
  else Throw (ErrorObject "ParseError").

(** A backend that answers every prompt with the same line. *)
Definition constantShell (answer : string) : list Event -> ShellCommand -> ShellOutcome :=
  fun _ _ => Stdout answer.

Definition exampleEnv : Env :=
  {| ollamaInstances := endpoints;
     SYNTHESIS_MODEL := "ollama:qwen2.5-coder:7b-instruct-fp16";
     cwd := "/home/user/moa_cli";
     files := exampleFiles;
     parseFromString := exampleParser;
     shell := constantShell ("7" ++ JsString.LF);
     firstRejected := fun _ => 0 |}.

Definition strategyOf (m : Method) (template : option string) : AggregationStrategy.t :=
  {| AggregationStrategy.method := m;
     AggregationStrategy.promptTemplate := template;
     AggregationStrategy.weights := None |}.

(** A store whose object 0 is a weighted strategy without weights, object
    1 a concatenating strategy with a prompt file, object 3 one whose
    prompt file does not exist, and every other object a plain
    concatenating strategy. *)
Definition exampleStrategies (ref : StrategyRef) : AggregationStrategy.t :=
  match ref with
  | 0 => strategyOf weighted None
  | 1 => strategyOf concatenate (Some "prompts/aggregate.xml")
  | 3 => strategyOf concatenate (Some "prompts/missing.xml")
  | _ => strategyOf concatenate None
  end.

Definition exampleWorld : World :=
  {| currentInstanceIndex := 0; strategies := exampleStrategies; trace := [] |}.

Definition inlineAgent (template : string) : Agent.t :=
  {| Agent.name := "solver";
     Agent.model := "ollama:llama2";
     Agent.temperature := None;
     Agent.promptTemplate := template;
     Agent.systemPrompt := None;
     Agent.instanceUri := None |}.

Definition exampleLayer (label : string) (template : string) (ref : StrategyRef)
  : Layer.t :=
  {| Layer.name := label;
     Layer.agents := [inlineAgent template];
     Layer.aggregationStrategy := ref |}.

(** Two layers, three iterations, and a stop predicate that is satisfied
    as soon as the history is not empty. *)
Definition stoppingConfig : MOAConfig.t :=
  {| MOAConfig.layers := [exampleLayer "draft" "{input}" 2; exampleLayer "refine" "{input}" 2];
     MOAConfig.maxIterations := JsNumber.ofNat 3;
     MOAConfig.stopCriteria :=
       Some (fun history => Ok (negb (List.length history =? 0)%nat)) |}.

(** One layer and one iteration, for runs that fail. *)
Definition singleLayerConfig (layer : Layer.t)
  (criteria : option (list ModelResponse -> Result bool)) : MOAConfig.t :=
  {| MOAConfig.layers := [layer];
     MOAConfig.maxIterations := JsNumber.ofNat 1;
     MOAConfig.stopCriteria := criteria |}.

(** An agent whose model identifier has no known prefix. *)
Definition unsupportedLayer : Layer.t :=
  {| Layer.name := "draft";
     Layer.agents :=
       [ {| Agent.name := "solver";
            Agent.model := "gpt-4";
            Agent.temperature := None;
            Agent.promptTemplate := "{input}";
            Agent.systemPrompt := None;
            Agent.instanceUri := None |} ];
     Layer.aggregationStrategy := 2 |}.

End Examples.

(** ** Notions used in the statements *)

(** A response as the agent invoker builds it: trimmed content that is
    not empty, and no other field. *)
Definition invokerResponse (r : ModelResponse) : Prop :=
  exists output,
    r = plainResponse (JsString.trim output) /\ JsString.trim output <> EmptyString.

(** A settled task holds what [runModel] gave. *)
Definition taskFromInvoker (task : AgentTask) : Prop :=
  match task with
  | Settled (Ok r) => invokerResponse r
  | _ => True
  end.

Definition outcomeFromInvoker (outcome : Result ModelResponse) : Prop :=
  match outcome with
  | Ok r => invokerResponse r
  | Throw _ => True
  end.

(** The children of the root of a prompt document: a section that holds
    text, text between the sections, or a comment. *)
Inductive PromptPart :=
| Part (tag text : string)
| Filler (text : string)
| Remark (text : string).

Definition partNode (p : PromptPart) : Node :=
  match p with
  | Part tag text => Element tag [Text text]
  | Filler text => Text text
  | Remark text => Comment text
  end.

(** The document [<prompt> parts </prompt>]. *)
Definition promptDocument (parts : list PromptPart) : Document :=
  [Element "prompt" (map partNode parts)].

(** The text of the first section named [tag], if there is one. *)
Fixpoint sectionText (tag : string) (parts : list PromptPart) : option string :=
  match parts with
  | [] => None
  | Part t text :: rest => if String.eqb t tag then Some text else sectionText tag rest
  | _ :: rest => sectionText tag rest
  end.

(** Substitution as the specification words it: the first occurrence of
    the placeholder gives way to the value, taken as it is. *)
Definition substitute (template placeholder value : string) : string :=
  match JsString.splitFirst placeholder template with
  | None => template
  | Some (before, after) => before ++ value ++ after
  end.

(** The prompt the specification describes: [{input}] replaced by the
    current input and [{previous_responses}] by the newline-joined
    contents of the prior aggregates. *)
Definition placeholderPrompt (template input : string)
  (previousResponses : list ModelResponse) : string :=
  substitute (substitute template "{input}" input)
    "{previous_responses}"
    (JsString.join JsString.LF (map content previousResponses)).

(** [n] copies of a text, one after the other. *)
Fixpoint repeatText (s : string) (n : nat) : string :=
  match n with
  | O => EmptyString
  | S n' => s ++ repeatText s n'
  end.

(** ** Model preloading *)

(** [models.add(x)] on a [Set], whose elements stay in insertion order. *)
Definition setAdd (x : string) (models : list string) : list string :=
  if existsb (String.eqb x) models then models else models ++ [x].

(** The body of [layer.agents.forEach] in [getUniqueModels]. *)
Definition addAgentModel (models : list string) (agent : Agent.t) : list string :=
  if JsString.startsWith (Agent.model agent) "ollama:" then
    setAdd (JsString.replace (Agent.model agent) "ollama:" EmptyString) models
  else models.

(** [getUniqueModels(config)]: [Array.from] of the set after the two
    nested [forEach] and the synthesis model. *)
Definition getUniqueModels (env : Env) (config : MOAConfig.t) : list string :=
  let models :=
    fold_left (fun acc layer => fold_left addAgentModel (Layer.agents layer) acc)
              (MOAConfig.layers config) [] in
  if JsString.startsWith (SYNTHESIS_MODEL env) "ollama:" then
    setAdd (JsString.replace (SYNTHESIS_MODEL env) "ollama:" EmptyString) models
  else models.

(** The request [curl -s <uri>/api/generate -d '{"model": <model>, ...}']
    of [preloadModels]. *)
Record PreloadRequest := {
  preloadUri : string;
  preloadModel : string
}.

(** The [for] loop of [preloadModels] on the endpoint [instance]: the
    requests sent so far are [sent], oldest first; [curl] gives the
    outcome of a request after those sent before it.  The [catch] clause
    logs and throws the same error again. *)
Fixpoint preloadLoop (curl : list PreloadRequest -> PreloadRequest -> Result string)
  (instance : option OllamaInstance.t) (models : list string)
  (sent : list PreloadRequest) : Result unit * list PreloadRequest :=
  match models with
  | [] => (Ok tt, sent)
  | model :: rest =>
      match instance with
      | None => (Throw undefinedInstance, sent)
      | Some i =>
          let request := {| preloadUri := OllamaInstance.uri i; preloadModel := model |} in
          match curl sent request with
          | Ok _ => preloadLoop curl instance rest (sent ++ [request])%list
          | Throw e => (Throw e, (sent ++ [request])%list)
          end
      end
  end.

(** [preloadModels(models)]: the outcome, the requests sent, and the
    world (one endpoint is taken from the selector, before the loop). *)
Definition preloadModels (env : Env)
  (curl : list PreloadRequest -> PreloadRequest -> Result string)
  (models : list string) (w : World)
  : Result unit * list PreloadRequest * World :=
  let '(instance, w') := getNextInstance env w in
  (preloadLoop curl instance models [], w').

(** ** Notions used in the further statements *)

(** The response [aggregateResponses] returns for no input. *)
Definition noResponses : ModelResponse :=
  {| content := EmptyString; metadata := None;
     error := Some "No responses to aggregate" |}.

(** What the loops hand back satisfies [Q] whenever they leave through
    [return aggregated]. *)
Definition returnedSatisfies (Q : ModelResponse -> Prop) (step : Step) : Prop :=
  match step with
  | Return aggregated _ => Q aggregated
  | Continue _ => True
  end.

(** An aggregate: no metadata, and an error only on the response for no
    input. *)
Definition aggregateShape (r : ModelResponse) : Prop :=
  metadata r = None /\ (error r = None \/ r = noResponses).

(** The response of a run that went through all its passes. *)
Definition completedResponse (config : MOAConfig.t) (text : string) (total : nat)
  : ModelResponse :=
  {| content := text;
     metadata := Some {| iterations := MOAConfig.maxIterations config;
                         totalResponses := total;
                         finalResponseLength := String.length text |};
     error := None |}.



(** A configuration with a negative count. *)
Definition negativeConfig : MOAConfig.t :=
  {| MOAConfig.layers := [Examples.exampleLayer "draft" "{input}" 2];
     MOAConfig.maxIterations := JsNumber.ofZ (-1);
     MOAConfig.stopCriteria := None |}.

(** The address of the endpoint at index [i] of the configured array. *)
Definition endpointUri (env : Env) (i : nat) : string :=
  OllamaInstance.uri (nth i (ollamaInstances env) localhostFallback).

(** Whether a backend output counts as blank. *)
Definition isBlank (output : string) : bool :=
  String.eqb (JsString.trim output) EmptyString.

(** What [runModel] makes of the outcome of its command, for the model
    identifier [modelId]. *)
Definition invocationOutcome (modelId : string) (outcome : ShellOutcome)
  : Result ModelResponse :=
  match outcome with
  | Stdout output =>
      if isBlank output then
        Throw (ErrorObject ("Error running model " ++ modelId
                            ++ ": Model returned empty response"))
      else Ok (plainResponse (JsString.trim output))
  | ShellError message =>
      Throw (ErrorObject ("Error running model " ++ modelId ++ ": " ++ message))
  end.

(** Agents of the three dispatch paths. *)
Definition llmAgent : Agent.t :=
  {| Agent.name := "critic";
     Agent.model := "llm:gpt-4o";
     Agent.temperature := None;
     Agent.promptTemplate := "{input}";
     Agent.systemPrompt := None;
     Agent.instanceUri := None |}.

Definition unsupportedAgent : Agent.t :=
  {| Agent.name := "solver";
     Agent.model := "gpt-4";
     Agent.temperature := None;
     Agent.promptTemplate := "{input}";
     Agent.systemPrompt := None;
     Agent.instanceUri := None |}.

(** The world of the examples once the selector has been asked once. *)
Definition afterOneCall : World := setInstanceIndex 1 Examples.exampleWorld.

(** An agent with an Ollama model, an inline prompt template and no
    endpoint override. *)
Definition plainOllamaAgent (agent : Agent.t) : Prop :=
  JsString.startsWith (Agent.model agent) "ollama:" = true /\
  JsString.endsWith (Agent.promptTemplate agent) ".xml" = false /\
  truthy (Agent.instanceUri agent) = false.

Definition isSettled (task : AgentTask) : Prop :=
  match task with
  | Settled _ => True
  | Suspended _ _ => False
  end.

(** The hosts of the [ollama run] commands among some events, in order. *)
Fixpoint commandHosts (events : list Event) : list string :=
  match events with
  | [] => []
  | EvShell (OllamaRun host _ _) :: rest => host :: commandHosts rest
  | _ :: rest => commandHosts rest
  end.

(** The first two endpoints of the examples. *)
Definition twoEndpointEnv : Env :=
  {| ollamaInstances :=
       [ Examples.endpoint "http://10.0.0.1:11434" "A";
         Examples.endpoint "http://10.0.0.2:11434" "B" ];
     SYNTHESIS_MODEL := SYNTHESIS_MODEL Examples.exampleEnv;
     cwd := cwd Examples.exampleEnv;
     files := files Examples.exampleEnv;
     parseFromString := parseFromString Examples.exampleEnv;
     shell := shell Examples.exampleEnv;
     firstRejected := firstRejected Examples.exampleEnv |}.

(** A layer of three plain agents. *)
Definition threeAgentLayer : Layer.t :=
  {| Layer.name := "draft";
     Layer.agents :=
       [ Examples.inlineAgent "First view: {input}";
         Examples.inlineAgent "Second view: {input}";
         Examples.inlineAgent "Third view: {input}" ];
     Layer.aggregationStrategy := 2 |}.

(** A configuration with two layers whose agents share models, and one
    agent that is not an Ollama model. *)
Definition mixedConfig : MOAConfig.t :=
  {| MOAConfig.layers :=
       [ threeAgentLayer;
         {| Layer.name := "review";
            Layer.agents :=
              [ llmAgent;
                {| Agent.name := "checker";
                   Agent.model := "ollama:mistral";
                   Agent.temperature := None;
                   Agent.promptTemplate := "{input}";
                   Agent.systemPrompt := None;
                   Agent.instanceUri := None |} ];
            Layer.aggregationStrategy := 2 |} ];
     MOAConfig.maxIterations := JsNumber.ofNat 1;
     MOAConfig.stopCriteria := None |}.

(** The preload request for [model] at the endpoint [instance]. *)
Definition preloadRequest (instance : OllamaInstance.t) (model : string)
  : PreloadRequest :=
  {| preloadUri := OllamaInstance.uri instance; preloadModel := model |}.

(** A server that can load every model but "mistral". *)
Definition pickyCurl (sent : list PreloadRequest) (request : PreloadRequest)
  : Result string :=
  if String.eqb (preloadModel request) "mistral"
  then Throw (ErrorObject "Failed with exit code 7")
  else Ok EmptyString.

(** The default aggregation template around its placeholder: the text up
    to and including the brace before [{responses}], and the text from
    the brace after it. *)
Definition defaultTemplateHead : string :=
  JsString.join JsString.LF
    [ EmptyString;
      "You are tasked with synthesizing multiple responses to create a comprehensive and accurate final answer.";
      EmptyString;
      "Previous responses:";
      "{" ].

Definition defaultTemplateTail : string :=
  JsString.join JsString.LF
    [ "}";
      EmptyString;
      "Please analyze these responses and:";
      "1. Identify common themes and key points";
      "2. Note any contradictions or inconsistencies";
      "3. Synthesize a final response that:";
      "- Incorporates the best elements from each response";
      "- Resolves any contradictions";
      "- Provides a coherent and complete answer";
      EmptyString;
      "Final synthesized response:" ].

(** The enumerated blocks the synthesis prompt is built from. *)
Definition responsesBlock (responses : list ModelResponse) : string :=
  JsString.join (JsString.LF ++ JsString.LF) (responseBlocks 0 responses).



(** A weighted strategy with one weight. *)
Definition oneWeightStrategies (ref : StrategyRef) : AggregationStrategy.t :=
  {| AggregationStrategy.method := weighted;
     AggregationStrategy.promptTemplate := None;
     AggregationStrategy.weights := Some [JsNumber.ofNat 1] |}.

Definition oneWeightWorld : World :=
  {| currentInstanceIndex := 0; strategies := oneWeightStrategies; trace := [] |}.

(** A document whose root is any element, with an empty [<prompt>]
    element followed by the sections as children of that root. *)
Definition looseDocument (rootTag : string) (parts : list PromptPart) : Document :=
  [Element rootTag (Element "prompt" [] :: map partNode parts)].

Definition looseText : string :=
  "<notes><prompt/><template> Outside: {input} </template></notes>".

(** The surroundings of the examples with one more prompt file, which
    parses to a loose document. *)
Definition looseEnv : Env :=
  {| ollamaInstances := ollamaInstances Examples.exampleEnv;
     SYNTHESIS_MODEL := SYNTHESIS_MODEL Examples.exampleEnv;
     cwd := cwd Examples.exampleEnv;
     files := fun path =>
       if String.eqb path "/home/user/moa_cli/prompts/loose.xml"
       then Some {| size := 64; read := Ok looseText |}
       else files Examples.exampleEnv path;
     parseFromString := fun text =>
       if String.eqb text looseText
       then Ok (looseDocument "notes" [Part "template" " Outside: {input} "])
       else parseFromString Examples.exampleEnv text;
     shell := shell Examples.exampleEnv;
     firstRejected := firstRejected Examples.exampleEnv |}.

(** Whether a strategy joins the responses: [concatenate] or a method
    that is none of the declared ones. *)
Definition joins (m : Method) : bool :=
  match m with
  | concatenate => true
  | unrecognized _ => true
  | _ => false
  end.

(** Two agents that [runModel] and the layer processor cannot tell apart:
    they agree on the model, the endpoint override and the prompt
    template (name, temperature and system prompt may differ). *)
Definition sameInvocation (a b : Agent.t) : Prop :=
  Agent.model a = Agent.model b /\
  Agent.instanceUri a = Agent.instanceUri b /\
  Agent.promptTemplate a = Agent.promptTemplate b.

Definition sameTask (s t : AgentTask) : Prop :=
  match s, t with
  | Settled x, Settled y => x = y
  | Suspended a x, Suspended b y => sameInvocation a b /\ x = y
  | _, _ => False
  end.

(** A copy of the three-agent layer whose agents carry a system prompt
    and a temperature. *)
Definition decorate (agent : Agent.t) : Agent.t :=
  {| Agent.name := "decorated " ++ Agent.name agent;
     Agent.model := Agent.model agent;
     Agent.temperature := Some (JsNumber.ofNat 1);
     Agent.promptTemplate := Agent.promptTemplate agent;
     Agent.systemPrompt := Some "You are a careful reviewer.";
     Agent.instanceUri := Agent.instanceUri agent |}.

Definition decoratedLayer : Layer.t :=
  {| Layer.name := "decorated";
     Layer.agents := map decorate (Layer.agents threeAgentLayer);
     Layer.aggregationStrategy := 2 |}.

(** ** The join of the earlier chain script ([moaJoin]) *)

Module Join.

(** [x + y] on Numbers and [isNaN]. *)
Definition add (x y : JsNumber.Number) : JsNumber.Number :=
  SFadd JsNumber.prec JsNumber.emax x y.

Definition isNaN (x : JsNumber.Number) : bool :=
  match x with
  | S754_nan => true
  | _ => false
  end.

(** An exponent part at the start of [s], if there is a complete one. *)
Definition leadingExponent (s : string) : Z :=
  match s with
  | String c r =>
      if Ascii.eqb c "e" || Ascii.eqb c "E" then
        let '(neg, ds) := JsNumber.splitSign r in
        match fst (JsNumber.spanDigits ds) with
        | EmptyString => 0%Z
        | digits =>
            match JsNumber.digitsValue 10 0 digits with
            | Some e => if neg then (- e)%Z else e
            | None => 0%Z
            end
        end
      else 0%Z
  | EmptyString => 0%Z
  end.

(** [parseFloat(s)]: the number written by the longest decimal literal
    at the start of [s], after leading white space. *)
Definition parseFloat (s : string) : JsNumber.Number :=
  let t := JsString.trimStart s in
  let '(neg, u) := JsNumber.splitSign t in
  if JsString.startsWith u "Infinity" then S754_infinity neg
  else
    let '(intPart, rest) := JsNumber.spanDigits u in
    let '(fracPart, rest') :=
      match rest with
      | String "." r => JsNumber.spanDigits r
      | _ => (EmptyString, rest)
      end in
    match intPart ++ fracPart with
    | EmptyString => JsNumber.NaN
    | ds =>
        match JsNumber.digitsValue 10 0 ds with
        | Some m =>
            JsNumber.ofDecimal neg m
              (leadingExponent rest' - Z.of_nat (String.length fracPart))
        | None => JsNumber.NaN
        end
    end.

(** The [method] argument; a call can pass a string that is none of the
    three declared ones. *)
Inductive JoinMethod :=
| joinConcatenate
| joinAverage
| joinWeighted
| joinOther (method : string).

(** The literal [[0.5, 0.5]]. *)
Definition weights : list JsNumber.Number :=
  [JsNumber.ofDecimal false 5 (-1); JsNumber.ofDecimal false 5 (-1)].

(** [outputs.reduce((acc, output, idx) =>
      acc + parseFloat(output.trim()) * weights[idx], acc)] from [idx] on. *)
Fixpoint weightedSum (idx : nat) (acc : JsNumber.Number) (outputs : list string)
  : JsNumber.Number :=
  match outputs with
  | [] => acc
  | output :: rest =>
      weightedSum (S idx)
        (add acc (JsNumber.mul (parseFloat (JsString.trim output)) (weightAt weights idx)))
        rest
  end.

(** [moaJoin(outputs, method)] *)
Definition moaJoin (outputs : list string) (method : JoinMethod) : string :=
  match method with
  | joinConcatenate => JsString.join JsString.LF outputs
  | joinAverage =>
      let numericalOutputs :=
        filter (fun val => negb (isNaN val))
               (map (fun output => parseFloat (JsString.trim output)) outputs) in
      match numericalOutputs with
      | [] => JsString.join JsString.LF outputs
      | _ :: _ =>
          let avg :=
            JsNumber.div (fold_left add numericalOutputs (JsNumber.ofNat 0))
                         (JsNumber.ofNat (List.length numericalOutputs)) in
          JsNumber.toString avg
      end
  | joinWeighted =>
      let weightedAvg := weightedSum 0 (JsNumber.ofNat 0) outputs in
      JsNumber.toString
        (JsNumber.div weightedAvg (JsNumber.ofNat (List.length weights)))
  | joinOther _ => JsString.join JsString.LF outputs
  end.

End Join.

(** The surroundings of the examples without any endpoint. *)
Definition noEndpointEnv : Env :=
  {| ollamaInstances := [];
     SYNTHESIS_MODEL := SYNTHESIS_MODEL Examples.exampleEnv;
     cwd := cwd Examples.exampleEnv;
     files := files Examples.exampleEnv;
     parseFromString := parseFromString Examples.exampleEnv;
     shell := shell Examples.exampleEnv;
     firstRejected := firstRejected Examples.exampleEnv |}.

(** No layer and the count [Infinity] (what [JSON.parse] makes of
    [1e999]). *)
Definition endlessConfig : MOAConfig.t :=
  {| MOAConfig.layers := [];
     MOAConfig.maxIterations := S754_infinity false;
     MOAConfig.stopCriteria := None |}.

(** One layer with one agent, one iteration, and a stop predicate that
    throws [Object.create(null)]. *)
Definition throwingConfig : MOAConfig.t :=
  Examples.singleLayerConfig (Examples.exampleLayer "draft" "{input}" 2)
    (Some (fun _ => Throw Unprintable)).

(** A prompt file inside the working directory whose template text itself
    ends in ".xml", a concatenating strategy that refers to it, and a
    configuration of one layer with one agent and [passes] iterations. *)
Definition mergePromptText : string :=
  "<prompt><template>Merge the answers into report.xml</template></prompt>".

Definition mergeEnv : Env :=
  {| ollamaInstances := ollamaInstances Examples.exampleEnv;
     SYNTHESIS_MODEL := SYNTHESIS_MODEL Examples.exampleEnv;
     cwd := cwd Examples.exampleEnv;
     files := fun path =>
       if String.eqb path "/home/user/moa_cli/prompts/merge.xml"
       then Some {| size := 71; read := Ok mergePromptText |}
       else files Examples.exampleEnv path;
     parseFromString := fun text =>
       if String.eqb text mergePromptText
       then Ok [Element "prompt"
                  [Element "template" [Text "Merge the answers into report.xml"]]]
       else parseFromString Examples.exampleEnv text;
     shell := shell Examples.exampleEnv;
     firstRejected := firstRejected Examples.exampleEnv |}.

Definition mergeStrategies (ref : StrategyRef) : AggregationStrategy.t :=
  Examples.strategyOf concatenate (Some "prompts/merge.xml").

Definition mergeWorld : World :=
  {| currentInstanceIndex := 0; strategies := mergeStrategies; trace := [] |}.

Definition mergeConfig (passes : nat) : MOAConfig.t :=
  {| MOAConfig.layers := [Examples.exampleLayer "draft" "{input}" 0];
     MOAConfig.maxIterations := JsNumber.ofNat passes;
     MOAConfig.stopCriteria := None |}.

(** What [replace] inserts for the placeholder of the default template. *)
Definition insertedResponses (responses : list ModelResponse) : string :=
  JsString.getSubstitution "{responses}" defaultTemplateHead defaultTemplateTail
    (responsesBlock responses).
(** * Properties *)

(** ** The primitives on known values *)

(** Coercions between numbers and strings on values whose JavaScript
    results are well known. *)
Example number_coercions :
  map (fun s => JsNumber.toString (JsNumber.ofString s))
      ["4"; " 12.50 "; "1e21"; "123456789012345680000"; "0.000001"; "1e-7";
       "9007199254740993"; "0x10"; "-0"; "abc"; "1e400"; "5e-324"]
  = ["4"; "12.5"; "1e+21"; "123456789012345680000"; "0.000001"; "1e-7";
     "9007199254740992"; "16"; "0"; "NaN"; "Infinity"; "5e-324"] /\
  JsNumber.toString (JsNumber.div (JsNumber.ofNat 1) (JsNumber.ofNat 3))
  = "0.3333333333333333" /\
  JsNumber.toString (JsNumber.mul (JsNumber.ofString "0.1") (JsNumber.ofNat 3))
  = "0.30000000000000004".
Proof.
  repeat split; vm_compute; reflexivity.
Qed.

Example string_primitives :
  JsString.replace "a-b-a" "a" "x" = "x-b-a" /\
  JsString.replace "a-b" "b" "[$&|$`|$'|$$|$1]" = "a-[b|a-||$|$1]" /\
  JsString.trim (" two words " ++ JsString.LF) = "two words" /\
  JsString.endsWith "prompts/a.xml" ".xml" = true /\
  JsString.endsWith "xml" ".xml" = false.
Proof.
  repeat split; vm_compute; reflexivity.
Qed.

Example path_resolution :
  Path.resolve "/home/user/moa_cli" "prompts//a/./b/../c.xml"
  = "/home/user/moa_cli/prompts/a/c.xml" /\
  Path.resolve "/home/user/moa_cli" "/etc/../../x" = "/x" /\
  Path.resolve "/home/user/moa_cli" EmptyString = "/home/user/moa_cli" /\
  Path.inside "/home/user/moa_cli" "/home/user/moa_cli/prompts/a.xml" = true /\
  Path.inside "/home/user/moa_cli" "/home/user/moa_cli_private/prompt.xml" = false.
Proof.
  repeat split; vm_compute; reflexivity.
Qed.

(** ** Endpoint selector *)

Section EndpointSelectorFacts.

Variable env : Env.

Lemma getNextInstance_no_endpoints (w : World) :
  ollamaInstances env = [] ->
  getNextInstance env w = (Some localhostFallback, w).
Proof.
  intros Hnil. unfold getNextInstance. now rewrite Hnil.
Qed.

Lemma getNextInstance_some (w : World) :
  ollamaInstances env <> [] ->
  getNextInstance env w =
    (nth_error (ollamaInstances env) (currentInstanceIndex w),
     setInstanceIndex
       ((currentInstanceIndex w + 1) mod List.length (ollamaInstances env)) w).
Proof.
  intros Hne. unfold getNextInstance.
  destruct (ollamaInstances env); [contradiction | reflexivity].
Qed.

(** With the cursor inside the array a call returns an endpoint and
    leaves the cursor inside the array: [undefined] is never read. *)
Lemma getNextInstance_defined (w : World) :
  currentInstanceIndex w < List.length (ollamaInstances env) ->
  exists endpoint w',
    getNextInstance env w = (Some endpoint, w') /\
    currentInstanceIndex w' < List.length (ollamaInstances env).
Proof.
  intros Hlt.
  assert (Hne : ollamaInstances env <> []).
  { intros Hnil. rewrite Hnil in Hlt. simpl in Hlt. lia. }
  rewrite (getNextInstance_some w Hne).
  destruct (nth_error (ollamaInstances env) (currentInstanceIndex w)) as [endpoint|] eqn:Hnth.
  - eexists. eexists. split; [reflexivity|].
    simpl. apply Nat.mod_upper_bound. lia.
  - apply nth_error_None in Hnth. lia.
Qed.

(** Call number [i + 1] of a run of calls that starts with the cursor
    inside the array. *)
Lemma mapWorld_getNextInstance_nth (labels : list nat) :
  ollamaInstances env <> [] ->
  forall (w : World) (i : nat),
    currentInstanceIndex w < List.length (ollamaInstances env) ->
    i < List.length labels ->
    nth_error (fst (mapWorld (fun _ : nat => getNextInstance env) labels w)) i =
    Some (nth_error (ollamaInstances env)
            ((currentInstanceIndex w + i) mod List.length (ollamaInstances env))).
Proof.
  intros Hne.
  induction labels as [|l labels IH]; intros w i Hlt Hi; simpl in Hi; [lia|].
  simpl. rewrite (getNextInstance_some w Hne).
  destruct (mapWorld _ labels _) as [rs w2] eqn:Hrest.
  destruct i as [|i]; simpl.
  - rewrite Nat.add_0_r, Nat.mod_small by exact Hlt. reflexivity.
  - specialize (IH (setInstanceIndex
       ((currentInstanceIndex w + 1) mod List.length (ollamaInstances env)) w) i).
    rewrite Hrest in IH. simpl in IH.
    rewrite IH.
    + rewrite Nat.Div0.add_mod_idemp_l. do 3 f_equal. lia.
    + apply Nat.mod_upper_bound. lia.
    + lia.
Qed.

Lemma mapWorld_fallback_nth (labels : list nat) :
  ollamaInstances env = [] ->
  forall (w : World) (i : nat),
    i < List.length labels ->
    nth_error (fst (mapWorld (fun _ : nat => getNextInstance env) labels w)) i =
    Some (Some localhostFallback).
Proof.
  intros Hnil.
  induction labels as [|l labels IH]; intros w i Hi; simpl in Hi; [lia|].
  simpl. rewrite (getNextInstance_no_endpoints w Hnil).
  destruct (mapWorld _ labels w) as [rs w2] eqn:Hrest.
  destruct i as [|i]; simpl; [reflexivity|].
  specialize (IH w i). rewrite Hrest in IH. apply IH. lia.
Qed.

(** C6: with K >= 1 endpoints and the cursor at 0, call number [i + 1] of
    [n] successive calls returns endpoint [i mod K] (so calls 1 and K + 1
    both return the first endpoint); with no endpoint configured every
    call returns the localhost fallback. *)
Theorem getNextInstance_round_robin (w : World) (n i : nat) :
  currentInstanceIndex w = 0 ->
  i < n ->
  let K := List.length (ollamaInstances env) in
  let calls := fst (getNextInstances env n w) in
  (1 <= K ->
   exists endpoint,
     nth_error (ollamaInstances env) (i mod K) = Some endpoint /\
     nth_error calls i = Some (Some endpoint)) /\
  (K = 0 -> nth_error calls i = Some (Some localhostFallback)).
Proof.
  intros Hcursor Hi K calls. subst K calls. unfold getNextInstances. split.
  - intros HK.
    assert (Hne : ollamaInstances env <> []).
    { intros Hnil. rewrite Hnil in HK. simpl in HK. lia. }
    assert (Hbound : i mod List.length (ollamaInstances env)
                     < List.length (ollamaInstances env)).
    { apply Nat.mod_upper_bound. lia. }
    destruct (nth_error (ollamaInstances env) (i mod List.length (ollamaInstances env)))
      as [endpoint|] eqn:Hnth.
    + exists endpoint. split; [reflexivity|].
      rewrite (mapWorld_getNextInstance_nth (seq 1 n) Hne w i).
      * rewrite Hcursor. simpl. now rewrite Hnth.
      * lia.
      * now rewrite length_seq.
    + apply nth_error_None in Hnth. lia.
  - intros HK. apply mapWorld_fallback_nth.
    + now apply length_zero_iff_nil.
    + now rewrite length_seq.
Qed.

End EndpointSelectorFacts.

(** Three endpoints: the fourth call wraps around to the first one. *)
Lemma getNextInstance_round_robin_witness :
  exists endpoint,
    nth_error Examples.endpoints (3 mod 3) = Some endpoint /\
    nth_error (fst (getNextInstances Examples.exampleEnv 4 Examples.exampleWorld)) 3
    = Some (Some endpoint).
Proof.
  apply (getNextInstance_round_robin Examples.exampleEnv Examples.exampleWorld 4 3).
  - reflexivity.
  - lia.
  - simpl. lia.
Defined.

(** ** White space trimming *)

Section TrimFacts.

Import JsString.

Lemma trimEnd_idempotent (s : string) : trimEnd (trimEnd s) = trimEnd s.
Proof.
  induction s as [|c s IH]; simpl; [reflexivity|].
  destruct (trimEnd s) as [|d t] eqn:Hs.
  - destruct (isWhiteSpace c) eqn:Hc; simpl; [reflexivity|].
    now rewrite Hc.
  - simpl in *. rewrite IH. reflexivity.
Qed.

(** A text that does not start with white space keeps its first code
    unit when its end is trimmed. *)
Lemma trimStart_trimEnd (s : string) :
  trimStart s = s -> trimStart (trimEnd s) = trimEnd s.
Proof.
  destruct s as [|c s]; simpl; [reflexivity|].
  destruct (isWhiteSpace c) eqn:Hc.
  - intros H. exfalso.
    assert (Hlen : String.length (trimStart s) <= String.length s).
    { clear. induction s as [|d s IH]; simpl; [lia|].
      destruct (isWhiteSpace d); simpl; lia. }
    rewrite H in Hlen. simpl in Hlen. lia.
  - intros _. destruct (trimEnd s); simpl; now rewrite Hc.
Qed.

Lemma trimStart_idempotent (s : string) : trimStart (trimStart s) = trimStart s.
Proof.
  induction s as [|c s IH]; simpl; [reflexivity|].
  destruct (isWhiteSpace c) eqn:Hc; [exact IH|].
  simpl. now rewrite Hc.
Qed.

Lemma trim_idempotent (s : string) : trim (trim s) = trim s.
Proof.
  unfold trim.
  rewrite (trimStart_trimEnd (trimStart s) (trimStart_idempotent s)).
  apply trimEnd_idempotent.
Qed.

End TrimFacts.

(** ** Agent invoker *)

Section InvokerFacts.

Variable env : Env.

(** The [catch] clause of [runModel] never returns: it throws its own
    error, or the [TypeError] of the conversion. *)
Ltac catch_clause_throws :=
  unfold liftResult, throw;
  match goal with
  | |- context [errorText ?e] => destruct (errorText e)
  end; discriminate.

(** What a fulfilled [runModel] promise holds. *)
Lemma runModel_fulfilled (agent : Agent.t) (prompt : string) (w w' : World)
  (r : ModelResponse) :
  runModel env agent prompt w = (Ok r, w') ->
  exists output,
    r = plainResponse (JsString.trim output) /\ JsString.trim output <> EmptyString.
Proof.
  unfold runModel, tryCatch, bind.
  destruct (chooseInstanceUri env agent w) as [[uri|e] w1]; [|catch_clause_throws].
  match goal with
  | |- context [(if ?c then ?a else ?b) w1] =>
      destruct ((if c then a else b) w1) as [[output|e] w2]
  end; [|catch_clause_throws].
  destruct (String.eqb output EmptyString || (String.length (JsString.trim output) =? 0)%nat)
    eqn:Hempty; unfold throw, ret; [discriminate|].
  intros H. injection H as <- _.
  exists output. split; [reflexivity|].
  apply orb_false_iff in Hempty. destruct Hempty as [_ Hlen].
  apply Nat.eqb_neq in Hlen. intros Heq. rewrite Heq in Hlen. now apply Hlen.
Qed.

(** [runModel] settles one way or the other. *)
Lemma runModel_settles (agent : Agent.t) (prompt : string) (w : World) :
  (exists r w', runModel env agent prompt w = (Ok r, w')) \/
  (exists message w', runModel env agent prompt w = (Throw (ErrorObject message), w')).
Proof.
  unfold runModel, tryCatch, bind.
  destruct (chooseInstanceUri env agent w) as [[uri|e] w1];
    [|right; destruct e; unfold liftResult, throw, noDefaultValue; simpl;
     do 2 eexists; reflexivity].
  match goal with
  | |- context [(if ?c then ?a else ?b) w1] =>
      destruct ((if c then a else b) w1) as [[output|e] w2]
  end; [|right; destruct e; unfold liftResult, throw, noDefaultValue; simpl;
     do 2 eexists; reflexivity].
  destruct (String.eqb output EmptyString || (String.length (JsString.trim output) =? 0)%nat);
    unfold throw, ret, liftResult; simpl; [right | left]; do 2 eexists; reflexivity.
Qed.

End InvokerFacts.

(** ** Layer processor *)

Section LayerFacts.

Variable env : Env.

Lemma mapWorld_Forall {A B} (f : A -> World -> B * World)
  (P : A -> Prop) (Q : B -> Prop) :
  (forall x w, P x -> Q (fst (f x w))) ->
  forall xs w, Forall P xs -> Forall Q (fst (mapWorld f xs w)).
Proof.
  intros Hf xs. induction xs as [|x xs IH]; intros w HP; simpl.
  - constructor.
  - inversion HP as [|? ? Hx Hxs]; subst.
    pose proof (Hf x w Hx) as Hy.
    destruct (f x w) as [y w1]. simpl in Hy.
    specialize (IH w1 Hxs).
    destruct (mapWorld f xs w1) as [ys w2]. simpl in *.
    now constructor.
Qed.

Lemma startAgent_fromInvoker input previousResponses agent w :
  taskFromInvoker (fst (startAgent env input previousResponses agent w)).
Proof.
  unfold startAgent.
  destruct (getNextInstance env w) as [[instance|] w1]; simpl; [|exact I].
  destruct (JsString.endsWith (Agent.promptTemplate agent) ".xml").
  - destruct (readXMLPrompt env (Agent.promptTemplate agent) w1); exact I.
  - match goal with
    | |- context [runModel env ?a ?p w1] =>
        destruct (runModel env a p w1) as [[r|e] w2] eqn:Hrun
    end; simpl; [|exact I].
    exact (runModel_fulfilled env _ _ _ _ _ Hrun).
Qed.

Lemma resumeAgent_fromInvoker input previousResponses task w :
  taskFromInvoker task ->
  outcomeFromInvoker (fst (resumeAgent env input previousResponses task w)).
Proof.
  intros Htask. unfold resumeAgent.
  destruct task as [[r|e] | agent [xmlPrompt|e]]; simpl; try exact I.
  - exact Htask.
  - match goal with
    | |- context [runModel env ?a ?p w] =>
        destruct (runModel env a p w) as [[r|e] w2] eqn:Hrun
    end; simpl; [|exact I].
    exact (runModel_fulfilled env _ _ _ _ _ Hrun).
Qed.

Lemma fulfilled_Forall (outcomes : list (Result ModelResponse)) :
  Forall outcomeFromInvoker outcomes -> Forall invokerResponse (fulfilled outcomes).
Proof.
  induction 1 as [|[r|e] outcomes Hx Hxs IH]; simpl; auto.
Qed.

(** Every response a layer returns was built by the agent invoker. *)
Lemma processLayer_fromInvoker layer input previousResponses w layerResponses w' :
  processLayer env layer input previousResponses w = (Ok layerResponses, w') ->
  Forall invokerResponse layerResponses.
Proof.
  unfold processLayer.
  pose proof (mapWorld_Forall (startAgent env input previousResponses)
                (fun _ => True) taskFromInvoker
                (fun x w0 _ => startAgent_fromInvoker input previousResponses x w0)
                (Layer.agents layer) w) as Htasks.
  destruct (mapWorld (startAgent env input previousResponses) (Layer.agents layer) w)
    as [tasks w1].
  simpl in Htasks.
  assert (Hall : Forall (fun _ : Agent.t => True) (Layer.agents layer)).
  { apply Forall_forall. intros; exact I. }
  specialize (Htasks Hall).
  pose proof (mapWorld_Forall (resumeAgent env input previousResponses)
                taskFromInvoker outcomeFromInvoker
                (fun t w0 Ht => resumeAgent_fromInvoker input previousResponses t w0 Ht)
                tasks w1 Htasks) as Houtcomes.
  destruct (mapWorld (resumeAgent env input previousResponses) tasks w1)
    as [outcomes w2].
  simpl in Houtcomes.
  unfold promiseAll. destruct (rejections outcomes); [|discriminate].
  intros H. injection H as <- _.
  now apply fulfilled_Forall.
Qed.

Lemma invokerResponse_no_error (r : ModelResponse) :
  invokerResponse r -> hasError r = false.
Proof.
  intros [output [-> _]]. reflexivity.
Qed.

(** The filter of the chain controller finds nothing in what a layer
    returns. *)
Lemma processLayer_no_errors layer input previousResponses w layerResponses w' :
  processLayer env layer input previousResponses w = (Ok layerResponses, w') ->
  filter hasError layerResponses = [].
Proof.
  intros H. apply processLayer_fromInvoker in H.
  induction H as [|r rs Hr Hrs IH]; simpl; [reflexivity|].
  now rewrite (invokerResponse_no_error r Hr).
Qed.

(** C10: [runModel] either returns a response with trimmed, non-empty
    content and no error field, or throws; so the responses [processLayer]
    hands to the chain controller never pass its [r => r.error] filter,
    and the branch that fails the layer on such a response is never
    taken. *)
Theorem runModel_never_error_bearing :
  (forall agent prompt w,
      (exists r w',
          runModel env agent prompt w = (Ok r, w') /\
          error r = None /\
          content r <> EmptyString /\
          JsString.trim (content r) = content r) \/
      (exists e w', runModel env agent prompt w = (Throw e, w'))) /\
  (forall layer input previousResponses w layerResponses w',
      processLayer env layer input previousResponses w = (Ok layerResponses, w') ->
      filter hasError layerResponses = []).
Proof.
  split.
  - intros agent prompt w.
    destruct (runModel_settles env agent prompt w) as [[r [w' H]] | [m [w' H]]].
    + left. exists r, w'. split; [exact H|].
      destruct (runModel_fulfilled env _ _ _ _ _ H) as [output [-> Hne]].
      simpl. repeat split; [exact Hne | apply trim_idempotent].
    + right. eauto.
  - intros layer input previousResponses w layerResponses w' H.
    exact (processLayer_no_errors _ _ _ _ _ _ H).
Qed.

End LayerFacts.

(** One agent on the example backend: its response does not pass the
    error filter. *)
Lemma runModel_never_error_bearing_witness :
  filter hasError [plainResponse "7"] = [].
Proof.
  eapply (proj2 (runModel_never_error_bearing Examples.exampleEnv)
            (Examples.exampleLayer "draft" "{input}" 2) "hello" []
            Examples.exampleWorld).
  vm_compute. reflexivity.
Defined.

(** ** Aggregator: the empty response set *)

(** C8: whatever the strategy object is (any method, with or without a
    prompt file or weights), aggregating no response returns the error
    "No responses to aggregate" with empty content and leaves the world
    as it was: no shell command, no file read, no change to the
    strategy. *)
Theorem aggregateResponses_empty (env : Env) (strategy : StrategyRef) (w : World) :
  aggregateResponses env [] strategy w =
  (Ok {| content := EmptyString; metadata := None; error := Some "No responses to aggregate" |},
   w).
Proof.
  reflexivity.
Qed.

(** ** Chain controller *)

Section ChainFacts.

Variable env : Env.

(** What the [catch] clause of [runMOAChain] makes of the outcome of the
    [try] block: a thrown value with a text becomes the response with
    empty content and the error "Error in MOA chain: " followed by that
    text; for a value without one, building the error text throws, and
    the call throws that [TypeError]. *)
Lemma runMOAChain_outcome (fuel : nat) (config : MOAConfig.t) (initialInput : string)
  (w : World) :
  runMOAChain env fuel config initialInput w =
  match chainBody env fuel config initialInput w with
  | (Ok r, w1) => (Ok r, w1)
  | (Throw e, w1) =>
      match errorText e with
      | Ok text => (Ok (Some (failureResponse text)), w1)
      | Throw e' => (Throw e', w1)
      end
  end.
Proof.
  unfold runMOAChain, tryCatch, bind, liftResult, ret.
  destruct (chainBody env fuel config initialInput w) as [[r|e] w1]; [reflexivity|].
  now destruct (errorText e).
Qed.

(** The loops with a count of their own, and without one. *)
Lemma chainLoop_bounded (fuel : nat) (config : MOAConfig.t) (initialInput : string)
  (w : World) (passes : nat) :
  iterationCount config = Some passes ->
  chainLoop env fuel config initialInput w =
  match forIterations env config passes
          {| currentInput := initialInput; allResponses := [] |} w with
  | (Ok step, w1) => (Ok (Some step), w1)
  | (Throw e, w1) => (Throw e, w1)
  end.
Proof.
  intros Hcount. unfold chainLoop. rewrite Hcount. reflexivity.
Qed.

Lemma chainLoop_unbounded (fuel : nat) (config : MOAConfig.t) (initialInput : string)
  (w : World) :
  iterationCount config = None ->
  chainLoop env fuel config initialInput w =
  forIterationsUnbounded env config fuel
    {| currentInput := initialInput; allResponses := [] |} w.
Proof.
  intros Hcount. unfold chainLoop. now rewrite Hcount.
Qed.

(** A throw in the first layer surfaces from the loops. *)
Lemma chainLoop_layer_throws fuel config initialInput w layer rest e w1 :
  MOAConfig.layers config = layer :: rest ->
  iterationCount config <> Some 0 ->
  (iterationCount config = None -> fuel <> 0) ->
  runLayer env config layer {| currentInput := initialInput; allResponses := [] |} w
    = (Throw e, w1) ->
  chainBody env fuel config initialInput w = (Throw e, w1).
Proof.
  intros Hlayers Hcount Hfuel Hrun.
  unfold chainBody, bind.
  destruct (iterationCount config) as [[|passes]|] eqn:Hpasses.
  - now contradiction Hcount.
  - rewrite (chainLoop_bounded fuel config initialInput w _ Hpasses).
    simpl. unfold bind. rewrite Hlayers. simpl. unfold bind. now rewrite Hrun.
  - rewrite (chainLoop_unbounded fuel config initialInput w Hpasses).
    destruct fuel as [|fuel]; [now contradiction Hfuel|].
    simpl. unfold bind. rewrite Hlayers. simpl. unfold bind. now rewrite Hrun.
Qed.

(** C9: when the first layer is processed and aggregated and the stop
    predicate holds of the history made of that one aggregate, the loops
    end there: the run returns that aggregate, the history has exactly one
    entry, and the world is the one the first aggregation left (no later
    layer or iteration did anything), however many layers and iterations
    are configured (any count that asks for a first pass, a count without
    end included). *)
Theorem stop_after_first_aggregate (config : MOAConfig.t) (initialInput : string)
  (w w1 w2 : World) (layer : Layer.t) (rest : list Layer.t)
  (layerResponses : list ModelResponse) (aggregated : ModelResponse)
  (criteria : list ModelResponse -> Result bool) (fuel : nat) :
  MOAConfig.layers config = layer :: rest ->
  iterationCount config <> Some 0 ->
  (iterationCount config = None -> fuel <> 0) ->
  processLayer env layer initialInput [] w = (Ok layerResponses, w1) ->
  aggregateResponses env layerResponses (Layer.aggregationStrategy layer) w1
    = (Ok aggregated, w2) ->
  MOAConfig.stopCriteria config = Some criteria ->
  criteria [aggregated] = Ok true ->
  chainLoop env fuel config initialInput w =
    (Ok (Some (Return aggregated {| currentInput := content aggregated;
                                    allResponses := [aggregated] |})), w2) /\
  runMOAChain env fuel config initialInput w = (Ok (Some aggregated), w2).
Proof.
  intros Hlayers Hcount Hfuel Hprocess Haggregate Hcriteria Hstop.
  assert (Hlayer :
    runLayer env config layer {| currentInput := initialInput; allResponses := [] |} w
    = (Ok (Return aggregated {| currentInput := content aggregated;
                                allResponses := [aggregated] |}), w2)).
  { unfold runLayer, bind. simpl. rewrite Hprocess.
    rewrite (processLayer_no_errors env _ _ _ _ _ _ Hprocess).
    rewrite Haggregate. unfold stopRequested. rewrite Hcriteria.
    unfold liftResult. simpl. rewrite Hstop. reflexivity. }
  assert (Hloop : chainLoop env fuel config initialInput w =
    (Ok (Some (Return aggregated {| currentInput := content aggregated;
                                    allResponses := [aggregated] |})), w2)).
  { destruct (iterationCount config) as [[|passes]|] eqn:Hpasses.
    - now contradiction Hcount.
    - rewrite (chainLoop_bounded fuel config initialInput w _ Hpasses).
      simpl. unfold bind. rewrite Hlayers. simpl. unfold bind. now rewrite Hlayer.
    - rewrite (chainLoop_unbounded fuel config initialInput w Hpasses).
      destruct fuel as [|fuel]; [now contradiction Hfuel|].
      simpl. unfold bind. rewrite Hlayers. simpl. unfold bind. now rewrite Hlayer. }
  split; [exact Hloop|].
  rewrite runMOAChain_outcome. unfold chainBody, bind. now rewrite Hloop.
Qed.

End ChainFacts.

(** A throw of each stage comes back as an error response: an agent with
    an unknown model prefix, an aggregation prompt file that does not
    exist, and a stop predicate that throws a value that is not an
    [Error]. *)
Example runMOAChain_failures :
  fst (runMOAChain Examples.exampleEnv 0
         (Examples.singleLayerConfig Examples.unsupportedLayer None) "hello"
         Examples.exampleWorld)
  = Ok (Some (failureResponse
                "Error running model gpt-4: Unsupported model prefix in: gpt-4")) /\
  fst (runMOAChain Examples.exampleEnv 0
         (Examples.singleLayerConfig (Examples.exampleLayer "draft" "{input}" 3) None)
         "hello" Examples.exampleWorld)
  = Ok (Some (failureResponse "Prompt file not found: prompts/missing.xml")) /\
  fst (runMOAChain Examples.exampleEnv 0
         (Examples.singleLayerConfig (Examples.exampleLayer "draft" "{input}" 2)
            (Some (fun _ => Throw (ThrownValue "boom"))))
         "hello" Examples.exampleWorld)
  = Ok (Some {| content := EmptyString; metadata := None;
                error := Some "Error in MOA chain: boom" |}).
Proof.
  repeat split; vm_compute; reflexivity.
Qed.

(** Two layers and three iterations are configured; the predicate stops
    the run after the first aggregate. *)
Lemma stop_after_first_aggregate_witness :
  chainLoop Examples.exampleEnv 0 Examples.stoppingConfig "hello" Examples.exampleWorld =
    (Ok (Some (Return (plainResponse "7")
                 {| currentInput := "7"; allResponses := [plainResponse "7"] |})),
     snd (aggregateResponses Examples.exampleEnv [plainResponse "7"] 2
            (snd (processLayer Examples.exampleEnv
                    (Examples.exampleLayer "draft" "{input}" 2) "hello" []
                    Examples.exampleWorld)))) /\
  runMOAChain Examples.exampleEnv 0 Examples.stoppingConfig "hello" Examples.exampleWorld =
    (Ok (Some (plainResponse "7")),
     snd (aggregateResponses Examples.exampleEnv [plainResponse "7"] 2
            (snd (processLayer Examples.exampleEnv
                    (Examples.exampleLayer "draft" "{input}" 2) "hello" []
                    Examples.exampleWorld)))).
Proof.
  apply (stop_after_first_aggregate Examples.exampleEnv Examples.stoppingConfig "hello"
           Examples.exampleWorld
           (snd (processLayer Examples.exampleEnv
                   (Examples.exampleLayer "draft" "{input}" 2) "hello" []
                   Examples.exampleWorld))
           _ (Examples.exampleLayer "draft" "{input}" 2)
           [Examples.exampleLayer "refine" "{input}" 2]
           [plainResponse "7"] (plainResponse "7")
           (fun history => Ok (negb (List.length history =? 0)%nat)) 0).
  - reflexivity.
  - vm_compute. discriminate.
  - vm_compute. discriminate.
  - reflexivity.
  - reflexivity.
  - reflexivity.
  - reflexivity.
Defined.

(** ** Prompt resolver *)

Section ResolverFacts.

Variable env : Env.

Lemma append_empty_r (s : string) : s ++ EmptyString = s.
Proof.
  induction s as [|c s IH]; simpl; [reflexivity | now rewrite IH].
Qed.

(** Among the children of the root, the first element named [tag] is the
    first section of that name. *)
Lemma elementsByTagName_parts (tag : string) (parts : list PromptPart) :
  hd_error (flat_map (elementsByTagNameIn tag) (map partNode parts)) =
  option_map (fun text => Element tag [Text text]) (sectionText tag parts).
Proof.
  induction parts as [|[t text | text | text] parts IH]; simpl; try exact IH.
  - reflexivity.
  - destruct (String.eqb t tag) eqn:Ht; simpl.
    + apply String.eqb_eq in Ht. now subst.
    + exact IH.
Qed.

(** The guard of the resolver: a resolved path that does not contain the
    working directory is rejected before the file system is touched. *)
Lemma readXMLPrompt_guard (promptFile : string) (w : World) :
  JsString.includes (Path.resolve (cwd env) promptFile) (cwd env) = false ->
  readXMLPrompt env promptFile w =
  (Throw (ErrorObject "File path must be within current working directory"), w).
Proof.
  intros H. unfold readXMLPrompt. now rewrite H.
Qed.

(** Resolution succeeds only when the resolved path contains the working
    directory. *)
Lemma readXMLPrompt_ok_includes (promptFile : string) (w w' : World)
  (xmlPrompt : XmlPrompt.t) :
  readXMLPrompt env promptFile w = (Ok xmlPrompt, w') ->
  JsString.includes (Path.resolve (cwd env) promptFile) (cwd env) = true.
Proof.
  unfold readXMLPrompt.
  destruct (JsString.includes (Path.resolve (cwd env) promptFile) (cwd env));
    [reflexivity | discriminate].
Qed.

(** C7: for a prompt file that passes the checks on its path, existence
    and size, and that parses to a document with root [<prompt>] whose
    children are text-holding sections, other text and comments:
    resolution returns the trimmed text of the [<template>] section as
    the template and the trimmed text of the [<system>] section as the
    system prompt; without a [<system>] section the system prompt is
    absent; without a [<template>] section resolution throws
    "Invalid XML: missing <template> element". *)
Theorem readXMLPrompt_well_formed (promptFile : string) (w : World) (f : File)
  (text : string) (parts : list PromptPart) :
  let resolvedPath := Path.resolve (cwd env) promptFile in
  JsString.includes resolvedPath (cwd env) = true ->
  files env resolvedPath = Some f ->
  (size f <= MAX_FILE_SIZE)%Z ->
  read f = Ok text ->
  parseFromString env text = Ok (promptDocument parts) ->
  readXMLPrompt env promptFile w =
  (match sectionText "template" parts with
   | Some T =>
       Ok {| XmlPrompt.systemPrompt := option_map JsString.trim (sectionText "system" parts);
             XmlPrompt.template := JsString.trim T |}
   | None => Throw (ErrorObject "Invalid XML: missing <template> element")
   end,
   logEvent (EvReadFile resolvedPath) w).
Proof.
  intros resolvedPath Hguard Hfile Hsize Hread Hparse.
  unfold readXMLPrompt. fold resolvedPath.
  rewrite Hguard, Hfile. simpl negb. cbv iota.
  replace (MAX_FILE_SIZE <? size f)%Z with false
    by (symmetry; apply Z.ltb_ge; exact Hsize).
  unfold bind, readFileSync, liftResult. rewrite Hread, Hparse.
  unfold promptDocument, getElementsByTagName.
  cbn [flat_map elementsByTagNameIn String.eqb Ascii.eqb Bool.eqb app].
  rewrite !app_nil_r.
  rewrite !elementsByTagName_parts.
  destruct (sectionText "template" parts) as [T|]; simpl; [|reflexivity].
  unfold ret. rewrite append_empty_r.
  destruct (sectionText "system" parts) as [S|]; simpl; [|reflexivity].
  now rewrite append_empty_r.
Qed.

End ResolverFacts.

(** The aggregation prompt of the examples: both sections are trimmed. *)
Lemma readXMLPrompt_well_formed_witness :
  readXMLPrompt Examples.exampleEnv "prompts/aggregate.xml" Examples.exampleWorld =
  (Ok {| XmlPrompt.systemPrompt := Some "Be brief.";
         XmlPrompt.template := "Combine: {responses}" |},
   logEvent (EvReadFile "/home/user/moa_cli/prompts/aggregate.xml") Examples.exampleWorld).
Proof.
  apply (readXMLPrompt_well_formed Examples.exampleEnv "prompts/aggregate.xml"
           Examples.exampleWorld
           {| size := 88; read := Ok Examples.aggregatePromptText |}
           Examples.aggregatePromptText
           [Part "system" " Be brief. "; Part "template" " Combine: {responses} "]).
  - reflexivity.
  - reflexivity.
  - vm_compute. discriminate.
  - reflexivity.
  - reflexivity.
Defined.

(** ** Aggregator: what a call does to the strategy objects *)

Section StrategyStoreFacts.

Variable env : Env.

Ltac split_cases :=
  repeat match goal with
         | |- context [match ?x with _ => _ end] => destruct x eqn:?
         | |- context [if ?b then _ else _] => destruct b eqn:?
         end.

Lemma getNextInstance_strategies (w : World) :
  strategies (snd (getNextInstance env w)) = strategies w.
Proof.
  unfold getNextInstance. destruct (ollamaInstances env); reflexivity.
Qed.

Lemma readXMLPrompt_strategies (promptFile : string) (w : World) :
  strategies (snd (readXMLPrompt env promptFile w)) = strategies w.
Proof.
  unfold readXMLPrompt, bind, readFileSync, liftResult, throw, ret.
  split_cases; reflexivity.
Qed.

Lemma chooseInstanceUri_strategies (agent : Agent.t) (w : World) :
  strategies (snd (chooseInstanceUri env agent w)) = strategies w.
Proof.
  unfold chooseInstanceUri, ret.
  destruct (truthy (Agent.instanceUri agent)); [reflexivity|].
  pose proof (getNextInstance_strategies w) as H.
  destruct (getNextInstance env w) as [[instance|] w1]; exact H.
Qed.

Lemma runModel_strategies (agent : Agent.t) (prompt : string) (w : World) :
  strategies (snd (runModel env agent prompt w)) = strategies w.
Proof.
  unfold runModel, tryCatch, bind.
  pose proof (chooseInstanceUri_strategies agent w) as H.
  destruct (chooseInstanceUri env agent w) as [[uri|e] w1]; simpl in H;
    [|unfold liftResult, throw; destruct (errorText e); exact H].
  match goal with
  | |- context [(if ?c then ?a else ?b) w1] =>
      assert (Hrun : strategies (snd ((if c then a else b) w1)) = strategies w1)
        by (destruct c; [reflexivity | split_cases; reflexivity]);
      destruct ((if c then a else b) w1) as [[output|e] w2]
  end; simpl in Hrun.
  - destruct (String.eqb output EmptyString || (String.length (JsString.trim output) =? 0)%nat);
      simpl; congruence.
  - unfold liftResult, throw. destruct (errorText e); simpl; congruence.
Qed.

(** The branches of the [switch] leave the store alone. *)
Lemma aggregateBy_strategies (current : AggregationStrategy.t)
  (first : ModelResponse) (rest : list ModelResponse) (w : World) :
  strategies (snd (aggregateBy env current first rest w)) = strategies w.
Proof.
  unfold aggregateBy.
  destruct (AggregationStrategy.method current); try reflexivity.
  apply runModel_strategies.
Qed.

(** The store after a call, in terms of the prompt file step alone. *)
Lemma aggregateResponses_store (responses : list ModelResponse) (ref : StrategyRef)
  (w : World) :
  strategies (snd (aggregateResponses env responses ref w)) =
  match responses, AggregationStrategy.promptTemplate (strategies w ref) with
  | _ :: _, Some file =>
      if JsString.endsWith file ".xml" then
        match readXMLPrompt env file w with
        | (Ok xmlPrompt, w1) =>
            strategies (assignPromptTemplate ref (XmlPrompt.template xmlPrompt) w1)
        | (Throw _, _) => strategies w
        end
      else strategies w
  | _, _ => strategies w
  end.
Proof.
  unfold aggregateResponses.
  destruct responses as [|first rest]; [reflexivity|].
  unfold bind at 1. unfold getStrategy at 1.
  destruct (AggregationStrategy.promptTemplate (strategies w ref)) as [file|].
  - destruct (JsString.endsWith file ".xml").
    + unfold bind at 1. unfold bind at 1.
      pose proof (readXMLPrompt_strategies file w) as Hread.
      destruct (readXMLPrompt env file w) as [[xmlPrompt|e] w1]; simpl in Hread.
      * unfold bind, getStrategy.
        now rewrite aggregateBy_strategies.
      * exact Hread.
    + unfold bind, ret, getStrategy.
      now rewrite aggregateBy_strategies.
  - unfold bind, ret, getStrategy.
    now rewrite aggregateBy_strategies.
Qed.

(** What a call does to the store: it never touches another strategy
    object, nor the method and the weights of its own; it leaves
    [promptTemplate] alone when there is no response, when the template
    is absent or does not end in ".xml", or when the prompt file cannot be
    resolved; and when the template ends in ".xml" and the file resolves,
    it overwrites [promptTemplate] with the resolved template text. *)
Lemma aggregateResponses_strategy_update (responses : list ModelResponse)
  (ref : StrategyRef) (w : World) :
  let w' := snd (aggregateResponses env responses ref w) in
  let before := strategies w ref in
  (forall other, other <> ref -> strategies w' other = strategies w other) /\
  AggregationStrategy.method (strategies w' ref) = AggregationStrategy.method before /\
  AggregationStrategy.weights (strategies w' ref) = AggregationStrategy.weights before /\
  (forall file xmlPrompt w1,
      responses <> [] ->
      AggregationStrategy.promptTemplate before = Some file ->
      JsString.endsWith file ".xml" = true ->
      readXMLPrompt env file w = (Ok xmlPrompt, w1) ->
      AggregationStrategy.promptTemplate (strategies w' ref)
      = Some (XmlPrompt.template xmlPrompt)) /\
  ((responses = [] \/
    AggregationStrategy.promptTemplate before = None \/
    (exists file,
        AggregationStrategy.promptTemplate before = Some file /\
        (JsString.endsWith file ".xml" = false \/
         exists e w1, readXMLPrompt env file w = (Throw e, w1)))) ->
   strategies w' ref = before).
Proof.
  intros w' before. subst w' before.
  rewrite aggregateResponses_store.
  repeat split.
  - intros other Hother.
    destruct responses; [reflexivity|].
    destruct (AggregationStrategy.promptTemplate (strategies w ref)) as [file|];
      [|reflexivity].
    destruct (JsString.endsWith file ".xml"); [|reflexivity].
    pose proof (readXMLPrompt_strategies file w) as Hread.
    destruct (readXMLPrompt env file w) as [[xmlPrompt|e] w1]; simpl in Hread;
      [|reflexivity].
    simpl. apply Nat.eqb_neq in Hother. rewrite Hother. now rewrite Hread.
  - destruct responses; [reflexivity|].
    destruct (AggregationStrategy.promptTemplate (strategies w ref)) as [file|];
      [|reflexivity].
    destruct (JsString.endsWith file ".xml"); [|reflexivity].
    pose proof (readXMLPrompt_strategies file w) as Hread.
    destruct (readXMLPrompt env file w) as [[xmlPrompt|e] w1]; simpl in Hread;
      [|reflexivity].
    simpl. rewrite Nat.eqb_refl. simpl. now rewrite Hread.
  - destruct responses; [reflexivity|].
    destruct (AggregationStrategy.promptTemplate (strategies w ref)) as [file|];
      [|reflexivity].
    destruct (JsString.endsWith file ".xml"); [|reflexivity].
    pose proof (readXMLPrompt_strategies file w) as Hread.
    destruct (readXMLPrompt env file w) as [[xmlPrompt|e] w1]; simpl in Hread;
      [|reflexivity].
    simpl. rewrite Nat.eqb_refl. simpl. now rewrite Hread.
  - intros file xmlPrompt w1 Hne Htemplate Hxml Hread.
    destruct responses; [contradiction|].
    rewrite Htemplate, Hxml, Hread. simpl. now rewrite Nat.eqb_refl.
  - intros [-> | [Hnone | [file [Htemplate [Hplain | [e [w1 Hthrow]]]]]]].
    + reflexivity.
    + rewrite Hnone. now destruct responses.
    + rewrite Htemplate, Hplain. now destruct responses.
    + rewrite Htemplate, Hthrow.
      destruct responses; [reflexivity|].
      now destruct (JsString.endsWith file ".xml").
Qed.

End StrategyStoreFacts.

(** C4 at a concatenating strategy whose [promptTemplate] refers to the
    prompt file "prompts/merge.xml", with template text "Merge the
    answers into report.xml": one aggregation call replaces the reference
    in the strategy object by that text.  A run of one iteration returns
    the agent's answer; in a run of two iterations the second aggregation
    takes the text for a file reference and the run fails with
    "Prompt file not found". *)
Theorem aggregateResponses_overwrites_promptTemplate :
  AggregationStrategy.promptTemplate (strategies mergeWorld 0)
  = Some "prompts/merge.xml" /\
  AggregationStrategy.promptTemplate
    (strategies (snd (aggregateResponses mergeEnv [plainResponse "7"] 0 mergeWorld)) 0)
  = Some "Merge the answers into report.xml" /\
  fst (runMOAChain mergeEnv 0 (mergeConfig 1) "hello" mergeWorld)
  = Ok (Some {| content := "7";
                metadata := Some {| iterations := JsNumber.ofNat 1;
                                    totalResponses := 1;
                                    finalResponseLength := 1 |};
                error := None |}) /\
  fst (runMOAChain mergeEnv 0 (mergeConfig 2) "hello" mergeWorld)
  = Ok (Some {| content := EmptyString;
                metadata := None;
                error := Some ("Error in MOA chain: Prompt file not found: "
                               ++ "Merge the answers into report.xml") |}).
Proof.
  repeat split; vm_compute; reflexivity.
Qed.

(** ** Placeholder substitution *)

Section SubstitutionFacts.

Import JsString.

Lemma includes_dollar_cons (c : ascii) (r : string) :
  includes (String c r) "$" = false ->
  Ascii.eqb c "$" = false /\ includes r "$" = false.
Proof.
  simpl. intros H. apply orb_false_iff in H. destruct H as [Hhead Htail].
  split; [|exact Htail].
  destruct (ascii_dec "$" c) as [<- | Hneq].
  - destruct r; discriminate Hhead.
  - apply Ascii.eqb_neq. congruence.
Qed.

(** A replacement text without a dollar sign is inserted as it is. *)
Lemma getSubstitution_plain (matched before after replacement : string) :
  includes replacement "$" = false ->
  getSubstitution matched before after replacement = replacement.
Proof.
  induction replacement as [|c r IH]; intros H; [reflexivity|].
  apply includes_dollar_cons in H. destruct H as [Hc Hr].
  simpl. rewrite Hc. now rewrite (IH Hr).
Qed.

Lemma replace_plain (s pat replacement : string) :
  includes replacement "$" = false ->
  replace s pat replacement = substitute s pat replacement.
Proof.
  intros H. unfold replace, substitute.
  destruct (splitFirst pat s) as [[before after]|]; [|reflexivity].
  now rewrite getSubstitution_plain.
Qed.

(** When neither the input nor the joined earlier contents hold a dollar
    sign, the prompt of the code is the one the specification describes
    (first occurrence of each placeholder, one after the other). *)
Lemma contextualPrompt_plain (template input : string)
  (previousResponses : list ModelResponse) :
  includes input "$" = false ->
  includes (join LF (map content previousResponses)) "$" = false ->
  contextualPrompt template input previousResponses
  = placeholderPrompt template input previousResponses.
Proof.
  intros Hinput Hprevious. unfold contextualPrompt, placeholderPrompt.
  now rewrite !replace_plain.
Qed.

End SubstitutionFacts.

(** C5 at the input "pay $$5": the agent is invoked with "Q: pay $5",
    because [replace] reads [$$] in the inserted text as one dollar sign,
    where the template with [{input}] replaced by the input is
    "Q: pay $$5". *)
Theorem processLayer_prompt_dollar_patterns :
  contextualPrompt "Q: {input}" "pay $$5" [] = "Q: pay $5" /\
  placeholderPrompt "Q: {input}" "pay $$5" [] = "Q: pay $$5" /\
  trace (snd (processLayer Examples.exampleEnv
                (Examples.exampleLayer "draft" "Q: {input}" 2) "pay $$5" []
                Examples.exampleWorld))
  = [EvShell (OllamaRun "http://10.0.0.2:11434" "llama2" "Q: pay $5")].
Proof.
  repeat split; vm_compute; reflexivity.
Qed.

(** ** Path guard of the prompt resolver *)

Lemma prefix_append (s b : string) : String.prefix s (s ++ b) = true.
Proof.
  induction s as [|c s IH]; simpl; [now destruct b|].
  destruct (ascii_dec c c); [exact IH | contradiction].
Qed.

Lemma includes_of_prefix (s sub : string) :
  String.prefix sub s = true -> JsString.includes s sub = true.
Proof.
  intros H. destruct s; cbn [JsString.includes]; rewrite H; reflexivity.
Qed.

(** The guard looks for the working directory anywhere in the path. *)
Lemma includes_infix (a s b : string) :
  JsString.includes (a ++ s ++ b) s = true.
Proof.
  induction a as [|c a IH]; simpl.
  - apply includes_of_prefix, prefix_append.
  - rewrite IH. apply orb_true_r.
Qed.

(** C2 at the reference "../moa_cli_private/prompt.xml" with the working
    directory "/home/user/moa_cli": the resolved path lies outside the
    working directory, yet it contains the working directory as a
    substring, so the guard lets it through and the file is read and its
    template returned. *)
Theorem readXMLPrompt_reads_outside_cwd :
  let reference := "../moa_cli_private/prompt.xml" in
  let resolvedPath := Path.resolve (cwd Examples.exampleEnv) reference in
  resolvedPath = "/home/user/moa_cli_private/prompt.xml" /\
  Path.inside (cwd Examples.exampleEnv) resolvedPath = false /\
  JsString.includes resolvedPath (cwd Examples.exampleEnv) = true /\
  readXMLPrompt Examples.exampleEnv reference Examples.exampleWorld =
  (Ok {| XmlPrompt.systemPrompt := None;
         XmlPrompt.template := "Private notes: {input}" |},
   logEvent (EvReadFile resolvedPath) Examples.exampleWorld).
Proof.
  repeat split; vm_compute; reflexivity.
Qed.

(** ** Weighted aggregation *)

Section WeightedFacts.

Lemma append_assoc (a b c : string) : (a ++ b) ++ c = a ++ (b ++ c).
Proof.
  induction a as [|x a IH]; simpl; [reflexivity | now rewrite IH].
Qed.

(** The accumulator only ever grows at its end. *)
Lemma weightedReduce_acc (weights : list JsNumber.Number) (contents : list string) :
  forall (i : nat) (acc : string),
    weightedReduce weights i acc contents
    = acc ++ weightedReduce weights i EmptyString contents.
Proof.
  induction contents as [|c rest IH]; intros i acc; simpl.
  - now rewrite append_empty_r.
  - rewrite IH. rewrite (IH (S i) (JsNumber.toString _)).
    now rewrite append_assoc.
Qed.

(** The reduction writes the products one after the other: it is a
    concatenation of their texts, not a sum. *)
Lemma weightedReduce_cons (weights : list JsNumber.Number) (i : nat) (c : string)
  (rest : list string) :
  weightedReduce weights i EmptyString (c :: rest)
  = JsNumber.toString (JsNumber.mul (JsNumber.ofString c) (weightAt weights i))
    ++ weightedReduce weights (S i) EmptyString rest.
Proof.
  simpl. apply weightedReduce_acc.
Qed.

Lemma weightAt_uniform (responses : list ModelResponse) (i : nat) :
  i < List.length responses ->
  weightAt (uniformWeights responses) i
  = JsNumber.div (JsNumber.ofNat 1) (JsNumber.ofNat (List.length responses)).
Proof.
  intros Hi. unfold weightAt, uniformWeights. rewrite nth_error_map.
  destruct (nth_error responses i) eqn:Hnth; [reflexivity|].
  apply nth_error_None in Hnth. lia.
Qed.

Lemma weightedReduce_constant (weights : list JsNumber.Number)
  (weight : JsNumber.Number) (v : string) (n : nat) :
  (forall i, i < n -> weightAt weights i = weight) ->
  forall k i, i + k <= n ->
    weightedReduce weights i EmptyString (repeat v k)
    = repeatText (JsNumber.toString (JsNumber.mul (JsNumber.ofString v) weight)) k.
Proof.
  intros Hweights. induction k as [|k IH]; intros i Hik; [reflexivity|].
  cbn [repeat]. rewrite weightedReduce_cons.
  rewrite Hweights by lia. rewrite IH by lia. reflexivity.
Qed.

(** For every number of responses with the same content [v], the weighted
    strategy without weights returns the text of [v * (1 / N)] written [N]
    times. *)
Lemma aggregateResponses_weighted_uniform (env : Env) (w : World)
  (ref : StrategyRef) (v : string) (n : nat) :
  AggregationStrategy.method (strategies w ref) = weighted ->
  AggregationStrategy.promptTemplate (strategies w ref) = None ->
  AggregationStrategy.weights (strategies w ref) = None ->
  aggregateResponses env (repeat (plainResponse v) (S n)) ref w
  = (Ok (plainResponse
           (repeatText
              (JsNumber.toString
                 (JsNumber.mul (JsNumber.ofString (JsString.trim v))
                    (JsNumber.div (JsNumber.ofNat 1) (JsNumber.ofNat (S n)))))
              (S n))),
     w).
Proof.
  intros Hmethod Htemplate Hweights.
  change (repeat (plainResponse v) (S n))
    with (plainResponse v :: repeat (plainResponse v) n).
  unfold aggregateResponses, bind, getStrategy.
  rewrite Htemplate. unfold ret, aggregateBy. rewrite Hmethod, Hweights.
  change (plainResponse v :: repeat (plainResponse v) n)
    with (repeat (plainResponse v) (S n)).
  rewrite map_repeat.
  rewrite (weightedReduce_constant (uniformWeights (repeat (plainResponse v) (S n)))
             (JsNumber.div (JsNumber.ofNat 1) (JsNumber.ofNat (S n)))
             (JsString.trim v) (S n)).
  - reflexivity.
  - intros i Hi.
    rewrite weightAt_uniform by (rewrite repeat_length; exact Hi).
    now rewrite repeat_length.
  - lia.
Qed.

End WeightedFacts.

(** C1 at two responses "4" and "4", weighted strategy without weights:
    the weights are 1/2 each, each product is 2, and the returned content
    is "22" (the two products written one after the other), where the
    weighted sum is 4. *)
Theorem aggregateResponses_weighted_two_fours :
  uniformWeights [plainResponse "4"; plainResponse "4"]
  = [JsNumber.ofString "0.5"; JsNumber.ofString "0.5"] /\
  JsNumber.toString (JsNumber.mul (JsNumber.ofString "4") (JsNumber.ofString "0.5")) = "2" /\
  aggregateResponses Examples.exampleEnv [plainResponse "4"; plainResponse "4"] 0
    Examples.exampleWorld
  = (Ok (plainResponse "22"), Examples.exampleWorld).
Proof.
  repeat split; vm_compute; reflexivity.
Qed.

(** With one response the content comes back; with three responses "3"
    the content is "111". *)
Example aggregateResponses_weighted_one_and_three :
  fst (aggregateResponses Examples.exampleEnv [plainResponse "4"] 0
         Examples.exampleWorld) = Ok (plainResponse "4") /\
  fst (aggregateResponses Examples.exampleEnv
         [plainResponse "3"; plainResponse "3"; plainResponse "3"] 0
         Examples.exampleWorld) = Ok (plainResponse "111").
Proof.
  split; vm_compute; reflexivity.
Qed.

(** * Further properties of the orchestrator *)

(** ** What every computation of a run preserves *)

Section WorldInvariant.

Variable env : Env.
Variable P : World -> Prop.

Hypothesis P_cursor : forall w,
  P w -> ollamaInstances env <> [] ->
  P (setInstanceIndex
       ((currentInstanceIndex w + 1) mod List.length (ollamaInstances env)) w).
Hypothesis P_log : forall w ev, P w -> P (logEvent ev w).
Hypothesis P_assign : forall w ref file value,
  P w ->
  AggregationStrategy.promptTemplate (strategies w ref) = Some file ->
  JsString.endsWith file ".xml" = true ->
  P (assignPromptTemplate ref value w).

Lemma getNextInstance_preserves (w : World) :
  P w -> P (snd (getNextInstance env w)).
Proof.
  intros Hw.
  assert (Hcases : ollamaInstances env = [] \/ ollamaInstances env <> []).
  { destruct (ollamaInstances env); [now left | right; discriminate]. }
  destruct Hcases as [Hnil | Hne].
  - now rewrite (getNextInstance_no_endpoints env w Hnil).
  - rewrite (getNextInstance_some env w Hne). simpl. now apply P_cursor.
Qed.

Lemma readXMLPrompt_preserves (promptFile : string) (w : World) :
  P w -> P (snd (readXMLPrompt env promptFile w)).
Proof.
  intros Hw. unfold readXMLPrompt.
  destruct (negb _); [exact Hw|].
  destruct (files env _) as [f|]; [|exact Hw].
  destruct (MAX_FILE_SIZE <? size f)%Z; [exact Hw|].
  unfold bind, readFileSync, liftResult, throw, ret.
  pose proof (P_log w (EvReadFile (Path.resolve (cwd env) promptFile)) Hw) as Hlog.
  destruct (read f) as [text|e]; [|exact Hlog].
  destruct (parseFromString env text) as [doc|e]; [|exact Hlog].
  destruct (getElementsByTagName doc "prompt"); [exact Hlog|].
  destruct (hd_error (getElementsByTagName doc "template")); exact Hlog.
Qed.

Lemma chooseInstanceUri_preserves (agent : Agent.t) (w : World) :
  P w -> P (snd (chooseInstanceUri env agent w)).
Proof.
  intros Hw. unfold chooseInstanceUri.
  destruct (truthy (Agent.instanceUri agent)); [exact Hw|].
  pose proof (getNextInstance_preserves w Hw) as H.
  destruct (getNextInstance env w) as [[instance|] w1]; exact H.
Qed.

Lemma runModel_preserves (agent : Agent.t) (prompt : string) (w : World) :
  P w -> P (snd (runModel env agent prompt w)).
Proof.
  intros Hw. unfold runModel, tryCatch, bind.
  pose proof (chooseInstanceUri_preserves agent w Hw) as H.
  destruct (chooseInstanceUri env agent w) as [[uri|e] w1]; simpl in H;
    [|unfold liftResult, throw; destruct (errorText e); exact H].
  match goal with
  | |- context [(if ?c then ?a else ?b) w1] =>
      assert (Hrun : P (snd ((if c then a else b) w1)));
      [ destruct c; [apply P_log; exact H|];
        match goal with
        | |- context [if ?d then _ else _] => destruct d; [apply P_log; exact H | exact H]
        end
      | destruct ((if c then a else b) w1) as [[output|e] w2] ]
  end; simpl in Hrun.
  - destruct (String.eqb output EmptyString || (String.length (JsString.trim output) =? 0)%nat);
      exact Hrun.
  - unfold liftResult, throw. destruct (errorText e); exact Hrun.
Qed.

Lemma mapWorld_preserves {A B} (f : A -> World -> B * World) :
  (forall x w, P w -> P (snd (f x w))) ->
  forall xs w, P w -> P (snd (mapWorld f xs w)).
Proof.
  intros Hf xs. induction xs as [|x xs IH]; intros w Hw; [exact Hw|].
  simpl. pose proof (Hf x w Hw) as H1.
  destruct (f x w) as [y w1]. simpl in H1.
  pose proof (IH w1 H1) as H2.
  destruct (mapWorld f xs w1) as [ys w2]. exact H2.
Qed.

Lemma startAgent_preserves input previousResponses agent w :
  P w -> P (snd (startAgent env input previousResponses agent w)).
Proof.
  intros Hw. unfold startAgent.
  pose proof (getNextInstance_preserves w Hw) as H.
  destruct (getNextInstance env w) as [[instance|] w1]; simpl in H; [|exact H].
  destruct (JsString.endsWith (Agent.promptTemplate agent) ".xml").
  - pose proof (readXMLPrompt_preserves (Agent.promptTemplate agent) w1 H) as H2.
    destruct (readXMLPrompt env (Agent.promptTemplate agent) w1). exact H2.
  - match goal with
    | |- context [runModel env ?a ?p w1] =>
        pose proof (runModel_preserves a p w1 H) as H2;
        destruct (runModel env a p w1)
    end. exact H2.
Qed.

Lemma resumeAgent_preserves input previousResponses task w :
  P w -> P (snd (resumeAgent env input previousResponses task w)).
Proof.
  intros Hw. unfold resumeAgent.
  destruct task as [outcome | agent [xmlPrompt|e]]; try exact Hw.
  apply runModel_preserves. exact Hw.
Qed.

Lemma processLayer_preserves layer input previousResponses w :
  P w -> P (snd (processLayer env layer input previousResponses w)).
Proof.
  intros Hw. unfold processLayer.
  pose proof (mapWorld_preserves (startAgent env input previousResponses)
                (startAgent_preserves input previousResponses)
                (Layer.agents layer) w Hw) as H1.
  destruct (mapWorld (startAgent env input previousResponses) (Layer.agents layer) w)
    as [tasks w1]. simpl in H1.
  pose proof (mapWorld_preserves (resumeAgent env input previousResponses)
                (resumeAgent_preserves input previousResponses) tasks w1 H1) as H2.
  destruct (mapWorld (resumeAgent env input previousResponses) tasks w1)
    as [outcomes w2]. exact H2.
Qed.

Lemma aggregateBy_preserves current first rest w :
  P w -> P (snd (aggregateBy env current first rest w)).
Proof.
  intros Hw. unfold aggregateBy.
  destruct (AggregationStrategy.method current); try exact Hw.
  apply runModel_preserves. exact Hw.
Qed.

Lemma aggregateResponses_preserves responses strategy w :
  P w -> P (snd (aggregateResponses env responses strategy w)).
Proof.
  intros Hw. unfold aggregateResponses.
  destruct responses as [|first rest]; [exact Hw|].
  unfold bind at 1. unfold getStrategy at 1.
  destruct (AggregationStrategy.promptTemplate (strategies w strategy)) as [file|]
    eqn:Htemplate.
  - destruct (JsString.endsWith file ".xml") eqn:Hxml.
    + unfold bind at 1. unfold bind at 1.
      pose proof (readXMLPrompt_preserves file w Hw) as H1.
      pose proof (readXMLPrompt_strategies env file w) as Hstore.
      destruct (readXMLPrompt env file w) as [[xmlPrompt|e] w1]; simpl in H1, Hstore;
        [|exact H1].
      unfold bind, getStrategy.
      apply aggregateBy_preserves. apply (P_assign w1 strategy file); [exact H1| |exact Hxml].
      now rewrite Hstore.
    + unfold bind, ret, getStrategy. apply aggregateBy_preserves. exact Hw.
  - unfold bind, ret, getStrategy. apply aggregateBy_preserves. exact Hw.
Qed.

Lemma runLayer_preserves config layer st w :
  P w -> P (snd (runLayer env config layer st w)).
Proof.
  intros Hw. unfold runLayer. unfold bind at 1.
  pose proof (processLayer_preserves layer (currentInput st) (allResponses st) w Hw)
    as H1.
  destruct (processLayer env layer (currentInput st) (allResponses st) w)
    as [[layerResponses|e] w1]; simpl in H1; [|exact H1].
  destruct (filter hasError layerResponses); [|exact H1].
  unfold bind at 1.
  pose proof (aggregateResponses_preserves layerResponses
                (Layer.aggregationStrategy layer) w1 H1) as H2.
  destruct (aggregateResponses env layerResponses (Layer.aggregationStrategy layer) w1)
    as [[aggregated|e] w2]; simpl in H2; [|exact H2].
  unfold bind, stopRequested, liftResult, ret.
  destruct (MOAConfig.stopCriteria config) as [criteria|]; [|exact H2].
  destruct (criteria _) as [[|]|e]; exact H2.
Qed.

Lemma forLayers_preserves config layers st w :
  P w -> P (snd (forLayers env config layers st w)).
Proof.
  revert st w. induction layers as [|layer rest IH]; intros st w Hw; [exact Hw|].
  simpl. unfold bind.
  pose proof (runLayer_preserves config layer st w Hw) as H1.
  destruct (runLayer env config layer st w) as [[[st'|aggregated st']|e] w1];
    simpl in H1; try exact H1.
  apply IH. exact H1.
Qed.

Lemma forIterations_preserves config remaining st w :
  P w -> P (snd (forIterations env config remaining st w)).
Proof.
  revert st w. induction remaining as [|remaining IH]; intros st w Hw; [exact Hw|].
  simpl. unfold bind.
  pose proof (forLayers_preserves config (MOAConfig.layers config) st w Hw) as H1.
  destruct (forLayers env config (MOAConfig.layers config) st w)
    as [[[st'|aggregated st']|e] w1]; simpl in H1; try exact H1.
  apply IH. exact H1.
Qed.

Lemma forIterationsUnbounded_preserves config fuel st w :
  P w -> P (snd (forIterationsUnbounded env config fuel st w)).
Proof.
  revert st w. induction fuel as [|fuel IH]; intros st w Hw; [exact Hw|].
  simpl. unfold bind.
  pose proof (forLayers_preserves config (MOAConfig.layers config) st w Hw) as H1.
  destruct (forLayers env config (MOAConfig.layers config) st w)
    as [[[st'|aggregated st']|e] w1]; simpl in H1; try exact H1.
  apply IH. exact H1.
Qed.

(** Whatever holds of the world and survives a step of the cursor, a
    recorded event and an assignment to a prompt template, holds after a
    whole run, and at every point of a run that does not end. *)
Lemma runMOAChain_preserves fuel config initialInput w :
  P w -> P (snd (runMOAChain env fuel config initialInput w)).
Proof.
  intros Hw. rewrite runMOAChain_outcome.
  assert (Hloop : P (snd (chainLoop env fuel config initialInput w))).
  { unfold chainLoop. destruct (iterationCount config) as [passes|].
    - unfold bind.
      pose proof (forIterations_preserves config passes
                    {| currentInput := initialInput; allResponses := [] |} w Hw) as H1.
      destruct (forIterations env config passes _ w) as [[step|e] w1]; exact H1.
    - apply forIterationsUnbounded_preserves. exact Hw. }
  unfold chainBody, bind.
  destruct (chainLoop env fuel config initialInput w)
    as [[[[st'|aggregated st']|]|e] w1]; simpl in Hloop; try exact Hloop.
  destruct (errorText e); exact Hloop.
Qed.

End WorldInvariant.

(** ** A whole run and the world *)

(** X2: A run that starts with the cursor inside the endpoint array leaves it
    inside the array. *)
Theorem runMOAChain_cursor_in_range (env : Env) (fuel : nat) (config : MOAConfig.t)
  (initialInput : string) (w : World) :
  currentInstanceIndex w < List.length (ollamaInstances env) ->
  currentInstanceIndex (snd (runMOAChain env fuel config initialInput w))
  < List.length (ollamaInstances env).
Proof.
  intros Hw.
  apply (runMOAChain_preserves env
           (fun w' => currentInstanceIndex w' < List.length (ollamaInstances env))).
  - intros w' _ Hne. simpl. apply Nat.mod_upper_bound.
    destruct (ollamaInstances env); [contradiction | discriminate].
  - intros w' ev H. exact H.
  - intros w' ref file value H _ _. exact H.
  - exact Hw.
Qed.

Lemma runMOAChain_cursor_in_range_witness :
  currentInstanceIndex
    (snd (runMOAChain Examples.exampleEnv 0 Examples.stoppingConfig "hello"
            Examples.exampleWorld)) < 3.
Proof.
  apply (runMOAChain_cursor_in_range Examples.exampleEnv 0 Examples.stoppingConfig
           "hello" Examples.exampleWorld).
  simpl. lia.
Defined.

(** X3: A run never changes the method or the weights of a strategy object,
    and it leaves alone every strategy object whose prompt template is
    absent or does not end in ".xml". *)
Theorem runMOAChain_strategies (env : Env) (fuel : nat) (config : MOAConfig.t)
  (initialInput : string) (w : World) (ref : StrategyRef) :
  let w' := snd (runMOAChain env fuel config initialInput w) in
  AggregationStrategy.method (strategies w' ref)
  = AggregationStrategy.method (strategies w ref) /\
  AggregationStrategy.weights (strategies w' ref)
  = AggregationStrategy.weights (strategies w ref) /\
  ((forall file, AggregationStrategy.promptTemplate (strategies w ref) = Some file ->
                 JsString.endsWith file ".xml" = false) ->
   strategies w' ref = strategies w ref).
Proof.
  apply (runMOAChain_preserves env
           (fun w' =>
              AggregationStrategy.method (strategies w' ref)
              = AggregationStrategy.method (strategies w ref) /\
              AggregationStrategy.weights (strategies w' ref)
              = AggregationStrategy.weights (strategies w ref) /\
              ((forall file,
                   AggregationStrategy.promptTemplate (strategies w ref) = Some file ->
                   JsString.endsWith file ".xml" = false) ->
               strategies w' ref = strategies w ref))).
  - intros w' H _. exact H.
  - intros w' ev H. exact H.
  - intros w' target file value [Hmethod [Hweights Hplain]] Htemplate Hxml.
    simpl. destruct (Nat.eqb ref target) eqn:Href.
    + apply Nat.eqb_eq in Href. subst target. simpl.
      repeat split; [exact Hmethod | exact Hweights |].
      intros Hnot. exfalso.
      rewrite (Hplain Hnot) in Htemplate.
      rewrite (Hnot file Htemplate) in Hxml. discriminate.
    + repeat split; assumption.
  - repeat split.
Qed.

Lemma runMOAChain_strategies_witness :
  strategies (snd (runMOAChain Examples.exampleEnv 0 Examples.stoppingConfig "hello"
                     Examples.exampleWorld)) 0
  = strategies Examples.exampleWorld 0.
Proof.
  apply (runMOAChain_strategies Examples.exampleEnv 0 Examples.stoppingConfig "hello"
           Examples.exampleWorld 0).
  intros file H. discriminate H.
Defined.

(** ** One response per agent *)

Section LayerShape.

Variable env : Env.

Lemma mapWorld_length {A B} (f : A -> World -> B * World) (xs : list A) :
  forall w, List.length (fst (mapWorld f xs w)) = List.length xs.
Proof.
  induction xs as [|x xs IH]; intros w; [reflexivity|].
  simpl. destruct (f x w) as [y w1]. specialize (IH w1).
  destruct (mapWorld f xs w1) as [ys w2]. simpl in *. now rewrite IH.
Qed.

Lemma fulfilled_length {A} (outcomes : list (Result A)) :
  rejections outcomes = [] ->
  List.length (fulfilled outcomes) = List.length outcomes.
Proof.
  induction outcomes as [|[a|e] outcomes IH]; simpl; intros H;
    [reflexivity | now rewrite IH | discriminate].
Qed.

Lemma processLayer_shape (layer : Layer.t) (input : string)
  (previousResponses : list ModelResponse) (w w' : World)
  (layerResponses : list ModelResponse) :
  processLayer env layer input previousResponses w = (Ok layerResponses, w') ->
  List.length layerResponses = List.length (Layer.agents layer) /\
  strategies w' = strategies w.
Proof.
  intros H. split.
  - revert H. unfold processLayer.
    pose proof (mapWorld_length (startAgent env input previousResponses)
                  (Layer.agents layer) w) as Htasks.
    destruct (mapWorld (startAgent env input previousResponses) (Layer.agents layer) w)
      as [tasks w1]. simpl in Htasks.
    pose proof (mapWorld_length (resumeAgent env input previousResponses) tasks w1)
      as Houtcomes.
    destruct (mapWorld (resumeAgent env input previousResponses) tasks w1)
      as [outcomes w2]. simpl in Houtcomes.
    unfold promiseAll. destruct (rejections outcomes) eqn:Hrej; [|discriminate].
    intros H. injection H as <- _.
    rewrite (fulfilled_length outcomes Hrej). congruence.
  - replace w' with (snd (processLayer env layer input previousResponses w))
      by now rewrite H.
    apply (processLayer_preserves env (fun w0 => strategies w0 = strategies w)).
    + intros w0 H0 _. exact H0.
    + intros w0 ev H0. exact H0.
    + reflexivity.
Qed.

(** X4: When a layer is processed without a failure, it returns exactly one
    response per agent, and the strategy objects are as they were. *)
Theorem processLayer_one_response_per_agent (layer : Layer.t) (input : string)
  (previousResponses : list ModelResponse) (w w' : World)
  (layerResponses : list ModelResponse) :
  processLayer env layer input previousResponses w = (Ok layerResponses, w') ->
  List.length layerResponses = List.length (Layer.agents layer) /\
  strategies w' = strategies w.
Proof.
  exact (processLayer_shape layer input previousResponses w w' layerResponses).
Qed.

End LayerShape.

Lemma processLayer_one_response_per_agent_witness :
  List.length [plainResponse "7"] = 1 /\
  strategies (snd (processLayer Examples.exampleEnv
                     (Examples.exampleLayer "draft" "{input}" 2) "hello" []
                     Examples.exampleWorld))
  = strategies Examples.exampleWorld.
Proof.
  apply (processLayer_one_response_per_agent Examples.exampleEnv
           (Examples.exampleLayer "draft" "{input}" 2) "hello" []
           Examples.exampleWorld).
  reflexivity.
Defined.

(** ** The shape of aggregates and of the final response *)

Section ResponseShape.

Variable env : Env.

Lemma aggregateResponses_shape_cases (responses : list ModelResponse)
  (strategy : StrategyRef) (w w' : World) (r : ModelResponse) :
  aggregateResponses env responses strategy w = (Ok r, w') ->
  metadata r = None /\
  (responses <> [] -> error r = None) /\
  (responses = [] -> r = noResponses).
Proof.
  unfold aggregateResponses.
  destruct responses as [|first rest].
  - unfold ret. intros H. injection H as <- _.
    repeat split; [intros Hne; contradiction].
  - intros H.
    assert (Hshape : metadata r = None /\ error r = None).
    { revert H. unfold bind at 1. unfold getStrategy at 1.
      assert (Hby : forall current w0,
                 aggregateBy env current first rest w0 = (Ok r, w') ->
                 metadata r = None /\ error r = None).
      { intros current w0. unfold aggregateBy.
        destruct (AggregationStrategy.method current); unfold ret;
          try (intros H; injection H as <- _; split; reflexivity).
        intros H. apply runModel_fulfilled in H.
        destruct H as [output [-> _]]. split; reflexivity. }
      destruct (AggregationStrategy.promptTemplate (strategies w strategy)) as [file|].
      - destruct (JsString.endsWith file ".xml").
        + unfold bind at 1. unfold bind at 1.
          destruct (readXMLPrompt env file w) as [[xmlPrompt|e] w1];
            [|discriminate].
          unfold bind, getStrategy. apply Hby.
        + unfold bind, ret, getStrategy. apply Hby.
      - unfold bind, ret, getStrategy. apply Hby. }
    destruct Hshape as [Hmeta Herror].
    repeat split; [exact Hmeta | intros _; exact Herror | discriminate].
Qed.

(** X5: An aggregate has no metadata, and it carries an error only when it is
    the response for an empty response set: every other failure of the
    aggregator is a throw. *)
Theorem aggregateResponses_shape (responses : list ModelResponse)
  (strategy : StrategyRef) (w w' : World) (r : ModelResponse) :
  aggregateResponses env responses strategy w = (Ok r, w') ->
  metadata r = None /\
  (responses <> [] -> error r = None) /\
  (responses = [] -> r = noResponses).
Proof.
  exact (aggregateResponses_shape_cases responses strategy w w' r).
Qed.

Lemma aggregateResponses_aggregateShape responses strategy w w' r :
  aggregateResponses env responses strategy w = (Ok r, w') -> aggregateShape r.
Proof.
  intros H. destruct (aggregateResponses_shape_cases _ _ _ _ _ H) as [Hmeta [Hne Hnil]].
  split; [exact Hmeta|].
  destruct responses; [right; now apply Hnil | left; apply Hne; discriminate].
Qed.

(** One pass through the loop body adds one aggregate to the history. *)
Lemma runLayer_history config layer st w step w' :
  runLayer env config layer st w = (Ok step, w') ->
  exists aggregated,
    aggregateShape aggregated /\
    match step with
    | Continue st' =>
        allResponses st' = (allResponses st ++ [aggregated])%list /\
        currentInput st' = content aggregated
    | Return r st' =>
        r = aggregated /\
        allResponses st' = (allResponses st ++ [aggregated])%list
    end.
Proof.
  unfold runLayer. unfold bind at 1.
  destruct (processLayer env layer (currentInput st) (allResponses st) w)
    as [[layerResponses|e] w1]; [|discriminate].
  destruct (filter hasError layerResponses); [|discriminate].
  unfold bind at 1.
  destruct (aggregateResponses env layerResponses (Layer.aggregationStrategy layer) w1)
    as [[aggregated|e] w2] eqn:Haggregate; [|discriminate].
  apply aggregateResponses_aggregateShape in Haggregate.
  unfold bind, stopRequested, liftResult, ret.
  destruct (MOAConfig.stopCriteria config) as [criteria|].
  - destruct (criteria _) as [[|]|e]; [| |discriminate];
      intros H; injection H as <- _; exists aggregated; simpl; auto.
  - intros H; injection H as <- _; exists aggregated; simpl; auto.
Qed.

Lemma forLayers_history config layers :
  forall st w step w',
    forLayers env config layers st w = (Ok step, w') ->
    match step with
    | Continue st' =>
        List.length (allResponses st')
        = List.length (allResponses st) + List.length layers
    | Return r st' =>
        aggregateShape r /\
        List.length (allResponses st) < List.length (allResponses st')
    end.
Proof.
  induction layers as [|layer rest IH]; intros st w step w'; simpl.
  - unfold ret. intros H. injection H as <- _. simpl. lia.
  - unfold bind.
    destruct (runLayer env config layer st w) as [[step1|e] w1] eqn:Hrun;
      [|discriminate].
    apply runLayer_history in Hrun. destruct Hrun as [aggregated [Hshape Hstep]].
    destruct step1 as [st1 | r st1].
    + destruct Hstep as [Hhistory _]. intros H. apply IH in H.
      destruct step as [st' | r st']; rewrite Hhistory, length_app in H; simpl in H.
      * lia.
      * destruct H as [Hr Hlt]. split; [exact Hr | lia].
    + destruct Hstep as [-> Hhistory]. unfold ret. intros H. injection H as <- _.
      split; [exact Hshape|]. rewrite Hhistory, length_app. simpl. lia.
Qed.

Lemma forIterations_history config remaining :
  forall st w step w',
    forIterations env config remaining st w = (Ok step, w') ->
    match step with
    | Continue st' =>
        List.length (allResponses st')
        = List.length (allResponses st)
          + remaining * List.length (MOAConfig.layers config)
    | Return r st' => aggregateShape r
    end.
Proof.
  induction remaining as [|remaining IH]; intros st w step w'; simpl.
  - unfold ret. intros H. injection H as <- _. simpl. lia.
  - unfold bind.
    destruct (forLayers env config (MOAConfig.layers config) st w)
      as [[step1|e] w1] eqn:Hlayers; [|discriminate].
    apply forLayers_history in Hlayers.
    destruct step1 as [st1 | r st1].
    + intros H. apply IH in H.
      destruct step as [st' | r st']; [lia | exact H].
    + unfold ret. intros H. injection H as <- _. apply Hlayers.
Qed.

(** A loop without an end is left only through [return aggregated]. *)
Lemma forIterationsUnbounded_history config fuel :
  forall st w step w',
    forIterationsUnbounded env config fuel st w = (Ok (Some step), w') ->
    match step with
    | Continue _ => False
    | Return r _ => aggregateShape r
    end.
Proof.
  induction fuel as [|fuel IH]; intros st w step w'; simpl.
  - unfold ret. discriminate.
  - unfold bind.
    destruct (forLayers env config (MOAConfig.layers config) st w)
      as [[step1|e] w1] eqn:Hlayers; [|discriminate].
    apply forLayers_history in Hlayers.
    destruct step1 as [st1 | r st1].
    + apply IH.
    + unfold ret. intros H. injection H as <- _. apply Hlayers.
Qed.

(** X6: What a run returns.  A response with an error has empty content and
    no metadata, and it is either the catch-all response (the error is
    "Error in MOA chain: " and the text of what was thrown) or, returned
    on the stop predicate, the aggregate of an empty response set.  A
    response with metadata has no error, and its metadata reports the
    configured iteration count, one aggregate per layer and pass (of a
    loop that has come to its end), and the length of the content. *)
Theorem runMOAChain_response_shape (fuel : nat) (config : MOAConfig.t)
  (initialInput : string) (w w' : World) (r : ModelResponse) :
  runMOAChain env fuel config initialInput w = (Ok (Some r), w') ->
  (error r <> None ->
   content r = EmptyString /\ metadata r = None /\
   (r = noResponses \/ exists e, r = failureResponse e)) /\
  (forall m, metadata r = Some m ->
     error r = None /\
     iterations m = MOAConfig.maxIterations config /\
     (exists passes,
         iterationCount config = Some passes /\
         totalResponses m = passes * List.length (MOAConfig.layers config)) /\
     finalResponseLength m = String.length (content r)).
Proof.
  rewrite runMOAChain_outcome. unfold chainBody, bind.
  assert (Hreturn : forall aggregated : ModelResponse,
             aggregateShape aggregated ->
             (error aggregated <> None ->
              content aggregated = EmptyString /\ metadata aggregated = None /\
              (aggregated = noResponses \/ exists e, aggregated = failureResponse e)) /\
             (forall m, metadata aggregated = Some m ->
                error aggregated = None /\
                iterations m = MOAConfig.maxIterations config /\
                (exists passes,
                    iterationCount config = Some passes /\
                    totalResponses m = passes * List.length (MOAConfig.layers config)) /\
                finalResponseLength m = String.length (content aggregated))).
  { intros aggregated [Hmeta [Herror | ->]].
    - split; [intros Herr; contradiction|].
      intros m Hm. rewrite Hmeta in Hm. discriminate.
    - split; [intros _; repeat split; now left|].
      intros m Hm. discriminate. }
  destruct (iterationCount config) as [passes|] eqn:Hcount.
  - rewrite (chainLoop_bounded env fuel config initialInput w _ Hcount).
    destruct (forIterations env config passes
                {| currentInput := initialInput; allResponses := [] |} w)
      as [[step|e] w1] eqn:Hloop.
    + apply forIterations_history in Hloop.
      destruct step as [st' | aggregated st']; unfold ret;
        intros H; injection H as <- _.
      * simpl in *. split; [intros Herr; now contradiction Herr|].
        intros m Hm. injection Hm as <-. simpl. repeat split.
        exists passes. split; [reflexivity | exact Hloop].
      * apply Hreturn. exact Hloop.
    + destruct (errorText e) as [text|e']; [|discriminate].
      intros H. injection H as <- _. simpl.
      split; [intros _; repeat split; right; now exists text|].
      intros m Hm. discriminate.
  - rewrite (chainLoop_unbounded env fuel config initialInput w Hcount).
    destruct (forIterationsUnbounded env config fuel
                {| currentInput := initialInput; allResponses := [] |} w)
      as [[[step|]|e] w1] eqn:Hloop.
    + apply forIterationsUnbounded_history in Hloop.
      destruct step as [st' | aggregated st']; [contradiction|].
      unfold ret. intros H. injection H as <- _. apply Hreturn. exact Hloop.
    + unfold ret. discriminate.
    + destruct (errorText e) as [text|e']; [|discriminate].
      intros H. injection H as <- _. simpl.
      split; [intros _; repeat split; right; now exists text|].
      intros m Hm. discriminate.
Qed.

End ResponseShape.

Lemma aggregateResponses_shape_witness :
  metadata (plainResponse "4") = None /\
  ([plainResponse "4"] <> [] -> error (plainResponse "4") = None) /\
  ([plainResponse "4"] = [] -> plainResponse "4" = noResponses).
Proof.
  apply (aggregateResponses_shape Examples.exampleEnv [plainResponse "4"] 0
           Examples.exampleWorld Examples.exampleWorld).
  vm_compute. reflexivity.
Defined.

Lemma runMOAChain_response_shape_witness :
  error (completedResponse
           (Examples.singleLayerConfig (Examples.exampleLayer "draft" "{input}" 2) None)
           "7" 1) = None /\
  JsNumber.ofNat 1 = JsNumber.ofNat 1 /\
  (exists passes,
      iterationCount
        (Examples.singleLayerConfig (Examples.exampleLayer "draft" "{input}" 2) None)
      = Some passes /\
      1 = passes * 1) /\
  1 = String.length "7".
Proof.
  assert (Hrun :
    runMOAChain Examples.exampleEnv 0
      (Examples.singleLayerConfig (Examples.exampleLayer "draft" "{input}" 2) None)
      "hello" Examples.exampleWorld
    = (Ok (Some (completedResponse
                   (Examples.singleLayerConfig
                      (Examples.exampleLayer "draft" "{input}" 2) None)
                   "7" 1)),
       snd (runMOAChain Examples.exampleEnv 0
              (Examples.singleLayerConfig (Examples.exampleLayer "draft" "{input}" 2) None)
              "hello" Examples.exampleWorld)))
    by (vm_compute; reflexivity).
  exact (proj2 (runMOAChain_response_shape Examples.exampleEnv _ _ _ _ _ _ Hrun)
           {| iterations := JsNumber.ofNat 1; totalResponses := 1;
              finalResponseLength := 1 |}
           eq_refl).
Defined.

(** ** The counter of the outer loop *)

(** The count of passes on some bounds: a fraction is rounded up, zero
    and NaN give way to 1, a negative bound asks for no pass, and a bound
    above 2^53 for passes without end.  On the small bounds the counter
    itself, followed pass by pass, stops after as many passes. *)
Example loopPasses_examples :
  map (fun bound => loopPasses (orOne bound))
      [ JsNumber.ofNat 3; JsNumber.ofDecimal false 25 (-1); JsNumber.ofNat 0;
        JsNumber.NaN; JsNumber.ofZ (-1); JsNumber.ofDecimal true 5 (-1);
        JsNumber.ofZ (2 ^ 53); JsNumber.ofZ (2 ^ 53 + 2); JsNumber.ofZ (2 ^ 60);
        S754_infinity false; S754_infinity true ]
  = [ Some 3; Some 3; Some 1; Some 1; Some 0; Some 0;
      Some (2 ^ 53); None; None; None; Some 0 ]%Z /\
  map (fun bound => countPasses 10 (JsNumber.ofNat 0) (orOne bound))
      [ JsNumber.ofNat 3; JsNumber.ofDecimal false 25 (-1); JsNumber.ofNat 0;
        JsNumber.NaN; JsNumber.ofZ (-1); JsNumber.ofDecimal true 5 (-1);
        S754_infinity true ]
  = [ Some 3; Some 3; Some 1; Some 1; Some 0; Some 0; Some 0 ].
Proof.
  split; vm_compute; reflexivity.
Qed.

(** At 2^53 the increment leaves the counter where it is, so with a
    larger bound the condition of the loop holds for ever. *)
Lemma countPasses_stuck (maxIterations : JsNumber.Number) :
  JsNumber.lt (JsNumber.ofZ COUNTER_LIMIT) maxIterations = true ->
  forall fuel, countPasses fuel (JsNumber.ofZ COUNTER_LIMIT) maxIterations = None.
Proof.
  intros Hbelow. induction fuel as [|fuel IH]; [reflexivity|].
  cbn [countPasses]. rewrite Hbelow.
  replace (JsNumber.add (JsNumber.ofZ COUNTER_LIMIT) (JsNumber.ofNat 1))
    with (JsNumber.ofZ COUNTER_LIMIT) by (vm_compute; reflexivity).
  now rewrite IH.
Qed.

(** A positive bound asks for at least one pass, and only a negative one
    (or negative infinity) for none. *)
Lemma ceiling_positive (m : positive) (e : Z) : (1 <= JsNumber.ceiling m e)%Z.
Proof.
  unfold JsNumber.ceiling. destruct (0 <=? e)%Z eqn:He.
  - apply Z.leb_le in He.
    assert (0 < 2 ^ e)%Z by (apply Z.pow_pos_nonneg; lia). nia.
  - apply Z.leb_gt in He.
    assert (Hpow : (0 < 2 ^ (- e))%Z) by (apply Z.pow_pos_nonneg; lia).
    apply Z.div_le_lower_bound; lia.
Qed.

Lemma iterationCount_zero (config : MOAConfig.t) :
  iterationCount config = Some 0 <->
  JsNumber.lt (MOAConfig.maxIterations config) (JsNumber.ofNat 0) = true.
Proof.
  unfold iterationCount.
  destruct (MOAConfig.maxIterations config) as [[|]|[|]| |[|] m e];
    try (split; [discriminate | discriminate]);
    try (split; reflexivity).
  cbn [orOne loopPasses].
  pose proof (ceiling_positive m e) as Hceil.
  destruct (JsNumber.ceiling m e <=? COUNTER_LIMIT)%Z; simpl;
    split; try discriminate.
  intros H. injection H as H. lia.
Qed.

(** The loop has no end of its own exactly for the bound Infinity and
    for the finite bounds above 2^53. *)
Lemma iterationCount_unbounded (config : MOAConfig.t) :
  iterationCount config = None <->
  MOAConfig.maxIterations config = S754_infinity false \/
  exists m e,
    MOAConfig.maxIterations config = S754_finite false m e /\
    (COUNTER_LIMIT < JsNumber.ceiling m e)%Z.
Proof.
  unfold iterationCount.
  destruct (MOAConfig.maxIterations config) as [[|]|[|]| |[|] m e]; cbn [orOne loopPasses];
    try (split; [discriminate | intros [H | [m0 [e0 [H _]]]]; discriminate H]).
  - split; [now left | reflexivity].
  - destruct (JsNumber.ceiling m e <=? COUNTER_LIMIT)%Z eqn:Hle; simpl.
    + apply Z.leb_le in Hle. split; [discriminate|].
      intros [H | [m0 [e0 [H Hlt]]]]; [discriminate H|].
      injection H as <- <-. lia.
    + apply Z.leb_gt in Hle. split; [|reflexivity].
      intros _. right. exists m, e. split; [reflexivity | exact Hle].
Qed.

(** ** Runs that invoke no agent *)

Section IdleRuns.

Variable env : Env.

Lemma forIterations_no_layers config remaining st w :
  MOAConfig.layers config = [] ->
  forIterations env config remaining st w = (Ok (Continue st), w).
Proof.
  intros Hlayers. induction remaining as [|remaining IH]; [reflexivity|].
  simpl. unfold bind. rewrite Hlayers. simpl. exact IH.
Qed.

(** X7: A configuration without layers whose loop has an end (a count up to
    2^53), or with a negative iteration count, returns the initial input
    as the final content, reports no response, and does nothing to the
    world. *)
Theorem runMOAChain_without_passes (fuel : nat) (config : MOAConfig.t)
  (initialInput : string) (w : World) :
  (MOAConfig.layers config = [] /\ iterationCount config <> None) \/
  JsNumber.lt (MOAConfig.maxIterations config) (JsNumber.ofNat 0) = true ->
  runMOAChain env fuel config initialInput w
  = (Ok (Some (completedResponse config initialInput 0)), w).
Proof.
  intros [[Hlayers Hcount] | Hnegative];
    rewrite runMOAChain_outcome; unfold chainBody, bind.
  - destruct (iterationCount config) as [passes|] eqn:Hpasses;
      [|now contradiction Hcount].
    rewrite (chainLoop_bounded env fuel config initialInput w _ Hpasses).
    now rewrite (forIterations_no_layers config _ _ w Hlayers).
  - now rewrite (chainLoop_bounded env fuel config initialInput w _
                   (proj2 (iterationCount_zero config) Hnegative)).
Qed.

(** A layer without agents does not fail: its aggregate is the response
    for an empty response set, which becomes part of the history, and the
    next input is the empty string. *)
Lemma runLayer_no_agents config layer st w :
  Layer.agents layer = [] ->
  MOAConfig.stopCriteria config = None ->
  runLayer env config layer st w
  = (Ok (Continue {| currentInput := EmptyString;
                     allResponses := (allResponses st ++ [noResponses])%list |}), w).
Proof.
  intros Hagents Hstop.
  unfold runLayer, bind, processLayer. rewrite Hagents. simpl.
  unfold stopRequested. now rewrite Hstop.
Qed.

Lemma forLayers_no_agents config layers :
  Forall (fun layer => Layer.agents layer = []) layers ->
  MOAConfig.stopCriteria config = None ->
  forall st w,
    forLayers env config layers st w
    = (Ok (Continue
             {| currentInput :=
                  match layers with [] => currentInput st | _ => EmptyString end;
                allResponses :=
                  (allResponses st ++ repeat noResponses (List.length layers))%list |}),
       w).
Proof.
  intros Hall Hstop. induction Hall as [|layer rest Hlayer Hrest IH]; intros st w.
  - simpl. unfold ret. rewrite app_nil_r. now destruct st.
  - simpl. unfold bind. rewrite (runLayer_no_agents config layer st w Hlayer Hstop).
    rewrite IH. simpl. rewrite <- app_assoc. simpl.
    now destruct rest.
Qed.


Lemma forIterationsUnbounded_no_agents config :
  Forall (fun layer => Layer.agents layer = []) (MOAConfig.layers config) ->
  MOAConfig.stopCriteria config = None ->
  forall fuel st w,
    forIterationsUnbounded env config fuel st w = (Ok None, w).
Proof.
  intros Hall Hstop. induction fuel as [|fuel IH]; intros st w; [reflexivity|].
  simpl. unfold bind. rewrite (forLayers_no_agents config _ Hall Hstop).
  apply IH.
Qed.


(** X28: When the loop has no end of its own (a count above 2^53, Infinity
    included), no layer has an agent (or there is no layer) and there is
    no stop predicate, the run never returns: after any number of passes
    control is still in the loop, and nothing has happened to the
    world. *)
Theorem runMOAChain_without_end (config : MOAConfig.t) (initialInput : string)
  (w : World) :
  iterationCount config = None ->
  Forall (fun layer => Layer.agents layer = []) (MOAConfig.layers config) ->
  MOAConfig.stopCriteria config = None ->
  forall fuel, runMOAChain env fuel config initialInput w = (Ok None, w).
Proof.
  intros Hcount Hall Hstop fuel.
  rewrite runMOAChain_outcome. unfold chainBody, bind.
  rewrite (chainLoop_unbounded env fuel config initialInput w Hcount).
  now rewrite (forIterationsUnbounded_no_agents config Hall Hstop).
Qed.

End IdleRuns.

(** C3 at two inputs.  A stop predicate that throws a value without a
    conversion to a string ([Object.create(null)]), on one layer with one
    agent and one iteration: the [catch] clause throws while it builds
    the error text, so the call is rejected with that [TypeError] and no
    response is returned.  And the count [Infinity] with no layers: the
    loop never ends, so the call returns nothing at all. *)
Theorem runMOAChain_not_total :
  (forall fuel,
      exists message,
        fst (runMOAChain Examples.exampleEnv fuel throwingConfig "hello"
               Examples.exampleWorld)
        = Throw (ErrorObject message)) /\
  (forall fuel,
      runMOAChain Examples.exampleEnv fuel endlessConfig "hello" Examples.exampleWorld
      = (Ok None, Examples.exampleWorld)).
Proof.
  split; intros fuel.
  - eexists. vm_compute. reflexivity.
  - rewrite runMOAChain_outcome. unfold chainBody, bind.
    rewrite (chainLoop_unbounded Examples.exampleEnv fuel endlessConfig "hello"
               Examples.exampleWorld eq_refl).
    now rewrite (forIterationsUnbounded_no_agents Examples.exampleEnv endlessConfig
                   (Forall_nil _) eq_refl).
Qed.

Lemma runMOAChain_without_passes_witness :
  runMOAChain Examples.exampleEnv 0 negativeConfig "hello" Examples.exampleWorld
  = (Ok (Some (completedResponse negativeConfig "hello" 0)), Examples.exampleWorld).
Proof.
  apply (runMOAChain_without_passes Examples.exampleEnv 0 negativeConfig "hello"
           Examples.exampleWorld).
  right. reflexivity.
Defined.


Lemma runMOAChain_without_end_witness :
  runMOAChain Examples.exampleEnv 1000 endlessConfig "hello" Examples.exampleWorld
  = (Ok None, Examples.exampleWorld).
Proof.
  apply (runMOAChain_without_end Examples.exampleEnv endlessConfig "hello"
           Examples.exampleWorld).
  - reflexivity.
  - repeat constructor.
  - reflexivity.
Defined.

(** ** Agent invoker: the three dispatch paths *)

Section InvokerPaths.

Variable env : Env.

Lemma drop_append (p m : string) : JsString.drop (String.length p) (p ++ m) = m.
Proof.
  induction p as [|c p IH]; simpl; [now destruct m | exact IH].
Qed.

Lemma splitFirst_prefix (pat s : string) :
  String.prefix pat s = true ->
  JsString.splitFirst pat s = Some (EmptyString, JsString.drop (String.length pat) s).
Proof.
  intros H. destruct s; cbn [JsString.splitFirst]; now rewrite H.
Qed.

(** Removing a prefix with [replace]. *)
Lemma replace_prefix (p m : string) :
  JsString.replace (p ++ m) p EmptyString = m.
Proof.
  unfold JsString.replace.
  rewrite (splitFirst_prefix p (p ++ m) (prefix_append p m)).
  rewrite drop_append. reflexivity.
Qed.

Lemma blank_condition (output : string) :
  String.eqb output EmptyString || (String.length (JsString.trim output) =? 0)%nat
  = isBlank output.
Proof.
  unfold isBlank. destruct output as [|c output]; [reflexivity|].
  cbn [String.eqb orb].
  destruct (JsString.trim (String c output)); reflexivity.
Qed.

(** With an endpoint override the selector is not asked; without one the
    next endpoint is taken. *)
Lemma chooseInstanceUri_override (agent : Agent.t) (w : World) (u : string) :
  Agent.instanceUri agent = Some u -> u <> EmptyString ->
  chooseInstanceUri env agent w = (Ok u, w).
Proof.
  intros Hu Hne. unfold chooseInstanceUri. rewrite Hu.
  destruct u; [contradiction | reflexivity].
Qed.

Lemma chooseInstanceUri_next (agent : Agent.t) (w : World) :
  truthy (Agent.instanceUri agent) = false ->
  currentInstanceIndex w < List.length (ollamaInstances env) ->
  chooseInstanceUri env agent w
  = (Ok (endpointUri env (currentInstanceIndex w)),
     setInstanceIndex
       ((currentInstanceIndex w + 1) mod List.length (ollamaInstances env)) w).
Proof.
  intros Hfalsy Hlt. unfold chooseInstanceUri. rewrite Hfalsy.
  assert (Hne : ollamaInstances env <> []).
  { intros Hnil. rewrite Hnil in Hlt. simpl in Hlt. lia. }
  rewrite (getNextInstance_some env w Hne).
  unfold endpointUri.
  destruct (nth_error (ollamaInstances env) (currentInstanceIndex w)) as [i|] eqn:Hnth.
  - now rewrite (nth_error_nth _ _ _ Hnth).
  - apply nth_error_None in Hnth. lia.
Qed.

(** The only failure of the choice is an index outside the array. *)
Lemma chooseInstanceUri_throws (agent : Agent.t) (w : World) (e : Thrown) (w1 : World) :
  chooseInstanceUri env agent w = (Throw e, w1) -> e = undefinedNextInstance.
Proof.
  unfold chooseInstanceUri, ret.
  destruct (truthy (Agent.instanceUri agent)); [discriminate|].
  destruct (getNextInstance env w) as [[instance|] w0]; [discriminate|].
  intros H. now injection H as <- _.
Qed.

Lemma runModel_ollama_path (agent : Agent.t) (m prompt uri : string) (w w1 : World) :
  Agent.model agent = "ollama:" ++ m ->
  chooseInstanceUri env agent w = (Ok uri, w1) ->
  runModel env agent prompt w
  = (invocationOutcome (Agent.model agent)
       (shell env (trace w1) (OllamaRun uri m prompt)),
     logEvent (EvShell (OllamaRun uri m prompt)) w1).
Proof.
  intros Hmodel Hchoose.
  unfold runModel, tryCatch, bind. rewrite Hchoose.
  replace (JsString.startsWith (Agent.model agent) "ollama:") with true
    by (rewrite Hmodel; symmetry; apply (prefix_append "ollama:" m)).
  replace (JsString.replace (Agent.model agent) "ollama:" EmptyString) with m
    by (rewrite Hmodel; symmetry; apply (replace_prefix "ollama:" m)).
  unfold run, awaited, invocationOutcome.
  destruct (shell env (trace w1) (OllamaRun uri m prompt)) as [output|message];
    [|reflexivity].
  cbv beta iota. rewrite blank_condition. destruct (isBlank output); reflexivity.
Qed.

(** X9: An identifier "ollama:" followed by [m]: one command
    [OLLAMA_HOST=uri ollama run m prompt] is issued, with the prefix
    removed from the model name, and its outcome decides the result: a
    response with the trimmed output, or a throw when the output is blank
    or the command fails. *)
Theorem runModel_ollama (agent : Agent.t) (m prompt uri : string) (w w1 : World) :
  Agent.model agent = "ollama:" ++ m ->
  chooseInstanceUri env agent w = (Ok uri, w1) ->
  runModel env agent prompt w
  = (invocationOutcome (Agent.model agent)
       (shell env (trace w1) (OllamaRun uri m prompt)),
     logEvent (EvShell (OllamaRun uri m prompt)) w1).
Proof.
  exact (runModel_ollama_path agent m prompt uri w w1).
Qed.

(** X10: An identifier "llm:" followed by [m]: one command [llm -m m prompt]
    is issued.  The endpoint that was chosen (and, without an override,
    taken from the selector) is not part of the command. *)
Theorem runModel_llm (agent : Agent.t) (m prompt uri : string) (w w1 : World) :
  Agent.model agent = "llm:" ++ m ->
  chooseInstanceUri env agent w = (Ok uri, w1) ->
  runModel env agent prompt w
  = (invocationOutcome (Agent.model agent)
       (shell env (trace w1) (LlmRun m prompt)),
     logEvent (EvShell (LlmRun m prompt)) w1).
Proof.
  intros Hmodel Hchoose.
  unfold runModel, tryCatch, bind. rewrite Hchoose.
  replace (JsString.startsWith (Agent.model agent) "ollama:") with false
    by (rewrite Hmodel; reflexivity).
  replace (JsString.startsWith (Agent.model agent) "llm:") with true
    by (rewrite Hmodel; symmetry; apply (prefix_append "llm:" m)).
  replace (JsString.replace (Agent.model agent) "llm:" EmptyString) with m
    by (rewrite Hmodel; symmetry; apply (replace_prefix "llm:" m)).
  unfold run, awaited, invocationOutcome.
  destruct (shell env (trace w1) (LlmRun m prompt)) as [output|message];
    [|reflexivity].
  cbv beta iota. rewrite blank_condition. destruct (isBlank output); reflexivity.
Qed.

(** X11: An identifier with neither prefix: no command is issued and the call
    throws, after the endpoint has been chosen all the same. *)
Theorem runModel_unsupported (agent : Agent.t) (prompt uri : string) (w w1 : World) :
  JsString.startsWith (Agent.model agent) "ollama:" = false ->
  JsString.startsWith (Agent.model agent) "llm:" = false ->
  chooseInstanceUri env agent w = (Ok uri, w1) ->
  runModel env agent prompt w
  = (Throw (ErrorObject ("Error running model " ++ Agent.model agent
                         ++ ": Unsupported model prefix in: " ++ Agent.model agent)),
     w1).
Proof.
  intros Hollama Hllm Hchoose.
  unfold runModel, tryCatch, bind. rewrite Hchoose, Hollama, Hllm. reflexivity.
Qed.

(** X12: Every failure of [runModel] is an [Error] whose message starts with
    "Error running model " and the model identifier; and a call records
    at most one event. *)
Theorem runModel_failure_message (agent : Agent.t) (prompt : string) (w w' : World)
  (e : Thrown) :
  runModel env agent prompt w = (Throw e, w') ->
  (exists detail,
      e = ErrorObject ("Error running model " ++ Agent.model agent ++ ": " ++ detail)) /\
  (trace w' = trace w \/ exists command, trace w' = (trace w ++ [EvShell command])%list).
Proof.
  unfold runModel, tryCatch, bind.
  assert (Hchoose : trace (snd (chooseInstanceUri env agent w)) = trace w).
  { apply (chooseInstanceUri_preserves env (fun w0 => trace w0 = trace w));
      [intros w0 H0 _; exact H0 | reflexivity]. }
  pose proof (chooseInstanceUri_throws agent w) as Hundefined.
  destruct (chooseInstanceUri env agent w) as [[uri|e0] w1]; simpl in Hchoose.
  - clear Hundefined.
    destruct (JsString.startsWith (Agent.model agent) "ollama:").
    + unfold run, awaited.
      destruct (shell env (trace w1) _) as [output|message]; cbv beta iota.
      * destruct (String.eqb output EmptyString
                  || (String.length (JsString.trim output) =? 0)%nat);
          unfold throw, ret; [|discriminate].
        intros H. injection H as <- <-. split; [eexists; reflexivity|].
        right. simpl. rewrite Hchoose. eauto.
      * intros H. injection H as <- <-. split; [eexists; reflexivity|].
        right. simpl. rewrite Hchoose. eauto.
    + destruct (JsString.startsWith (Agent.model agent) "llm:").
      * unfold run, awaited.
        destruct (shell env (trace w1) _) as [output|message]; cbv beta iota.
        -- destruct (String.eqb output EmptyString
                     || (String.length (JsString.trim output) =? 0)%nat);
             unfold throw, ret; [|discriminate].
           intros H. injection H as <- <-. split; [eexists; reflexivity|].
           right. simpl. rewrite Hchoose. eauto.
        -- intros H. injection H as <- <-. split; [eexists; reflexivity|].
           right. simpl. rewrite Hchoose. eauto.
      * intros H. injection H as <- <-. split; [eexists; reflexivity|].
        left. exact Hchoose.
  - rewrite (Hundefined e0 w1 eq_refl).
    intros H. injection H as <- <-. split; [eexists; reflexivity|].
    left. exact Hchoose.
Qed.

End InvokerPaths.

Lemma runModel_ollama_witness :
  runModel Examples.exampleEnv (Examples.inlineAgent "{input}") "hello"
    Examples.exampleWorld
  = (invocationOutcome "ollama:llama2"
       (shell Examples.exampleEnv (trace afterOneCall)
          (OllamaRun "http://10.0.0.1:11434" "llama2" "hello")),
     logEvent (EvShell (OllamaRun "http://10.0.0.1:11434" "llama2" "hello"))
       afterOneCall).
Proof.
  apply (runModel_ollama Examples.exampleEnv (Examples.inlineAgent "{input}")
           "llama2" "hello" "http://10.0.0.1:11434" Examples.exampleWorld afterOneCall).
  - reflexivity.
  - reflexivity.
Defined.

Lemma runModel_llm_witness :
  runModel Examples.exampleEnv llmAgent "hello" Examples.exampleWorld
  = (invocationOutcome "llm:gpt-4o"
       (shell Examples.exampleEnv (trace afterOneCall) (LlmRun "gpt-4o" "hello")),
     logEvent (EvShell (LlmRun "gpt-4o" "hello")) afterOneCall).
Proof.
  apply (runModel_llm Examples.exampleEnv llmAgent "gpt-4o" "hello"
           "http://10.0.0.1:11434" Examples.exampleWorld afterOneCall).
  - reflexivity.
  - reflexivity.
Defined.

Lemma runModel_unsupported_witness :
  runModel Examples.exampleEnv unsupportedAgent "hello" Examples.exampleWorld
  = (Throw (ErrorObject
              "Error running model gpt-4: Unsupported model prefix in: gpt-4"),
     afterOneCall).
Proof.
  apply (runModel_unsupported Examples.exampleEnv unsupportedAgent "hello"
           "http://10.0.0.1:11434" Examples.exampleWorld afterOneCall).
  - reflexivity.
  - reflexivity.
  - reflexivity.
Defined.

Lemma runModel_failure_message_witness :
  (exists detail,
      ErrorObject "Error running model gpt-4: Unsupported model prefix in: gpt-4"
      = ErrorObject ("Error running model " ++ "gpt-4" ++ ": " ++ detail)) /\
  (trace afterOneCall = trace Examples.exampleWorld \/
   exists command,
     trace afterOneCall = (trace Examples.exampleWorld ++ [EvShell command])%list).
Proof.
  apply (runModel_failure_message Examples.exampleEnv unsupportedAgent "hello"
           Examples.exampleWorld afterOneCall).
  reflexivity.
Defined.

(** ** Which endpoint the agents of a layer are sent to *)

Section LayerEndpoints.

Variable env : Env.


Lemma startsWith_split (p s : string) :
  JsString.startsWith s p = true -> s = p ++ JsString.drop (String.length p) s.
Proof.
  unfold JsString.startsWith. revert s.
  induction p as [|c p IH]; intros s H; [now destruct s|].
  destruct s as [|d s]; simpl in H; [discriminate|].
  destruct (ascii_dec c d) as [<-|]; [|discriminate].
  simpl. f_equal. now apply IH.
Qed.

Lemma commandHosts_app (xs ys : list Event) :
  commandHosts (xs ++ ys) = (commandHosts xs ++ commandHosts ys)%list.
Proof.
  induction xs as [|[[host m p | m p] | path] xs IH]; simpl; congruence.
Qed.

(** One plain agent: the selector is asked twice, and the command goes
    to the endpoint of the second call. *)
Lemma startAgent_plain input previousResponses agent w :
  plainOllamaAgent agent ->
  currentInstanceIndex w < List.length (ollamaInstances env) ->
  exists outcome m prompt,
    let w' := snd (startAgent env input previousResponses agent w) in
    fst (startAgent env input previousResponses agent w) = Settled outcome /\
    trace w'
    = (trace w
       ++ [EvShell (OllamaRun (endpointUri env ((currentInstanceIndex w + 1) mod List.length (ollamaInstances env)))
                      m prompt)])%list /\
    currentInstanceIndex w' = (currentInstanceIndex w + 2) mod List.length (ollamaInstances env).
Proof.
  intros [Hmodel [Hinline Hfalsy]] Hlt.
  assert (Hne : ollamaInstances env <> []).
  { intros Hnil. rewrite Hnil in Hlt. simpl in Hlt. lia. }
  unfold startAgent. rewrite (getNextInstance_some env w Hne).
  destruct (nth_error (ollamaInstances env) (currentInstanceIndex w)) as [i|] eqn:Hnth;
    [|apply nth_error_None in Hnth; lia].
  rewrite Hinline.
  set (w1 := setInstanceIndex
               ((currentInstanceIndex w + 1) mod List.length (ollamaInstances env)) w).
  set (prompt := contextualPrompt (Agent.promptTemplate agent) input previousResponses).
  set (invoked := withPrompt agent prompt (Agent.systemPrompt agent)).
  assert (Hlt1 : currentInstanceIndex w1 < List.length (ollamaInstances env)).
  { simpl. apply Nat.mod_upper_bound. lia. }
  pose proof (chooseInstanceUri_next env invoked w1 Hfalsy Hlt1) as Hchoose.
  pose proof (startsWith_split "ollama:" (Agent.model agent) Hmodel) as Hsplit.
  rewrite (runModel_ollama_path env invoked _ prompt _ w1 _ Hsplit Hchoose).
  eexists. eexists. exists prompt. cbn [fst snd]. repeat split.
  cbn [currentInstanceIndex logEvent setInstanceIndex]. unfold w1.
  cbn [currentInstanceIndex setInstanceIndex].
  rewrite Nat.Div0.add_mod_idemp_l. f_equal. lia.
Qed.

Lemma mapWorld_startAgent_plain input previousResponses agents :
  Forall plainOllamaAgent agents ->
  forall w,
    currentInstanceIndex w < List.length (ollamaInstances env) ->
    let result := mapWorld (startAgent env input previousResponses) agents w in
    Forall isSettled (fst result) /\
    currentInstanceIndex (snd result)
    = (currentInstanceIndex w + 2 * List.length agents) mod List.length (ollamaInstances env) /\
    exists events,
      trace (snd result) = (trace w ++ events)%list /\
      commandHosts events
      = map (fun j => endpointUri env ((currentInstanceIndex w + 2 * j + 1) mod List.length (ollamaInstances env)))
            (seq 0 (List.length agents)).
Proof.
  induction 1 as [|agent agents Hagent Hagents IH]; intros w Hlt.
  - simpl. repeat split; [constructor | | exists []; split].
    + rewrite Nat.add_0_r. symmetry. now apply Nat.mod_small.
    + now rewrite app_nil_r.
    + reflexivity.
  - destruct (startAgent_plain input previousResponses agent w Hagent Hlt)
      as [outcome [m [prompt [Htask [Htrace Hcursor]]]]].
    cbn [mapWorld].
    destruct (startAgent env input previousResponses agent w) as [task w1].
    simpl in Htask, Htrace, Hcursor.
    assert (Hlt1 : currentInstanceIndex w1 < List.length (ollamaInstances env)).
    { rewrite Hcursor. apply Nat.mod_upper_bound. lia. }
    specialize (IH w1 Hlt1).
    destruct (mapWorld (startAgent env input previousResponses) agents w1)
      as [tasks w2].
    simpl in IH. destruct IH as [Hsettled [Hcursor2 [events [Htrace2 Hhosts]]]].
    simpl. repeat split.
    + constructor; [now rewrite Htask | exact Hsettled].
    + rewrite Hcursor2, Hcursor. rewrite Nat.Div0.add_mod_idemp_l. f_equal. lia.
    + eexists. split.
      * rewrite Htrace2, Htrace, <- app_assoc. reflexivity.
      * cbn [app commandHosts]. rewrite Hhosts. f_equal.
        -- now rewrite Nat.add_0_r.
        -- rewrite <- seq_shift, map_map. apply map_ext. intros j.
           rewrite Hcursor. f_equal.
           rewrite <- !Nat.add_assoc, Nat.Div0.add_mod_idemp_l. f_equal. lia.
Qed.

Lemma mapWorld_resume_settled input previousResponses tasks :
  Forall isSettled tasks ->
  forall w, snd (mapWorld (resumeAgent env input previousResponses) tasks w) = w.
Proof.
  induction 1 as [|[outcome | agent xml] tasks Htask Htasks IH]; intros w;
    [reflexivity | | contradiction].
  simpl. specialize (IH w).
  destruct (mapWorld (resumeAgent env input previousResponses) tasks w). exact IH.
Qed.

Lemma processLayer_endpoints_general (layer : Layer.t) (input : string)
  (previousResponses : list ModelResponse) (w : World) :
  Forall plainOllamaAgent (Layer.agents layer) ->
  currentInstanceIndex w < List.length (ollamaInstances env) ->
  let w' := snd (processLayer env layer input previousResponses w) in
  let n := List.length (Layer.agents layer) in
  currentInstanceIndex w' = (currentInstanceIndex w + 2 * n) mod List.length (ollamaInstances env) /\
  exists events,
    trace w' = (trace w ++ events)%list /\
    commandHosts events
    = map (fun j => endpointUri env ((currentInstanceIndex w + 2 * j + 1) mod List.length (ollamaInstances env)))
          (seq 0 n).
Proof.
  intros Hplain Hlt w' n. subst w' n. unfold processLayer.
  pose proof (mapWorld_startAgent_plain input previousResponses (Layer.agents layer)
                Hplain w Hlt) as H.
  destruct (mapWorld (startAgent env input previousResponses) (Layer.agents layer) w)
    as [tasks w1].
  simpl in H. destruct H as [Hsettled H].
  pose proof (mapWorld_resume_settled input previousResponses tasks Hsettled w1) as Hsame.
  destruct (mapWorld (resumeAgent env input previousResponses) tasks w1)
    as [outcomes w2].
  simpl in Hsame. subst w2. exact H.
Qed.

(** X13: In a layer of plain agents each agent asks the selector twice, once
    in the layer processor and once in the invoker, and only the second
    answer is used: the command of agent [j] (from 0) goes to endpoint
    [c + 2 j + 1] modulo the number of endpoints, where [c] is the cursor
    at the start, and the cursor ends [2 n] further. *)
Theorem processLayer_endpoints (layer : Layer.t) (input : string)
  (previousResponses : list ModelResponse) (w : World) :
  Forall plainOllamaAgent (Layer.agents layer) ->
  currentInstanceIndex w < List.length (ollamaInstances env) ->
  let w' := snd (processLayer env layer input previousResponses w) in
  let n := List.length (Layer.agents layer) in
  currentInstanceIndex w' = (currentInstanceIndex w + 2 * n) mod List.length (ollamaInstances env) /\
  exists events,
    trace w' = (trace w ++ events)%list /\
    commandHosts events
    = map (fun j => endpointUri env ((currentInstanceIndex w + 2 * j + 1) mod List.length (ollamaInstances env)))
          (seq 0 n).
Proof.
  exact (processLayer_endpoints_general layer input previousResponses w).
Qed.

Lemma every_second_of_two (c n : nat) :
  forall start,
    map (fun j => endpointUri env ((c + 2 * j + 1) mod 2)) (seq start n)
    = repeat (endpointUri env ((c + 1) mod 2)) n.
Proof.
  induction n as [|n IH]; intros start; [reflexivity|].
  cbn [seq map repeat]. f_equal; [|apply IH].
  f_equal.
  replace (c + 2 * start + 1) with (c + 1 + start * 2) by lia.
  now rewrite Nat.Div0.mod_add.
Qed.

(** X14: With two endpoints, every command of such a layer goes to the same
    endpoint, the one after the cursor, and the cursor is back where it
    was: the other endpoint gets no agent. *)
Theorem processLayer_two_endpoints (layer : Layer.t) (input : string)
  (previousResponses : list ModelResponse) (w : World) :
  List.length (ollamaInstances env) = 2 ->
  Forall plainOllamaAgent (Layer.agents layer) ->
  currentInstanceIndex w < 2 ->
  let w' := snd (processLayer env layer input previousResponses w) in
  currentInstanceIndex w' = currentInstanceIndex w /\
  exists events,
    trace w' = (trace w ++ events)%list /\
    commandHosts events
    = repeat (endpointUri env ((currentInstanceIndex w + 1) mod 2))
             (List.length (Layer.agents layer)).
Proof.
  intros HK Hplain Hlt w'. subst w'.
  assert (Hlt' : currentInstanceIndex w < List.length (ollamaInstances env)) by (rewrite HK; exact Hlt).
  destruct (processLayer_endpoints_general layer input previousResponses w Hplain Hlt')
    as [Hcursor [events [Htrace Hhosts]]].
  rewrite HK in Hcursor, Hhosts. split.
  - rewrite Hcursor.
    replace (currentInstanceIndex w + 2 * List.length (Layer.agents layer))
      with (currentInstanceIndex w + List.length (Layer.agents layer) * 2) by lia.
    rewrite Nat.Div0.mod_add. now apply Nat.mod_small.
  - exists events. split; [exact Htrace|]. rewrite Hhosts.
    apply every_second_of_two.
Qed.

End LayerEndpoints.

Lemma processLayer_endpoints_witness :
  currentInstanceIndex
    (snd (processLayer Examples.exampleEnv threeAgentLayer "hello" []
            Examples.exampleWorld)) = (0 + 2 * 3) mod 3 /\
  exists events,
    trace (snd (processLayer Examples.exampleEnv threeAgentLayer "hello" []
                  Examples.exampleWorld))
    = (trace Examples.exampleWorld ++ events)%list /\
    commandHosts events
    = map (fun j => endpointUri Examples.exampleEnv ((0 + 2 * j + 1) mod 3)) (seq 0 3).
Proof.
  apply (processLayer_endpoints Examples.exampleEnv threeAgentLayer "hello" []
           Examples.exampleWorld).
  - repeat constructor.
  - simpl. lia.
Defined.

Lemma processLayer_two_endpoints_witness :
  currentInstanceIndex
    (snd (processLayer twoEndpointEnv threeAgentLayer "hello" []
            Examples.exampleWorld)) = 0 /\
  exists events,
    trace (snd (processLayer twoEndpointEnv threeAgentLayer "hello" []
                  Examples.exampleWorld))
    = (trace Examples.exampleWorld ++ events)%list /\
    commandHosts events = repeat (endpointUri twoEndpointEnv ((0 + 1) mod 2)) 3.
Proof.
  apply (processLayer_two_endpoints twoEndpointEnv threeAgentLayer "hello" []
           Examples.exampleWorld).
  - reflexivity.
  - repeat constructor.
  - simpl. lia.
Defined.

(** ** Model preloading *)

Section Preloading.

Variable env : Env.

Lemma existsb_eqb_In (x : string) (l : list string) :
  existsb (String.eqb x) l = true <-> In x l.
Proof.
  rewrite existsb_exists. split.
  - intros [y [Hy Heq]]. apply String.eqb_eq in Heq. now subst.
  - intros H. exists x. split; [exact H | apply String.eqb_refl].
Qed.

Lemma setAdd_In (x y : string) (l : list string) :
  In y (setAdd x l) <-> y = x \/ In y l.
Proof.
  unfold setAdd. destruct (existsb (String.eqb x) l) eqn:Hx.
  - apply existsb_eqb_In in Hx. split; [now right|].
    intros [-> | H]; assumption.
  - rewrite in_app_iff. simpl. intuition.
Qed.

Lemma setAdd_NoDup (x : string) (l : list string) :
  NoDup l -> NoDup (setAdd x l).
Proof.
  intros Hl. unfold setAdd. destruct (existsb (String.eqb x) l) eqn:Hx; [exact Hl|].
  apply NoDup_app; [exact Hl | repeat constructor; intros [] |].
  intros a Ha [<- | []].
  apply existsb_eqb_In in Ha. congruence.
Qed.

(** What an agent contributes: the name after "ollama:", if its model
    identifier starts that way. *)
Lemma addAgentModel_In (models : list string) (agent : Agent.t) (y : string) :
  In y (addAgentModel models agent)
  <-> In y models \/ Agent.model agent = "ollama:" ++ y.
Proof.
  unfold addAgentModel.
  destruct (JsString.startsWith (Agent.model agent) "ollama:") eqn:Hprefix.
  - pose proof (startsWith_split "ollama:" (Agent.model agent) Hprefix) as Hsplit.
    rewrite Hsplit at 1. rewrite replace_prefix. rewrite setAdd_In.
    split.
    + intros [-> | H]; [right; exact Hsplit | now left].
    + intros [H | H]; [now right | left].
      rewrite H. reflexivity.
  - split; [now left|]. intros [H | H]; [exact H|].
    rewrite H in Hprefix.
    pose proof (prefix_append "ollama:" y) as Hyes.
    unfold JsString.startsWith in Hprefix. congruence.
Qed.

Lemma addAgentModel_NoDup (models : list string) (agent : Agent.t) :
  NoDup models -> NoDup (addAgentModel models agent).
Proof.
  intros H. unfold addAgentModel.
  destruct (JsString.startsWith (Agent.model agent) "ollama:");
    [now apply setAdd_NoDup | exact H].
Qed.

Lemma fold_agents (agents : list Agent.t) :
  forall models y,
    (In y (fold_left addAgentModel agents models)
     <-> In y models \/
         exists agent, In agent agents /\ Agent.model agent = "ollama:" ++ y) /\
    (NoDup models -> NoDup (fold_left addAgentModel agents models)).
Proof.
  induction agents as [|agent agents IH]; intros models y; simpl.
  - split; [|auto]. split; [now left|]. intros [H | [agent [[] _]]]. exact H.
  - destruct (IH (addAgentModel models agent) y) as [Hin Hnodup]. split.
    + rewrite Hin, addAgentModel_In. split.
      * intros [[H | H] | [a [Ha Hm]]]; eauto.
      * intros [H | [a [[<- | Ha] Hm]]]; eauto.
    + intros H. apply Hnodup. now apply addAgentModel_NoDup.
Qed.

Lemma fold_layers (layers : list Layer.t) :
  forall models y,
    (In y (fold_left (fun acc layer => fold_left addAgentModel (Layer.agents layer) acc)
             layers models)
     <-> In y models \/
         exists layer agent,
           In layer layers /\ In agent (Layer.agents layer) /\
           Agent.model agent = "ollama:" ++ y) /\
    (NoDup models ->
     NoDup (fold_left (fun acc layer => fold_left addAgentModel (Layer.agents layer) acc)
              layers models)).
Proof.
  induction layers as [|layer layers IH]; intros models y; simpl.
  - split; [|auto]. split; [now left|]. intros [H | [l [a [[] _]]]]. exact H.
  - destruct (IH (fold_left addAgentModel (Layer.agents layer) models) y)
      as [Hin Hnodup].
    destruct (fold_agents (Layer.agents layer) models y) as [Hin1 Hnodup1].
    split.
    + rewrite Hin, Hin1. split.
      * intros [[H | [a [Ha Hm]]] | [l [a [Hl [Ha Hm]]]]]; eauto 8.
      * intros [H | [l [a [[<- | Hl] [Ha Hm]]]]]; eauto 8.
    + intros H. apply Hnodup, Hnodup1, H.
Qed.

(** X16: [getUniqueModels] lists each model once, and a name is listed exactly
    when "ollama:" followed by it is the model of some agent of some
    layer, or the synthesis model. *)
Theorem getUniqueModels_spec (config : MOAConfig.t) :
  NoDup (getUniqueModels env config) /\
  forall y,
    In y (getUniqueModels env config)
    <-> (exists layer agent,
            In layer (MOAConfig.layers config) /\
            In agent (Layer.agents layer) /\
            Agent.model agent = "ollama:" ++ y)
        \/ SYNTHESIS_MODEL env = "ollama:" ++ y.
Proof.
  unfold getUniqueModels.
  set (models := fold_left _ (MOAConfig.layers config) []).
  assert (Hnodup : NoDup models).
  { apply (fold_layers (MOAConfig.layers config) [] EmptyString). constructor. }
  assert (Hin : forall y,
             In y models <->
             exists layer agent,
               In layer (MOAConfig.layers config) /\
               In agent (Layer.agents layer) /\
               Agent.model agent = "ollama:" ++ y).
  { intros y.
    destruct (fold_layers (MOAConfig.layers config) [] y) as [H _].
    fold models in H. rewrite H. split; [intros [[] | H']; exact H' | now right]. }
  destruct (JsString.startsWith (SYNTHESIS_MODEL env) "ollama:") eqn:Hprefix.
  - pose proof (startsWith_split "ollama:" (SYNTHESIS_MODEL env) Hprefix) as Hsplit.
    split; [now apply setAdd_NoDup|].
    intros y. rewrite setAdd_In, Hin.
    rewrite Hsplit at 1. rewrite replace_prefix. split.
    + intros [-> | H]; [right; exact Hsplit | now left].
    + intros [H | H]; [now right | left].
      rewrite H. reflexivity.
  - split; [exact Hnodup|].
    intros y. rewrite Hin. split; [now left|]. intros [H | H]; [exact H|].
    rewrite H in Hprefix.
    pose proof (prefix_append "ollama:" y) as Hyes.
    unfold JsString.startsWith in Hprefix. congruence.
Qed.

End Preloading.

Lemma getUniqueModels_spec_witness :
  In "mistral" (getUniqueModels Examples.exampleEnv mixedConfig).
Proof.
  apply (proj2 (getUniqueModels_spec Examples.exampleEnv mixedConfig)).
  left. eexists. eexists. split; [right; left; reflexivity|].
  split; [right; left; reflexivity | reflexivity].
Defined.

Section PreloadingLoop.

Variable env : Env.

(** The loop of [preloadModels]: every request goes to the one endpoint,
    the models are asked for in order, and the loop stops at the first
    request that fails. *)
Lemma preloadLoop_spec curl (instance : OllamaInstance.t) (models : list string) :
  forall sent,
    exists k,
      k <= List.length models /\
      snd (preloadLoop curl (Some instance) models sent)
      = (sent ++ map (preloadRequest instance) (firstn k models))%list /\
      (fst (preloadLoop curl (Some instance) models sent) = Ok tt ->
       k = List.length models) /\
      (forall e,
          fst (preloadLoop curl (Some instance) models sent) = Throw e ->
          exists done failed,
            firstn k models = (done ++ [failed])%list /\
            curl (sent ++ map (preloadRequest instance) done)%list
                 (preloadRequest instance failed) = Throw e).
Proof.
  induction models as [|model rest IH]; intros sent.
  - exists 0. simpl. rewrite app_nil_r. repeat split; [lia | discriminate].
  - cbn [preloadLoop]. fold (preloadRequest instance model).
    destruct (curl sent (preloadRequest instance model)) as [output|e0] eqn:Hcurl.
    + destruct (IH (sent ++ [preloadRequest instance model])%list)
        as [k [Hk [Hsent [Hok Hfail]]]].
      exists (S k). cbn [firstn map List.length]. repeat split.
      * lia.
      * rewrite Hsent, <- app_assoc. reflexivity.
      * intros H. f_equal. now apply Hok.
      * intros e H. destruct (Hfail e H) as [done [failed [Hfirst Hthrow]]].
        exists (model :: done), failed. split.
        -- rewrite Hfirst. reflexivity.
        -- cbn [map]. rewrite <- app_assoc in Hthrow. exact Hthrow.
    + exists 1. cbn [firstn map List.length fst snd]. repeat split.
      * lia.
      * discriminate.
      * intros e H. injection H as <-. exists [], model. split; [reflexivity|].
        simpl. rewrite app_nil_r. exact Hcurl.
Qed.

(** X17: [preloadModels] takes exactly one endpoint from the selector, however
    many models there are, and sends every request to it; the requests
    are those for a leading part of the models, all of them when the call
    succeeds, and up to the first failing one otherwise. *)
Theorem preloadModels_spec curl (models : list string) (w : World)
  (instance : OllamaInstance.t) :
  fst (getNextInstance env w) = Some instance ->
  let '(outcome, sent, w') := preloadModels env curl models w in
  w' = snd (getNextInstance env w) /\
  exists k,
    k <= List.length models /\
    sent = map (preloadRequest instance) (firstn k models) /\
    (outcome = Ok tt -> k = List.length models) /\
    (forall e,
        outcome = Throw e ->
        exists done failed,
          firstn k models = (done ++ [failed])%list /\
          curl (map (preloadRequest instance) done) (preloadRequest instance failed)
          = Throw e).
Proof.
  intros Hinstance. unfold preloadModels.
  destruct (getNextInstance env w) as [i w1]. simpl in Hinstance. subst i.
  destruct (preloadLoop_spec curl instance models []) as [k [Hk [Hsent [Hok Hfail]]]].
  destruct (preloadLoop curl (Some instance) models []) as [outcome sent].
  simpl in *. split; [reflexivity|].
  exists k. repeat split; assumption.
Qed.

End PreloadingLoop.

Lemma preloadModels_spec_witness :
  let '(outcome, sent, w') :=
    preloadModels Examples.exampleEnv pickyCurl
      (getUniqueModels Examples.exampleEnv mixedConfig) Examples.exampleWorld in
  w' = snd (getNextInstance Examples.exampleEnv Examples.exampleWorld) /\
  exists k,
    k <= List.length (getUniqueModels Examples.exampleEnv mixedConfig) /\
    sent = map (preloadRequest (Examples.endpoint "http://10.0.0.1:11434" "A"))
               (firstn k (getUniqueModels Examples.exampleEnv mixedConfig)) /\
    (outcome = Ok tt -> k = List.length (getUniqueModels Examples.exampleEnv mixedConfig)) /\
    (forall e,
        outcome = Throw e ->
        exists done failed,
          firstn k (getUniqueModels Examples.exampleEnv mixedConfig)
          = (done ++ [failed])%list /\
          pickyCurl (map (preloadRequest (Examples.endpoint "http://10.0.0.1:11434" "A")) done)
                    (preloadRequest (Examples.endpoint "http://10.0.0.1:11434" "A") failed)
          = Throw e).
Proof.
  apply (preloadModels_spec Examples.exampleEnv pickyCurl
           (getUniqueModels Examples.exampleEnv mixedConfig) Examples.exampleWorld
           (Examples.endpoint "http://10.0.0.1:11434" "A")).
  reflexivity.
Defined.

(** The models of the mixed configuration, in the order of their first
    use, the synthesis model last; preloading them on the picky server
    stops at "mistral". *)
Example getUniqueModels_example :
  getUniqueModels Examples.exampleEnv mixedConfig
  = ["llama2"; "mistral"; "qwen2.5-coder:7b-instruct-fp16"] /\
  fst (preloadModels Examples.exampleEnv pickyCurl
         (getUniqueModels Examples.exampleEnv mixedConfig) Examples.exampleWorld)
  = (Throw (ErrorObject "Failed with exit code 7"),
     [ preloadRequest (Examples.endpoint "http://10.0.0.1:11434" "A") "llama2";
       preloadRequest (Examples.endpoint "http://10.0.0.1:11434" "A") "mistral" ]).
Proof.
  split; vm_compute; reflexivity.
Qed.

(** ** Templates and their placeholders *)

Section Placeholders.

Import JsString.

Lemma splitFirst_none (pat s : string) :
  includes s pat = false -> splitFirst pat s = None.
Proof.
  induction s as [|c s IH]; cbn [includes splitFirst]; intros H;
    apply orb_false_iff in H; destruct H as [Hprefix Hrest]; rewrite Hprefix.
  - reflexivity.
  - now rewrite (IH Hrest).
Qed.

Lemma replace_absent (s pat replacement : string) :
  includes s pat = false -> replace s pat replacement = s.
Proof.
  intros H. unfold replace. now rewrite (splitFirst_none pat s H).
Qed.

(** X18: A template without placeholders is the prompt, whatever the input
    and the earlier responses are: they do not reach the agent. *)
Theorem contextualPrompt_without_placeholders (template input : string)
  (previousResponses : list ModelResponse) :
  includes template "{input}" = false ->
  includes template "{previous_responses}" = false ->
  contextualPrompt template input previousResponses = template.
Proof.
  intros Hinput Hprevious. unfold contextualPrompt.
  rewrite (replace_absent template "{input}" input Hinput).
  now apply replace_absent.
Qed.

Lemma includes_char_cons (c d : ascii) (r : string) :
  includes (String c r) (String d EmptyString) = false ->
  c <> d /\ includes r (String d EmptyString) = false.
Proof.
  cbn [includes]. intros H. apply orb_false_iff in H. destruct H as [Hhead Htail].
  split; [|exact Htail].
  intros ->. cbn [String.prefix] in Hhead.
  destruct (ascii_dec d d); [|contradiction]. destruct r; discriminate.
Qed.

(** The first occurrence of [{input}] is the one after a text without an
    opening brace. *)
Lemma splitFirst_input (a b : string) :
  includes a "{" = false ->
  splitFirst "{input}" (a ++ "{input}" ++ b) = Some (a, b).
Proof.
  induction a as [|c a IH]; intros H.
  - change (EmptyString ++ "{input}" ++ b) with ("{input}" ++ b).
    rewrite (splitFirst_prefix "{input}" ("{input}" ++ b) (prefix_append "{input}" b)).
    now rewrite drop_append.
  - apply includes_char_cons in H. destruct H as [Hc Ha].
    change (String c a ++ "{input}" ++ b) with (String c (a ++ "{input}" ++ b)).
    cbn [splitFirst].
    replace (String.prefix "{input}" (String c (a ++ "{input}" ++ b))) with false.
    + now rewrite (IH Ha).
    + cbn [String.prefix]. destruct (ascii_dec "{" c); [congruence | reflexivity].
Qed.

(** X19: Only the first [{input}] is replaced: in a template [a {input} b]
    where [a] has no opening brace, the prompt is [a], the input and [b]
    as it is, further [{input}] placeholders in [b] included (for an input
    without a dollar sign, and when no [{previous_responses}] comes up). *)
Theorem contextualPrompt_first_input_only (a b input : string)
  (previousResponses : list ModelResponse) :
  includes a "{" = false ->
  includes input "$" = false ->
  includes (a ++ input ++ b) "{previous_responses}" = false ->
  contextualPrompt (a ++ "{input}" ++ b) input previousResponses = a ++ input ++ b.
Proof.
  intros Ha Hinput Hprevious. unfold contextualPrompt.
  assert (Hfirst : replace (a ++ "{input}" ++ b) "{input}" input = a ++ input ++ b).
  { unfold replace. rewrite (splitFirst_input a b Ha).
    now rewrite getSubstitution_plain. }
  rewrite Hfirst. now apply replace_absent.
Qed.

End Placeholders.

Lemma contextualPrompt_without_placeholders_witness :
  contextualPrompt "Summarise the report." "hello" [plainResponse "7"]
  = "Summarise the report.".
Proof.
  apply (contextualPrompt_without_placeholders "Summarise the report." "hello"
           [plainResponse "7"]).
  - reflexivity.
  - reflexivity.
Defined.

Lemma contextualPrompt_first_input_only_witness :
  contextualPrompt ("Q: " ++ "{input}" ++ " (again: {input})") "hello" []
  = "Q: " ++ "hello" ++ " (again: {input})".
Proof.
  apply (contextualPrompt_first_input_only "Q: " " (again: {input})" "hello" []).
  - reflexivity.
  - reflexivity.
  - reflexivity.
Defined.

(** ** Synthesis with the default template *)

Section Synthesis.

Variable env : Env.



End Synthesis.


(** A response without a dollar sign is inserted as it is; in "x$&y" the
    pattern [$&] gives way to the placeholder itself. *)
Example insertedResponses_examples :
  insertedResponses [plainResponse "yes"; plainResponse "no"]
  = "Response 1:" ++ JsString.LF ++ "yes" ++ JsString.LF ++ JsString.LF
    ++ "Response 2:" ++ JsString.LF ++ "no" /\
  insertedResponses [plainResponse "x$&y"]
  = "Response 1:" ++ JsString.LF ++ "x{responses}y".
Proof.
  split; vm_compute; reflexivity.
Qed.

(** ** Aggregation without a prompt file *)

Section InlineAggregation.

Variable env : Env.

(** Without a prompt file the aggregator goes straight to its branches. *)
Lemma aggregateResponses_inline first rest strategy w :
  (forall file,
      AggregationStrategy.promptTemplate (strategies w strategy) = Some file ->
      JsString.endsWith file ".xml" = false) ->
  aggregateResponses env (first :: rest) strategy w
  = aggregateBy env (strategies w strategy) first rest w.
Proof.
  intros Hinline. unfold aggregateResponses, bind, getStrategy.
  destruct (AggregationStrategy.promptTemplate (strategies w strategy)) as [file|];
    [|reflexivity].
  now rewrite (Hinline file eq_refl).
Qed.

Lemma mul_NaN (x : JsNumber.Number) : JsNumber.mul x JsNumber.NaN = JsNumber.NaN.
Proof.
  destruct x; reflexivity.
Qed.

Lemma weightedReduce_beyond (weights : list JsNumber.Number) (contents : list string) :
  forall i,
    List.length weights <= i ->
    weightedReduce weights i EmptyString contents
    = repeatText "NaN" (List.length contents).
Proof.
  induction contents as [|c rest IH]; intros i Hi; [reflexivity|].
  rewrite weightedReduce_cons. rewrite IH by lia.
  unfold weightAt.
  replace (nth_error weights i) with (@None JsNumber.Number)
    by (symmetry; now apply nth_error_None).
  now rewrite mul_NaN.
Qed.

Lemma weightedReduce_app (weights : list JsNumber.Number) (xs ys : list string) :
  forall i acc,
    weightedReduce weights i acc (xs ++ ys)
    = weightedReduce weights (i + List.length xs) (weightedReduce weights i acc xs) ys.
Proof.
  induction xs as [|x xs IH]; intros i acc; simpl.
  - now rewrite Nat.add_0_r.
  - rewrite IH. f_equal. lia.
Qed.

(** X21: Responses beyond the supplied weights contribute the text "NaN": with
    weights [ws], the content is what the first [length ws] responses
    give, followed by one "NaN" for every further response. *)
Theorem aggregateResponses_missing_weights (responses : list ModelResponse)
  (strategy : StrategyRef) (w : World) (ws : list JsNumber.Number) :
  responses <> [] ->
  AggregationStrategy.method (strategies w strategy) = weighted ->
  AggregationStrategy.weights (strategies w strategy) = Some ws ->
  (forall file,
      AggregationStrategy.promptTemplate (strategies w strategy) = Some file ->
      JsString.endsWith file ".xml" = false) ->
  let contents := map (fun r => JsString.trim (content r)) responses in
  aggregateResponses env responses strategy w
  = (Ok (plainResponse
           (weightedReduce ws 0 EmptyString (firstn (List.length ws) contents)
            ++ repeatText "NaN" (List.length responses - List.length ws))),
     w).
Proof.
  intros Hne Hmethod Hweights Hinline contents.
  destruct responses as [|first rest]; [contradiction|].
  rewrite (aggregateResponses_inline first rest strategy w Hinline).
  unfold aggregateBy. rewrite Hmethod, Hweights. unfold ret, plainResponse.
  do 3 f_equal. fold contents.
  assert (Hlen : List.length contents = List.length (first :: rest))
    by (unfold contents; apply length_map).
  destruct (Nat.le_ge_cases (List.length ws) (List.length contents)) as [H | H].
  - rewrite <- (firstn_skipn (List.length ws) contents) at 1.
    rewrite weightedReduce_app.
    rewrite (weightedReduce_acc ws (skipn (List.length ws) contents) _
               (weightedReduce ws 0 EmptyString (firstn (List.length ws) contents))).
    f_equal.
    rewrite weightedReduce_beyond.
    + f_equal. rewrite length_skipn. now rewrite Hlen.
    + rewrite length_firstn, Nat.min_l by exact H. lia.
  - unfold ge in H. rewrite (firstn_all2 _ H).
    replace (List.length (first :: rest) - List.length ws) with 0 by lia.
    simpl repeatText. now rewrite append_empty_r.
Qed.

End InlineAggregation.

(** One weight for two responses: the second one gives "NaN". *)
Lemma aggregateResponses_missing_weights_witness :
  aggregateResponses Examples.exampleEnv [plainResponse "4"; plainResponse "5"] 0
    oneWeightWorld
  = (Ok (plainResponse
           (weightedReduce [JsNumber.ofNat 1] 0 EmptyString
              (firstn 1 (map (fun r => JsString.trim (content r))
                           [plainResponse "4"; plainResponse "5"]))
            ++ repeatText "NaN" (2 - 1))),
     oneWeightWorld).
Proof.
  apply (aggregateResponses_missing_weights Examples.exampleEnv
           [plainResponse "4"; plainResponse "5"] 0 oneWeightWorld [JsNumber.ofNat 1]).
  - discriminate.
  - reflexivity.
  - reflexivity.
  - intros file H. discriminate H.
Defined.

Example aggregateResponses_missing_weights_example :
  fst (aggregateResponses Examples.exampleEnv [plainResponse "4"; plainResponse "5"] 0
         oneWeightWorld) = Ok (plainResponse "4NaN").
Proof.
  vm_compute. reflexivity.
Qed.

(** ** A single layer that joins its responses *)

Section SingleLayer.

Variable env : Env.

Lemma trim_invoker_contents (responses : list ModelResponse) :
  Forall invokerResponse responses ->
  map (fun r => JsString.trim (content r)) responses = map content responses.
Proof.
  induction 1 as [|r rs [output [-> _]] Hrs IH]; [reflexivity|].
  simpl. rewrite trim_idempotent. now rewrite IH.
Qed.

(** X22: One pass over one layer with a joining strategy (concatenate, or a
    method that is not recognized) and no stop predicate: the final
    content is the contents of the agents' responses, in the order of the
    agents, with a blank line between them; trimming them again changes
    nothing, since the invoker has trimmed them.  For one agent the final
    content is that agent's response. *)
Theorem runMOAChain_single_joining_layer (fuel : nat) (config : MOAConfig.t)
  (initialInput : string) (layer : Layer.t) (w w1 : World)
  (layerResponses : list ModelResponse) :
  MOAConfig.layers config = [layer] ->
  iterationCount config = Some 1 ->
  MOAConfig.stopCriteria config = None ->
  joins (AggregationStrategy.method (strategies w (Layer.aggregationStrategy layer)))
  = true ->
  (forall file,
      AggregationStrategy.promptTemplate (strategies w (Layer.aggregationStrategy layer))
      = Some file ->
      JsString.endsWith file ".xml" = false) ->
  processLayer env layer initialInput [] w = (Ok layerResponses, w1) ->
  layerResponses <> [] ->
  runMOAChain env fuel config initialInput w
  = (Ok (Some (completedResponse config
                 (JsString.join (JsString.LF ++ JsString.LF)
                    (map content layerResponses)) 1)),
     w1).
Proof.
  intros Hlayers Hcount Hstop Hjoins Hinline Hprocess Hne.
  destruct (processLayer_shape env _ _ _ _ _ _ Hprocess)
    as [_ Hstore].
  pose proof (processLayer_fromInvoker env _ _ _ _ _ _ Hprocess) as Hinvoker.
  pose proof (processLayer_no_errors env _ _ _ _ _ _ Hprocess) as Hclean.
  rewrite runMOAChain_outcome. unfold chainBody, bind.
  rewrite (chainLoop_bounded env fuel config initialInput w _ Hcount).
  cbn [forIterations]. unfold bind. rewrite Hlayers.
  cbn [forLayers]. unfold bind, runLayer, bind. cbn [currentInput allResponses].
  rewrite Hprocess, Hclean.
  destruct layerResponses as [|first rest]; [contradiction|].
  rewrite aggregateResponses_inline by (rewrite Hstore; exact Hinline).
  unfold aggregateBy. rewrite Hstore.
  destruct (AggregationStrategy.method
              (strategies w (Layer.aggregationStrategy layer))) eqn:Hmethod;
    try discriminate Hjoins;
    unfold ret, stopRequested; rewrite Hstop; unfold ret;
    rewrite (trim_invoker_contents _ Hinvoker); reflexivity.
Qed.

End SingleLayer.

Lemma runMOAChain_single_joining_layer_witness :
  runMOAChain Examples.exampleEnv 0
    (Examples.singleLayerConfig threeAgentLayer None) "hello" Examples.exampleWorld
  = (Ok (Some (completedResponse (Examples.singleLayerConfig threeAgentLayer None)
                 (JsString.join (JsString.LF ++ JsString.LF)
                    (map content [plainResponse "7"; plainResponse "7";
                                  plainResponse "7"])) 1)),
     snd (processLayer Examples.exampleEnv threeAgentLayer "hello" []
            Examples.exampleWorld)).
Proof.
  apply (runMOAChain_single_joining_layer Examples.exampleEnv 0
           (Examples.singleLayerConfig threeAgentLayer None) "hello" threeAgentLayer
           Examples.exampleWorld).
  - reflexivity.
  - reflexivity.
  - reflexivity.
  - reflexivity.
  - intros file H. discriminate H.
  - reflexivity.
  - discriminate.
Defined.

(** ** Where the resolver looks for the sections *)

Section LooseDocuments.

Variable env : Env.

(** X23: The resolver asks for a [<prompt>] element and for the sections
    anywhere in the document: a file whose root is another element, with
    an empty [<prompt>] and the sections beside it, resolves like a
    document whose root [<prompt>] holds the sections. *)
Theorem readXMLPrompt_prompt_need_not_be_root (promptFile : string) (w : World)
  (f : File) (text rootTag : string) (parts : list PromptPart) :
  let resolvedPath := Path.resolve (cwd env) promptFile in
  JsString.includes resolvedPath (cwd env) = true ->
  files env resolvedPath = Some f ->
  (size f <= MAX_FILE_SIZE)%Z ->
  read f = Ok text ->
  parseFromString env text = Ok (looseDocument rootTag parts) ->
  rootTag <> "template" ->
  rootTag <> "system" ->
  readXMLPrompt env promptFile w =
  (match sectionText "template" parts with
   | Some T =>
       Ok {| XmlPrompt.systemPrompt := option_map JsString.trim (sectionText "system" parts);
             XmlPrompt.template := JsString.trim T |}
   | None => Throw (ErrorObject "Invalid XML: missing <template> element")
   end,
   logEvent (EvReadFile resolvedPath) w).
Proof.
  intros resolvedPath Hguard Hfile Hsize Hread Hparse Htemplate Hsystem.
  unfold readXMLPrompt. fold resolvedPath.
  rewrite Hguard, Hfile. simpl negb. cbv iota.
  replace (MAX_FILE_SIZE <? size f)%Z with false
    by (symmetry; apply Z.ltb_ge; exact Hsize).
  unfold bind, readFileSync, liftResult. rewrite Hread, Hparse.
  unfold looseDocument, getElementsByTagName.
  cbn [flat_map elementsByTagNameIn].
  apply String.eqb_neq in Htemplate, Hsystem. rewrite Htemplate, Hsystem.
  cbn [String.eqb Ascii.eqb Bool.eqb app]. rewrite !app_nil_r.
  rewrite !elementsByTagName_parts.
  assert (Hfound :
    ((if String.eqb rootTag "prompt"
      then [Element rootTag (Element "prompt" [] :: map partNode parts)] else [])
     ++ Element "prompt" []
        :: flat_map (elementsByTagNameIn "prompt") (map partNode parts))%list <> []).
  { destruct (String.eqb rootTag "prompt"); discriminate. }
  destruct ((if String.eqb rootTag "prompt" then _ else _) ++ _)%list; [contradiction|].
  destruct (sectionText "template" parts) as [T|]; simpl; [|reflexivity].
  unfold ret. rewrite append_empty_r.
  destruct (sectionText "system" parts) as [S|]; simpl; [|reflexivity].
  now rewrite append_empty_r.
Qed.

End LooseDocuments.

Lemma readXMLPrompt_prompt_need_not_be_root_witness :
  readXMLPrompt looseEnv "prompts/loose.xml" Examples.exampleWorld =
  (Ok {| XmlPrompt.systemPrompt := None; XmlPrompt.template := "Outside: {input}" |},
   logEvent (EvReadFile "/home/user/moa_cli/prompts/loose.xml") Examples.exampleWorld).
Proof.
  apply (readXMLPrompt_prompt_need_not_be_root looseEnv "prompts/loose.xml"
           Examples.exampleWorld
           {| size := 64; read := Ok looseText |} looseText "notes"
           [Part "template" " Outside: {input} "]).
  - reflexivity.
  - reflexivity.
  - vm_compute. discriminate.
  - reflexivity.
  - reflexivity.
  - discriminate.
  - discriminate.
Defined.

(** ** What the resolver touches *)

Section ResolverEffects.

Variable env : Env.

(** X24: The resolver reads at most one file, and only a file whose resolved
    path contains the working directory, that exists and that is not
    larger than the limit; a successful resolution has read it.  It
    issues no command and leaves the cursor and the strategies alone. *)
Theorem readXMLPrompt_effects (promptFile : string) (w : World) :
  let resolvedPath := Path.resolve (cwd env) promptFile in
  let outcome := fst (readXMLPrompt env promptFile w) in
  let w' := snd (readXMLPrompt env promptFile w) in
  currentInstanceIndex w' = currentInstanceIndex w /\
  strategies w' = strategies w /\
  (trace w' = trace w \/
   (trace w' = (trace w ++ [EvReadFile resolvedPath])%list /\
    JsString.includes resolvedPath (cwd env) = true /\
    exists f, files env resolvedPath = Some f /\ (size f <= MAX_FILE_SIZE)%Z)) /\
  (forall xmlPrompt,
      outcome = Ok xmlPrompt ->
      trace w' = (trace w ++ [EvReadFile resolvedPath])%list).
Proof.
  intros resolvedPath outcome w'. subst outcome w'.
  unfold readXMLPrompt. fold resolvedPath.
  destruct (JsString.includes resolvedPath (cwd env)) eqn:Hguard; simpl negb; cbv iota;
    [|unfold throw; simpl; repeat split; [now left | discriminate]].
  destruct (files env resolvedPath) as [f|] eqn:Hfile;
    [|unfold throw; simpl; repeat split; [now left | discriminate]].
  destruct (MAX_FILE_SIZE <? size f)%Z eqn:Hsize;
    [unfold throw; simpl; repeat split; [now left | discriminate]|].
  apply Z.ltb_ge in Hsize.
  assert (Hread :
    forall (k : Result XmlPrompt.t),
      currentInstanceIndex (logEvent (EvReadFile resolvedPath) w) = currentInstanceIndex w /\
      strategies (logEvent (EvReadFile resolvedPath) w) = strategies w /\
      (trace (logEvent (EvReadFile resolvedPath) w) = trace w \/
       (trace (logEvent (EvReadFile resolvedPath) w)
        = (trace w ++ [EvReadFile resolvedPath])%list /\
        true = true /\
        exists f0, Some f = Some f0 /\ (size f0 <= MAX_FILE_SIZE)%Z)) /\
      (forall xmlPrompt,
          k = Ok xmlPrompt ->
          trace (logEvent (EvReadFile resolvedPath) w)
          = (trace w ++ [EvReadFile resolvedPath])%list)).
  { intros k. repeat split. right. repeat split. now exists f. }
  unfold bind, readFileSync, liftResult, throw, ret.
  destruct (read f) as [text|e]; [|apply Hread].
  destruct (parseFromString env text) as [doc|e]; [|apply Hread].
  destruct (getElementsByTagName doc "prompt"); [apply Hread|].
  destruct (hd_error (getElementsByTagName doc "template")); apply Hread.
Qed.

End ResolverEffects.

Lemma readXMLPrompt_effects_witness :
  trace (snd (readXMLPrompt Examples.exampleEnv "prompts/aggregate.xml"
                Examples.exampleWorld))
  = (trace Examples.exampleWorld
     ++ [EvReadFile (Path.resolve (cwd Examples.exampleEnv) "prompts/aggregate.xml")])%list.
Proof.
  apply (proj2 (proj2 (proj2 (readXMLPrompt_effects Examples.exampleEnv
                                "prompts/aggregate.xml" Examples.exampleWorld)))
           {| XmlPrompt.systemPrompt := Some "Be brief.";
              XmlPrompt.template := "Combine: {responses}" |}).
  reflexivity.
Defined.

(** ** What the invoker and the layer processor do not look at *)

Section NonInterference.

Variable env : Env.

(** [runModel] reads the model, the endpoint override and the prompt it
    is given, and nothing else of the agent. *)
Lemma runModel_ignores_system_prompt (a b : Agent.t) (prompt : string) (w : World) :
  Agent.model a = Agent.model b ->
  Agent.instanceUri a = Agent.instanceUri b ->
  runModel env a prompt w = runModel env b prompt w.
Proof.
  intros Hmodel Huri. unfold runModel, chooseInstanceUri.
  now rewrite Hmodel, Huri.
Qed.

Lemma startAgent_same input previousResponses a b w :
  sameInvocation a b ->
  sameTask (fst (startAgent env input previousResponses a w))
           (fst (startAgent env input previousResponses b w)) /\
  snd (startAgent env input previousResponses a w)
  = snd (startAgent env input previousResponses b w).
Proof.
  intros [Hmodel [Huri Htemplate]]. unfold startAgent.
  destruct (getNextInstance env w) as [[instance|] w1]; [|now split].
  rewrite Htemplate.
  destruct (JsString.endsWith (Agent.promptTemplate b) ".xml").
  - destruct (readXMLPrompt env (Agent.promptTemplate b) w1) as [xml w2].
    simpl. repeat split; assumption.
  - rewrite (runModel_ignores_system_prompt
               (withPrompt a (contextualPrompt (Agent.promptTemplate b) input
                                previousResponses) (Agent.systemPrompt a))
               (withPrompt b (contextualPrompt (Agent.promptTemplate b) input
                                previousResponses) (Agent.systemPrompt b))
               _ w1 Hmodel Huri).
    destruct (runModel env _ _ w1). now split.
Qed.

Lemma resumeAgent_same input previousResponses s t w :
  sameTask s t ->
  resumeAgent env input previousResponses s w
  = resumeAgent env input previousResponses t w.
Proof.
  destruct s as [x | a x], t as [y | b y]; simpl; try contradiction.
  - now intros ->.
  - intros [[Hmodel [Huri _]] ->]. destruct y as [xml|e]; [|reflexivity].
    now apply runModel_ignores_system_prompt.
Qed.

Lemma mapWorld_startAgent_same input previousResponses agents agents' :
  Forall2 sameInvocation agents agents' ->
  forall w,
    Forall2 sameTask
      (fst (mapWorld (startAgent env input previousResponses) agents w))
      (fst (mapWorld (startAgent env input previousResponses) agents' w)) /\
    snd (mapWorld (startAgent env input previousResponses) agents w)
    = snd (mapWorld (startAgent env input previousResponses) agents' w).
Proof.
  induction 1 as [|a b agents agents' Hab Hrest IH]; intros w.
  - split; [constructor | reflexivity].
  - simpl.
    destruct (startAgent_same input previousResponses a b w Hab) as [Htask Hworld].
    destruct (startAgent env input previousResponses a w) as [s w1].
    destruct (startAgent env input previousResponses b w) as [t w1'].
    simpl in Htask, Hworld. subst w1'.
    destruct (IH w1) as [Htasks Hworlds].
    destruct (mapWorld (startAgent env input previousResponses) agents w1) as [ss w2].
    destruct (mapWorld (startAgent env input previousResponses) agents' w1) as [ts w2'].
    simpl in *. split; [now constructor | exact Hworlds].
Qed.

Lemma mapWorld_resumeAgent_same input previousResponses tasks tasks' :
  Forall2 sameTask tasks tasks' ->
  forall w,
    mapWorld (resumeAgent env input previousResponses) tasks w
    = mapWorld (resumeAgent env input previousResponses) tasks' w.
Proof.
  induction 1 as [|s t tasks tasks' Hst Hrest IH]; intros w; [reflexivity|].
  simpl. rewrite (resumeAgent_same input previousResponses s t w Hst).
  destruct (resumeAgent env input previousResponses t w) as [outcome w1].
  now rewrite IH.
Qed.

(** X25: Two layers whose agents agree, one by one, on the model, the endpoint
    override and the prompt template are processed alike: the system
    prompts (configured or read from a prompt file), the temperatures and
    the names change neither the responses nor the commands issued. *)
Theorem processLayer_ignores_system_prompts (layer layer' : Layer.t) (input : string)
  (previousResponses : list ModelResponse) (w : World) :
  Forall2 sameInvocation (Layer.agents layer) (Layer.agents layer') ->
  processLayer env layer input previousResponses w
  = processLayer env layer' input previousResponses w.
Proof.
  intros Hsame. unfold processLayer.
  destruct (mapWorld_startAgent_same input previousResponses _ _ Hsame w)
    as [Htasks Hworld].
  destruct (mapWorld (startAgent env input previousResponses) (Layer.agents layer) w)
    as [tasks w1].
  destruct (mapWorld (startAgent env input previousResponses) (Layer.agents layer') w)
    as [tasks' w1'].
  simpl in Htasks, Hworld. subst w1'.
  now rewrite (mapWorld_resumeAgent_same input previousResponses _ _ Htasks w1).
Qed.

End NonInterference.

Lemma processLayer_ignores_system_prompts_witness :
  processLayer Examples.exampleEnv threeAgentLayer "hello" [] Examples.exampleWorld
  = processLayer Examples.exampleEnv decoratedLayer "hello" [] Examples.exampleWorld.
Proof.
  apply (processLayer_ignores_system_prompts Examples.exampleEnv threeAgentLayer
           decoratedLayer "hello" [] Examples.exampleWorld).
  repeat constructor.
Defined.

(** ** A layer when no endpoint is configured *)

Section NoEndpoints.

Variable env : Env.

Lemma startAgent_plain_fallback input previousResponses agent w :
  ollamaInstances env = [] ->
  plainOllamaAgent agent ->
  exists outcome m prompt,
    startAgent env input previousResponses agent w
    = (Settled outcome,
       logEvent (EvShell (OllamaRun (OllamaInstance.uri localhostFallback) m prompt)) w).
Proof.
  intros Hnil [Hmodel [Hinline Hfalsy]].
  unfold startAgent. rewrite (getNextInstance_no_endpoints env w Hnil), Hinline.
  set (prompt := contextualPrompt (Agent.promptTemplate agent) input previousResponses).
  set (invoked := withPrompt agent prompt (Agent.systemPrompt agent)).
  assert (Hchoose : chooseInstanceUri env invoked w
                    = (Ok (OllamaInstance.uri localhostFallback), w)).
  { unfold chooseInstanceUri. replace (truthy (Agent.instanceUri invoked)) with false.
    now rewrite (getNextInstance_no_endpoints env w Hnil). }
  pose proof (startsWith_split "ollama:" (Agent.model agent) Hmodel) as Hsplit.
  rewrite (runModel_ollama_path env invoked _ prompt _ w _ Hsplit Hchoose).
  eexists. eexists. exists prompt. reflexivity.
Qed.

(** X15: Without configured endpoints every command of a layer of plain agents
    goes to the localhost fallback, and the cursor does not move. *)
Theorem processLayer_without_endpoints (layer : Layer.t) (input : string)
  (previousResponses : list ModelResponse) (w : World) :
  ollamaInstances env = [] ->
  Forall plainOllamaAgent (Layer.agents layer) ->
  let w' := snd (processLayer env layer input previousResponses w) in
  currentInstanceIndex w' = currentInstanceIndex w /\
  exists events,
    trace w' = (trace w ++ events)%list /\
    commandHosts events
    = repeat "http://localhost:11434" (List.length (Layer.agents layer)).
Proof.
  intros Hnil Hplain w'. subst w'. unfold processLayer.
  assert (Hstart :
    forall agents w0,
      Forall plainOllamaAgent agents ->
      let result := mapWorld (startAgent env input previousResponses) agents w0 in
      Forall isSettled (fst result) /\
      currentInstanceIndex (snd result) = currentInstanceIndex w0 /\
      exists events,
        trace (snd result) = (trace w0 ++ events)%list /\
        commandHosts events = repeat "http://localhost:11434" (List.length agents)).
  { intros agents w0 Hagents. revert w0.
    induction Hagents as [|agent agents Hagent Hagents IH]; intros w0.
    - simpl. repeat split; [constructor | exists []; split; [now rewrite app_nil_r | reflexivity]].
    - destruct (startAgent_plain_fallback input previousResponses agent w0 Hnil Hagent)
        as [outcome [m [prompt Hstep]]].
      cbn [mapWorld]. rewrite Hstep.
      specialize (IH (logEvent (EvShell (OllamaRun (OllamaInstance.uri localhostFallback)
                                           m prompt)) w0)).
      destruct (mapWorld (startAgent env input previousResponses) agents _)
        as [tasks w2].
      simpl in IH. destruct IH as [Hsettled [Hcursor [events [Htrace Hhosts]]]].
      simpl. repeat split.
      + constructor; [exact I | exact Hsettled].
      + exact Hcursor.
      + eexists. split.
        * rewrite Htrace, <- app_assoc. reflexivity.
        * simpl. now rewrite Hhosts. }
  specialize (Hstart (Layer.agents layer) w Hplain).
  destruct (mapWorld (startAgent env input previousResponses) (Layer.agents layer) w)
    as [tasks w1].
  simpl in Hstart. destruct Hstart as [Hsettled H].
  pose proof (mapWorld_resume_settled env input previousResponses tasks Hsettled w1)
    as Hsame.
  destruct (mapWorld (resumeAgent env input previousResponses) tasks w1)
    as [outcomes w2].
  simpl in Hsame. subst w2. exact H.
Qed.

End NoEndpoints.

Lemma processLayer_without_endpoints_witness :
  currentInstanceIndex
    (snd (processLayer noEndpointEnv threeAgentLayer "hello" [] Examples.exampleWorld))
  = 0 /\
  exists events,
    trace (snd (processLayer noEndpointEnv threeAgentLayer "hello" []
                  Examples.exampleWorld))
    = (trace Examples.exampleWorld ++ events)%list /\
    commandHosts events = repeat "http://localhost:11434" 3.
Proof.
  apply (processLayer_without_endpoints noEndpointEnv threeAgentLayer "hello" []
           Examples.exampleWorld).
  - reflexivity.
  - repeat constructor.
Defined.

(** ** The join of the earlier chain script *)

Section JoinFacts.

Import Join.

Lemma add_NaN_l (x : JsNumber.Number) : add JsNumber.NaN x = JsNumber.NaN.
Proof.
  reflexivity.
Qed.

Lemma add_NaN_r (x : JsNumber.Number) : add x JsNumber.NaN = JsNumber.NaN.
Proof.
  destruct x; reflexivity.
Qed.

Lemma weightedSum_NaN (outputs : list string) :
  forall idx, weightedSum idx JsNumber.NaN outputs = JsNumber.NaN.
Proof.
  induction outputs as [|output rest IH]; intros idx; [reflexivity|].
  simpl. apply IH.
Qed.

Lemma weightedSum_beyond (output : string) (rest : list string) (idx : nat)
  (acc : JsNumber.Number) :
  2 <= idx ->
  weightedSum idx acc (output :: rest) = JsNumber.NaN.
Proof.
  intros Hidx. cbn [weightedSum].
  replace (weightAt weights idx) with JsNumber.NaN.
  - rewrite mul_NaN, add_NaN_r. apply weightedSum_NaN.
  - unfold weightAt. symmetry.
    replace (nth_error weights idx) with (@None JsNumber.Number); [reflexivity|].
    symmetry. apply nth_error_None. simpl. exact Hidx.
Qed.

Lemma weightedSum_long (outputs : list string) :
  forall idx acc,
    3 <= idx + List.length outputs ->
    outputs <> [] ->
    weightedSum idx acc outputs = JsNumber.NaN.
Proof.
  induction outputs as [|output rest IH]; intros idx acc Hlen Hne; [contradiction|].
  destruct (Nat.le_gt_cases 2 idx) as [Hidx | Hidx].
  - now apply weightedSum_beyond.
  - cbn [weightedSum]. apply IH.
    + simpl in Hlen. lia.
    + intros Hnil. rewrite Hnil in Hlen. simpl in Hlen. lia.
Qed.

(** X26: The weighted join has two weights: with three outputs or more, the
    third one is multiplied by a missing weight and the result is
    "NaN", whatever the outputs are. *)
Theorem moaJoin_weighted_three_or_more (outputs : list string) :
  3 <= List.length outputs ->
  moaJoin outputs joinWeighted = "NaN".
Proof.
  intros Hlen. unfold moaJoin.
  rewrite weightedSum_long; [reflexivity | lia | ].
  intros Hnil. rewrite Hnil in Hlen. simpl in Hlen. lia.
Qed.





End JoinFacts.

Lemma moaJoin_weighted_three_or_more_witness :
  Join.moaJoin ["4"; "4"; "4"] Join.joinWeighted = "NaN".
Proof.
  apply (moaJoin_weighted_three_or_more ["4"; "4"; "4"]).
  simpl. lia.
Defined.

(** The average of "1", "2" and " 6 " with a word among them is 3; two
    outputs "4" have the weighted join 2, since the weighted sum is
    divided by the number of weights. *)
Example moaJoin_examples :
  Join.moaJoin ["1"; "2"; "x"; " 6 "] Join.joinAverage = "3" /\
  Join.moaJoin ["4"; "4"] Join.joinWeighted = "2" /\
  map (fun s => JsNumber.toString (Join.parseFloat s))
      ["12px"; " 3.5e2x"; "1e"; ".5"; "."; "-Infinityx"; "0x10"]
  = ["12"; "350"; "1"; "0.5"; "NaN"; "-Infinity"; "0"].
Proof.
  repeat split; vm_compute; reflexivity.
Qed.

